(** * Weather dashboard: city directory, weather client and fetch coordinator

    A shallow embedding of [GuI_weather_report.py] (the Tk front-end) and of
    the forecast fetch of [Web_page_weather_report.py], with the properties
    of the city directory, the weather client, the worker / poll-loop
    coordinator, the comparison set and the report formatters. *)

From Stdlib Require Import ZArith NArith Bool String Ascii Lia DecimalString.
From stdpp Require Import base tactics option list sorting.

#[local] Set Warnings "-register-all".
Local Open Scope N_scope.

(** ** Python strings

    A Python [str] is a sequence of Unicode code points.  String literals of
    the source are written as Rocq strings (UTF-8 bytes) and decoded. *)

Abbreviation pystr := (list N).

Fixpoint utf8_decode (s : string) (need : nat) (acc : N) : pystr :=
  match s with
  | EmptyString => []
  | String a rest =>
      let b := N_of_ascii a in
      match need with
      | O =>
          if b <? 128 then b :: utf8_decode rest 0 0
          else if b <? 224 then utf8_decode rest 1 (N.land b 31)
          else if b <? 240 then utf8_decode rest 2 (N.land b 15)
          else utf8_decode rest 3 (N.land b 7)
      | S n =>
          let acc' := acc * 64 + N.land b 63 in
          match n with
          | O => acc' :: utf8_decode rest 0 0
          | S _ => utf8_decode rest n acc'
          end
      end
  end.

Definition py (s : string) : pystr := utf8_decode s 0 0.

(** [needle in hay] on strings: [needle] occurs as a contiguous run. *)
Fixpoint starts_with (needle hay : pystr) : bool :=
  match needle, hay with
  | [], _ => true
  | _ :: _, [] => false
  | a :: needle', b :: hay' => (a =? b) && starts_with needle' hay'
  end.

Fixpoint str_in (needle hay : pystr) : bool :=
  starts_with needle hay ||
  match hay with
  | [] => false
  | _ :: hay' => str_in needle hay'
  end.

(** The relation [str_in] decides. *)
Definition substring (s c : pystr) : Prop := ∃ pre post, c = pre ++ s ++ post.

(** [a <= b] on strings: lexicographic on code points. *)
Fixpoint str_leb (a b : pystr) : bool :=
  match a, b with
  | [], _ => true
  | _ :: _, [] => false
  | x :: a', y :: b' => (x <? y) || ((x =? y) && str_leb a' b')
  end.

Definition str_le (a b : pystr) : Prop := str_leb a b = true.

Global Instance str_le_dec a b : Decision (str_le a b).
Proof. unfold str_le. apply _. Defined.

(** [sorted(l)] on a list of strings.  The order is total and two strings
    that compare equal are the same string, so every sorting algorithm
    returns the same list. *)
Definition sorted (l : list pystr) : list pystr := merge_sort str_le l.

(** [str.lower()] of one code point below 256: the letters A-Z and the
    capital letters of Latin-1 (U+00C0 to U+00DE, the sign U+00D7 apart)
    move up by 32. *)
Definition lower_cp (c : N) : N :=
  if ((65 <=? c) && (c <=? 90)) ||
     ((192 <=? c) && (c <=? 222) && negb (c =? 215))
  then c + 32 else c.

Definition latin1 (s : pystr) : bool := forallb (λ c, c <? 256) s.

(** What the Python run time does outside the fragment written out here. *)
Class Unicode := {
  (** [str.lower()] of a string with a code point above 255 *)
  lower_beyond : pystr → pystr;
  (** [str.title()] *)
  str_title : pystr → pystr;
}.

Definition str_lower `{Unicode} (s : pystr) : pystr :=
  if latin1 s then map lower_cp s else lower_beyond s.

(** ** WorldCitiesDatabase *)

Module WorldCitiesDatabase.

(** [self.cities]: a dict of dicts of lists.  Python dicts iterate in
    insertion order, so the nesting is kept as association lists in the
    order of the literal. *)
Definition catalog := list (pystr * list (pystr * list pystr)).

Definition mk_catalog (src : list (string * list (string * list string))) : catalog :=
  map (λ ct, (py ct.1, map (λ co, (py co.1, map py co.2)) ct.2)) src.

Local Open Scope string_scope.

Definition cities : catalog := Eval vm_compute in mk_catalog [
   ("North America", [
      ("United States", [
         "New York"; "Los Angeles"; "Chicago"; "Houston"; "Phoenix";
         "Philadelphia"; "San Antonio"; "San Diego"; "Dallas"; "San Jose";
         "Austin"; "Jacksonville"; "San Francisco"; "Columbus"; "Charlotte";
         "Fort Worth"; "Indianapolis"; "Seattle"; "Denver"; "Washington DC";
         "Boston"; "El Paso"; "Nashville"; "Detroit"; "Oklahoma City";
         "Portland"; "Las Vegas"; "Memphis"; "Louisville"; "Baltimore";
         "Milwaukee"; "Albuquerque"; "Tucson"; "Fresno"; "Sacramento";
         "Kansas City"; "Mesa"; "Atlanta"; "Colorado Springs"; "Omaha";
         "Raleigh"; "Miami"; "Cleveland"; "Tulsa"; "Oakland";
         "Minneapolis" ]);
      ("Canada", [
         "Toronto"; "Montreal"; "Vancouver"; "Calgary"; "Edmonton";
         "Ottawa"; "Winnipeg"; "Quebec City"; "Hamilton"; "Kitchener";
         "London"; "Victoria"; "Halifax"; "Oshawa"; "Windsor" ]);
      ("Mexico", [
         "Mexico City"; "Guadalajara"; "Monterrey"; "Puebla"; "Tijuana";
         "León"; "Juárez"; "Torreón"; "Querétaro"; "San Luis Potosí" ]) ]);
   ("South America", [
      ("Brazil", [
         "São Paulo"; "Rio de Janeiro"; "Brasília"; "Salvador"; "Fortaleza";
         "Belo Horizonte"; "Manaus"; "Curitiba"; "Recife"; "Porto Alegre" ]);
      ("Argentina", [
         "Buenos Aires"; "Córdoba"; "Rosario"; "Mendoza"; "Tucumán";
         "La Plata"; "Mar del Plata"; "Salta"; "Santa Fe"; "San Juan" ]);
      ("Chile", [
         "Santiago"; "Valparaíso"; "Concepción"; "La Serena"; "Antofagasta";
         "Temuco"; "Rancagua"; "Talca"; "Arica"; "Chillán" ]);
      ("Colombia", [
         "Bogotá"; "Medellín"; "Cali"; "Barranquilla"; "Cartagena";
         "Cúcuta"; "Bucaramanga"; "Pereira"; "Santa Marta"; "Ibagué" ]) ]);
   ("Europe", [
      ("United Kingdom", [
         "London"; "Birmingham"; "Manchester"; "Glasgow"; "Liverpool";
         "Leeds"; "Sheffield"; "Edinburgh"; "Bristol"; "Cardiff" ]);
      ("Germany", [
         "Berlin"; "Hamburg"; "Munich"; "Cologne"; "Frankfurt";
         "Stuttgart"; "Düsseldorf"; "Dortmund"; "Essen"; "Leipzig" ]);
      ("France", [
         "Paris"; "Marseille"; "Lyon"; "Toulouse"; "Nice";
         "Nantes"; "Strasbourg"; "Montpellier"; "Bordeaux"; "Lille" ]);
      ("Italy", [
         "Rome"; "Milan"; "Naples"; "Turin"; "Palermo";
         "Genoa"; "Bologna"; "Florence"; "Bari"; "Catania" ]);
      ("Spain", [
         "Madrid"; "Barcelona"; "Valencia"; "Seville"; "Zaragoza";
         "Málaga"; "Murcia"; "Palma"; "Las Palmas"; "Bilbao" ]);
      ("Russia", [
         "Moscow"; "Saint Petersburg"; "Novosibirsk"; "Yekaterinburg"; "Nizhny Novgorod";
         "Kazan"; "Chelyabinsk"; "Omsk"; "Samara"; "Rostov-on-Don" ]) ]);
   ("Asia", [
      ("China", [
         "Beijing"; "Shanghai"; "Guangzhou"; "Shenzhen"; "Tianjin";
         "Wuhan"; "Dongguan"; "Chengdu"; "Nanjing"; "Chongqing" ]);
      ("India", [
         "Mumbai"; "Delhi"; "Bangalore"; "Hyderabad"; "Ahmedabad";
         "Chennai"; "Kolkata"; "Surat"; "Pune"; "Jaipur" ]);
      ("Japan", [
         "Tokyo"; "Yokohama"; "Osaka"; "Nagoya"; "Sapporo";
         "Fukuoka"; "Kobe"; "Kawasaki"; "Kyoto"; "Saitama" ]);
      ("South Korea", [
         "Seoul"; "Busan"; "Incheon"; "Daegu"; "Daejeon";
         "Gwangju"; "Suwon"; "Ulsan"; "Changwon"; "Goyang" ]);
      ("Thailand", [
         "Bangkok"; "Samut Prakan"; "Mueang Nonthaburi"; "Udon Thani"; "Chon Buri";
         "Nakhon Ratchasima"; "Chiang Mai"; "Hat Yai"; "Pak Kret"; "Si Racha" ]) ]);
   ("Africa", [
      ("Nigeria", [
         "Lagos"; "Kano"; "Ibadan"; "Kaduna"; "Port Harcourt";
         "Benin City"; "Maiduguri"; "Zaria"; "Aba"; "Jos" ]);
      ("Egypt", [
         "Cairo"; "Alexandria"; "Giza"; "Shubra El Kheima"; "Port Said";
         "Suez"; "Luxor"; "Mansoura"; "El Mahalla El Kubra"; "Tanta" ]);
      ("South Africa", [
         "Cape Town"; "Johannesburg"; "Durban"; "Pretoria"; "Port Elizabeth";
         "Pietermaritzburg"; "Benoni"; "Tembisa"; "East London"; "Vereeniging" ]) ]);
   ("Oceania", [
      ("Australia", [
         "Sydney"; "Melbourne"; "Brisbane"; "Perth"; "Adelaide";
         "Gold Coast"; "Newcastle"; "Canberra"; "Sunshine Coast"; "Wollongong" ]);
      ("New Zealand", [
         "Auckland"; "Wellington"; "Christchurch"; "Hamilton"; "Tauranga";
         "Napier-Hastings"; "Dunedin"; "Palmerston North"; "Nelson"; "Rotorua" ]) ]) ].

(** The curated list of [get_popular_cities]. *)
Definition popular : list pystr := Eval vm_compute in map py [
  "New York"; "London"; "Tokyo"; "Paris"; "Singapore"; "Sydney"; "Dubai";
  "Hong Kong"; "Los Angeles"; "Barcelona"; "Amsterdam"; "Seoul"; "Berlin";
  "Rome"; "Madrid"; "Mumbai"; "Bangkok"; "Istanbul"; "Vienna"; "Prague";
  "Buenos Aires"; "São Paulo"; "Mexico City"; "Cairo"; "Moscow"; "Delhi";
  "Shanghai"; "Beijing"; "Toronto"; "Vancouver"; "Montreal"; "Chicago";
  "San Francisco"; "Miami"; "Las Vegas"; "Orlando"; "Boston"; "Washington DC" ].

Local Close Scope string_scope.

(** The nested [for] loops over [self.cities.values()] and
    [continent.values()], in traversal order. *)
Definition countries_of (db : catalog) : list (list pystr) :=
  flat_map (λ continent, map snd continent.2) db.

(** What the loop of [get_all_cities] collects, before sorting. *)
Definition all_cities (db : catalog) : list pystr :=
  flat_map (λ country, country) (countries_of db).

Definition get_all_cities (db : catalog) : list pystr :=
  sorted (all_cities db).

Definition search_cities `{Unicode} (db : catalog) (query : pystr) : list pystr :=
  let query := str_lower query in
  let matching_cities :=
    flat_map (λ country, filter (λ city, str_in query (str_lower city) = true) country)
             (countries_of db) in
  sorted matching_cities.

(** [popular[:limit]]: a slice end below zero counts from the end of the
    list. *)
Definition slice_to {A} (l : list A) (limit : Z) : list A :=
  if (limit <? 0)%Z
  then take (Z.to_nat (Z.of_nat (length l) + limit)) l
  else take (Z.to_nat limit) l.

Definition get_popular_cities (limit : Z) : list pystr := slice_to popular limit.

End WorldCitiesDatabase.

(** ** Python values and exceptions *)

(** The numbers of a JSON payload ([int] and [float] values) and the
    arithmetic and formatting the program applies to them. *)
Class PyNum := {
  num : Type;
  (** an [int] *)
  num_of_Z : Z → num;
  (** [x == y], [x < y] *)
  num_eqb : num → num → bool;
  num_ltb : num → num → bool;
  (** [x + y]; [None] when it raises [OverflowError], as the sum of a
      [float] and of an [int] beyond the range of a [float] does *)
  num_add : num → num → option num;
  (** a [float], which is what [x / y] gives *)
  float : Type;
  (** [x / y] for a [y] that is not zero; [None] when it raises
      [OverflowError], as it does when an [int] operand that meets a
      [float], or the quotient of two [int]s, is beyond the range of a
      [float] *)
  num_div : num → num → option float;
  (** [str(x)], which is also [format(x, '')] *)
  num_str : num → pystr;
  float_str : float → pystr;
  (** [format(x, '.Nf')]; [None] when it raises [OverflowError], as it
      does for an [int] beyond the range of a [float] *)
  num_fmt : nat → num → option pystr;
  float_fmt : nat → float → pystr;
}.

(** A value decoded by [response.json()].  [JNull] is Python's [None]; an
    object lists its items in insertion order, with distinct keys. *)
Inductive json `{PyNum} : Type :=
  | JNull
  | JBool (b : bool)
  | JNum (n : num)
  | JStr (s : pystr)
  | JArr (items : list json)
  | JObj (fields : list (pystr * json)).

(** The key of a [KeyError]: a dict of a payload is indexed with a string
    or, by [weather[0]] on a dict, with an [int]. *)
Inductive pykey :=
  | KStr (s : pystr)
  | KInt (i : Z).

Inductive exn :=
  | KeyError (k : pykey)
  | IndexError
  | TypeError
  | ValueError
  | AttributeError
  (** of [+], [/] and [format] on an [int] beyond the range of a [float],
      and of [/] by zero *)
  | OverflowError
  | ZeroDivisionError
  (** [OverflowError], [OSError] or [ValueError] of
      [datetime.fromtimestamp], by platform *)
  | TimestampError.

Definition res (A : Type) : Type := exn + A.

Definition bind {A B} (m : res A) (k : A → res B) : res B :=
  match m with
  | inl e => inl e
  | inr a => k a
  end.

Notation "'let*' x := m 'in' k" := (bind m (λ x, k))
  (at level 10, x name, m at level 100, k at level 200).

(** A list comprehension whose element expression may raise. *)
Fixpoint map_res {A B} (f : A → res B) (l : list A) : res (list B) :=
  match l with
  | [] => inr []
  | a :: l' => let* b := f a in let* bs := map_res f l' in inr (b :: bs)
  end.

(** [d[k]] on the items of a dict with string keys. *)
Fixpoint dict_lookup {V} (fields : list (pystr * V)) (k : pystr) : option V :=
  match fields with
  | [] => None
  | (k', v) :: rest => if decide (k' = k) then Some v else dict_lookup rest k
  end.

Section Values.
Context `{PyNum}.

(** [v[k]] with a string [k]. *)
Definition subscript (v : json) (k : pystr) : res json :=
  match v with
  | JObj fields =>
      match dict_lookup fields k with
      | Some x => inr x
      | None => inl (KeyError (KStr k))
      end
  | _ => inl TypeError
  end.

(** [v[0]]. *)
Definition subscript0 (v : json) : res json :=
  match v with
  | JArr (x :: _) => inr x
  | JArr [] => inl IndexError
  | JStr (c :: _) => inr (JStr [c])
  | JStr [] => inl IndexError
  | JObj _ => inl (KeyError (KInt 0))
  | _ => inl TypeError
  end.

(** [v.get(k, default)]. *)
Definition method_get (v : json) (k : pystr) (default : json) : res json :=
  match v with
  | JObj fields => inr (from_option id default (dict_lookup fields k))
  | _ => inl AttributeError
  end.

(** [v.title()]. *)
Definition method_title `{Unicode} (v : json) : res pystr :=
  match v with
  | JStr s => inr (str_title s)
  | _ => inl AttributeError
  end.

(** [bool(v)]. *)
Definition truthy (v : json) : bool :=
  match v with
  | JNull => false
  | JBool b => b
  | JNum n => negb (num_eqb n (num_of_Z 0))
  | JStr s => negb (bool_decide (s = []))
  | JArr items => negb (bool_decide (items = []))
  | JObj fields => negb (bool_decide (fields = []))
  end.

(** Where Python takes a number: [bool] is a subclass of [int]. *)
Definition as_num (v : json) : option num :=
  match v with
  | JNum n => Some n
  | JBool b => Some (num_of_Z (Z.b2z b))
  | _ => None
  end.

(** [for item in v]. *)
Definition py_iter (v : json) : res (list json) :=
  match v with
  | JArr items => inr items
  | JObj fields => inr (map (λ kv, JStr kv.1) fields)
  | JStr s => inr (map (λ c, JStr [c]) s)
  | _ => inl TypeError
  end.

(** [format(v, '.Nf')] *)
Definition format_f (digits : nat) (v : json) : res pystr :=
  match v with
  | JStr _ => inl ValueError
  | _ =>
      match as_num v with
      | Some n =>
          match num_fmt digits n with
          | Some s => inr s
          | None => inl OverflowError
          end
      | None => inl TypeError
      end
  end.

(** [x == y] for two hashable payload values. *)
Definition atom_eqb (x y : json) : bool :=
  match x, y with
  | JNull, JNull => true
  | JStr s, JStr t => bool_decide (s = t)
  | _, _ =>
      match as_num x, as_num y with
      | Some n, Some m => num_eqb n m
      | _, _ => false
      end
  end.

(** [v != s] for a string [s]. *)
Definition str_neb (v : json) (s : pystr) : bool :=
  match v with
  | JStr t => negb (bool_decide (t = s))
  | _ => true
  end.

Definition hashable (v : json) : bool :=
  match v with
  | JArr _ | JObj _ => false
  | _ => true
  end.

End Values.

(** The rest of the run time: the clock, and what Python does with values
    of a payload outside the fragment written out above. *)
Class PyHost `{PyNum} := {
  datetime : Type;
  date : Type;
  date_eq_dec :: EqDecision date;
  (** [datetime.fromtimestamp(x)]; [None] when it raises *)
  fromtimestamp : num → option datetime;
  (** [d.date()], [d.strftime(fmt)] on a datetime and on a date *)
  dt_date : datetime → date;
  strftime : datetime → pystr → pystr;
  date_strftime : date → pystr → pystr;
  (** [datetime.now()] *)
  now : datetime;
  (** [str(v)] of a list or a dict *)
  str_compound : json → pystr;
  (** [min(l)] and [max(l)] of a list with an element that is no number *)
  min_other : list json → res json;
  max_other : list json → res json;
  (** the order in which [set(l)] iterates: [l] without repetitions, in an
      order that depends on the hashes *)
  set_order : list json → list json;
  set_order_nonempty : ∀ l, l ≠ [] → set_order l ≠ [];
  set_order_elem_of : ∀ l x, x ∈ set_order l → x ∈ l;
  (** [str(e)] of an exception *)
  exn_str : exn → pystr;
}.

(** ** The HTTP session

    [requests.Session.get] either raises a [RequestException] or returns a
    response; the network it talks to is state that each call may change. *)

Inductive param :=
  | PStr (s : pystr)
  | PInt (i : Z).

Record request := {
  url : pystr;
  params : list (pystr * param);
  timeout : option Z;
}.

Inductive request_exception :=
  (** DNS failure, refused connection *)
  | ConnectionError
  | Timeout
  (** [TooManyRedirects], [InvalidURL], ... *)
  | OtherRequestException.

Inductive outcome `{PyNum} :=
  | Raised (e : request_exception)
  (** a response with its status code and its body as [json()] decodes it,
      [None] for a body that is not JSON *)
  | Response (status_code : Z) (body : option json).

Class Session `{PyNum} := {
  world : Type;
  session_get : request → world → outcome * world;
  (** whether the decoding error of [Response.json()] is a
      [RequestException] (requests 2.27 and later) or a plain
      [ValueError] *)
  json_error_is_request_exception : bool;
}.

(** [Response.raise_for_status()] raises [HTTPError] for the client and
    server error codes. *)
Definition raise_for_status (status_code : Z) : bool :=
  ((400 <=? status_code) && (status_code <? 600))%Z.

Definition base_url : pystr := py "https://api.openweathermap.org/data/2.5".

Module WeatherAPI.
Section WeatherAPI.
Context `{Session}.

(** The [try] block after [session.get], with [failure] what the
    [except requests.exceptions.RequestException] clause returns. *)
Definition receive (failure : json) (o : outcome) : res json :=
  match o with
  | Raised _ => inr failure
  | Response status_code body =>
      if raise_for_status status_code then inr failure
      else match body with
           | Some payload => inr payload
           | None =>
               if json_error_is_request_exception then inr failure
               else inl ValueError
           end
  end.

Definition weather_request (api_key city : pystr) : request :=
  {| url := base_url ++ py "/weather";
     params := [(py "q", PStr city); (py "appid", PStr api_key);
                (py "units", PStr (py "metric"))];
     timeout := Some 10%Z |}.

Definition get_weather_data (api_key city : pystr) (w : world) : res json * world :=
  let (o, w') := session_get (weather_request api_key city) w in
  (receive JNull o, w').

Definition forecast_request (api_key city : pystr) (days : Z) : request :=
  {| url := base_url ++ py "/forecast";
     params := [(py "q", PStr city); (py "appid", PStr api_key);
                (py "units", PStr (py "metric")); (py "cnt", PInt (days * 8))];
     timeout := Some 10%Z |}.

Definition get_forecast_data (api_key city : pystr) (days : Z) (w : world)
  : res json * world :=
  let (o, w') := session_get (forecast_request api_key city days) w in
  (receive JNull o, w').

End WeatherAPI.
End WeatherAPI.

(** The forecast fetch of the document front-end
    ([Web_page_weather_report.py]): no [cnt], no timeout, and an empty dict
    on failure. *)
Module IntegratedWeatherDashboard.
Section IntegratedWeatherDashboard.
Context `{Session}.

Definition forecast_request (api_key city : pystr) : request :=
  {| url := base_url ++ py "/forecast";
     params := [(py "q", PStr city); (py "appid", PStr api_key);
                (py "units", PStr (py "metric"))];
     timeout := None |}.

Definition get_forecast_data (api_key city : pystr) (w : world) : res json * world :=
  let (o, w') := session_get (forecast_request api_key city) w in
  (WeatherAPI.receive (JObj []) o, w').

End IntegratedWeatherDashboard.
End IntegratedWeatherDashboard.

(** ** WeatherDashboardGUI *)

Module WeatherDashboardGUI.
Import WorldCitiesDatabase.

Definition unknown : pystr := py "Unknown".

(** A loop that returns from the function at the first hit. *)
Fixpoint first_some {A B} (f : A → option B) (l : list A) : option B :=
  match l with
  | [] => None
  | a :: l' =>
      match f a with
      | Some b => Some b
      | None => first_some f l'
      end
  end.

(** The lists of cities with their continent and country, in traversal
    order: continents in insertion order, then countries in insertion
    order. *)
Definition entries (db : catalog) : list (pystr * pystr * list pystr) :=
  flat_map (λ continent, map (λ country, (continent.1, country.1, country.2)) continent.2) db.

Definition find_city_location (db : catalog) (city : pystr) : pystr * pystr :=
  from_option id (unknown, unknown)
    (first_some (λ continent,
       first_some (λ country,
         if decide (city ∈ country.2) then Some (continent.1, country.1) else None)
         continent.2)
       db).

(** [add_comparison_city], on the contents of [cities_listbox];
    [selected_city] is what the selection dialog returned. *)
Definition add_comparison_city (selected_city : option pystr) (listbox : list pystr)
  : list pystr :=
  match selected_city with
  | Some city =>
      if bool_decide (city = []) then listbox
      else if decide (city ∈ listbox) then listbox
      else listbox ++ [city]
  | None => listbox
  end.

(** [remove_comparison_city], with [selection] the index of the selected
    line if there is one, and [clear_comparison_cities]. *)
Definition remove_comparison_city (selection : option nat) (listbox : list pystr)
  : list pystr :=
  match selection with
  | Some i => delete i listbox
  | None => listbox
  end.

Definition clear_comparison_cities (listbox : list pystr) : list pystr := [].

(** The contents [cities_listbox] can have: nothing else writes to it. *)
Inductive comparison_set : list pystr → Prop :=
  | cs_init : comparison_set []
  | cs_add selected_city l :
      comparison_set l → comparison_set (add_comparison_city selected_city l)
  | cs_remove selection l :
      comparison_set l → comparison_set (remove_comparison_city selection l)
  | cs_clear l :
      comparison_set l → comparison_set (clear_comparison_cities l).

Section Formatting.
Context `{PyHost} `{Unicode}.

Definition nl : pystr := [10].

(** [str(v)], which is what an f-string field without a format does. *)
Definition py_str (v : json) : pystr :=
  match v with
  | JNull => py "None"
  | JBool true => py "True"
  | JBool false => py "False"
  | JNum n => num_str n
  | JStr s => s
  | _ => str_compound v
  end.

Definition subscript2 (v : json) (a b : string) : res json :=
  let* x := subscript v (py a) in subscript x (py b).

(** [v['weather'][0]['description']] *)
Definition description_of (v : json) : res json :=
  let* w := subscript v (py "weather") in
  let* w0 := subscript0 w in
  subscript w0 (py "description").

Definition py_fromtimestamp (v : json) : res datetime :=
  match as_num v with
  | Some n =>
      match fromtimestamp n with
      | Some d => inr d
      | None => inl TimestampError
      end
  | None => inl TypeError
  end.

Definition rule : pystr := repeat 9552 62.

Definition key_error_str (k : pykey) : pystr :=
  match k with
  | KStr s => py "'" ++ s ++ py "'"
  | KInt i => num_str (num_of_Z i)
  end.

(** The [try] block of [format_current_weather]. *)
Definition format_current_weather_body (data : json) : res pystr :=
  let* city := subscript data (py "name") in
  let* country := subscript2 data "sys" "country" in
  let* temp := subscript2 data "main" "temp" in
  let* feels_like := subscript2 data "main" "feels_like" in
  let* humidity := subscript2 data "main" "humidity" in
  let* pressure := subscript2 data "main" "pressure" in
  let* description := (let* d := description_of data in method_title d) in
  let* wind_speed := subscript2 data "wind" "speed" in
  let* wind_deg :=
    (let* wind := subscript data (py "wind") in
     method_get wind (py "deg") (JNum (num_of_Z 0))) in
  let* visibility := method_get data (py "visibility") (JStr (py "N/A")) in
  let* sunrise :=
    (let* t := subscript2 data "sys" "sunrise" in
     let* d := py_fromtimestamp t in inr (strftime d (py "%H:%M:%S"))) in
  let* sunset :=
    (let* t := subscript2 data "sys" "sunset" in
     let* d := py_fromtimestamp t in inr (strftime d (py "%H:%M:%S"))) in
  let* visibility_km :=
    (if negb (str_neb visibility (py "N/A")) then inr (py "N/A")
     else match as_num visibility with
          | Some n =>
              match num_div n (num_of_Z 1000) with
              | Some km => inr (float_str km)
              | None => inl OverflowError
              end
          | None => inl TypeError
          end) in
  (* the f-string, after [.strip()] *)
  inr (py "╔" ++ rule ++ py "╗" ++ nl ++
       py "║                     CURRENT WEATHER REPORT                   ║" ++ nl ++
       py "╠" ++ rule ++ py "╣" ++ nl ++
       py "║ Location: " ++ py_str city ++ py ", " ++ py_str country ++ nl ++
       py "║ Last Updated: " ++ strftime now (py "%Y-%m-%d %H:%M:%S") ++ nl ++
       py "║" ++ nl ++
       py "║ TEMPERATURE INFORMATION:" ++ nl ++
       py "║ ├─ Current Temperature: " ++ py_str temp ++ py "°C" ++ nl ++
       py "║ ├─ Feels Like: " ++ py_str feels_like ++ py "°C" ++ nl ++
       py "║ ├─ Condition: " ++ description ++ nl ++
       py "║" ++ nl ++
       py "║ ATMOSPHERIC CONDITIONS:" ++ nl ++
       py "║ ├─ Humidity: " ++ py_str humidity ++ py "%" ++ nl ++
       py "║ ├─ Pressure: " ++ py_str pressure ++ py " hPa" ++ nl ++
       py "║ ├─ Visibility: " ++ visibility_km ++ py " km" ++ nl ++
       py "║" ++ nl ++
       py "║ WIND INFORMATION:" ++ nl ++
       py "║ ├─ Speed: " ++ py_str wind_speed ++ py " m/s" ++ nl ++
       py "║ ├─ Direction: " ++ py_str wind_deg ++ py "°" ++ nl ++
       py "║" ++ nl ++
       py "║ SUN INFORMATION:" ++ nl ++
       py "║ ├─ Sunrise: " ++ sunrise ++ nl ++
       py "║ ├─ Sunset: " ++ sunset ++ nl ++
       py "║" ++ nl ++
       py "╚" ++ rule ++ py "╝").

Definition format_current_weather (data : json) : res pystr :=
  match format_current_weather_body data with
  | inl (KeyError k) =>
      inr (py "Error formatting weather data: Missing key " ++ key_error_str k)
  | r => r
  end.

(** [daily_forecasts[date].append(item)], creating the entry of a new date
    at the end of the dict. *)
Fixpoint group_add (groups : list (date * list json)) (d : date) (item : json)
  : list (date * list json) :=
  match groups with
  | [] => [(d, [item])]
  | (d', fs) :: rest =>
      if decide (d' = d) then (d', fs ++ [item]) :: rest
      else (d', fs) :: group_add rest d item
  end.

Fixpoint group_by_date (items : list json) (groups : list (date * list json))
  : res (list (date * list json)) :=
  match items with
  | [] => inr groups
  | item :: rest =>
      let* t := subscript item (py "dt") in
      let* d := py_fromtimestamp t in
      group_by_date rest (group_add groups (dt_date d) item)
  end.

(** [min(l)] and [max(l)]: the first of the smallest (greatest) elements. *)
Definition all_numbers (l : list json) : option (list num) := mapM as_num l.

Fixpoint best_by (better : num → num → bool) (best : json * num)
    (l : list (json * num)) : json :=
  match l with
  | [] => best.1
  | x :: l' => best_by better (if better x.2 best.2 then x else best) l'
  end.

Definition py_min (l : list json) : res json :=
  match l, all_numbers l with
  | [], _ => inl ValueError
  | x :: l', Some (n :: ns) => inr (best_by num_ltb (x, n) (zip l' ns))
  | _, _ => min_other l
  end.

Definition py_max (l : list json) : res json :=
  match l, all_numbers l with
  | [], _ => inl ValueError
  | x :: l', Some (n :: ns) => inr (best_by (λ a b, num_ltb b a) (x, n) (zip l' ns))
  | _, _ => max_other l
  end.

(** [max(set(conditions), key=conditions.count)] *)
Definition count (l : list json) (x : json) : nat :=
  length (filter (λ y, atom_eqb x y = true) l).

Fixpoint max_by_key (key : json → nat) (best : json) (l : list json) : json :=
  match l with
  | [] => best
  | x :: l' => max_by_key key (if decide (key best < key x)%nat then x else best) l'
  end.

Definition most_common (conditions : list json) : res json :=
  if forallb hashable conditions then
    match set_order conditions with
    | [] => inl ValueError
    | x :: rest => inr (max_by_key (count conditions) x rest)
    end
  else inl TypeError.

(** [sum(f(x) for x in l)], from the [int] zero. *)
Fixpoint py_sum (f : json → res json) (l : list json) (acc : num) : res num :=
  match l with
  | [] => inr acc
  | x :: l' =>
      let* v := f x in
      match as_num v with
      | Some n =>
          match num_add acc n with
          | Some acc' => py_sum f l' acc'
          | None => inl OverflowError
          end
      | None => inl TypeError
      end
  end.

(** [sum(f['main'][field] for f in forecasts) / len(forecasts)] *)
Definition average (field : string) (forecasts : list json) : res float :=
  let* total := py_sum (λ f, subscript2 f "main" field) forecasts (num_of_Z 0) in
  match forecasts with
  | [] => inl ZeroDivisionError
  | _ =>
      match num_div total (num_of_Z (Z.of_nat (length forecasts))) with
      | Some avg => inr avg
      | None => inl OverflowError
      end
  end.

(** One line of the hourly details. *)
Definition hourly_line (forecast : json) : res pystr :=
  let* time :=
    (let* t := subscript forecast (py "dt") in
     let* d := py_fromtimestamp t in inr (strftime d (py "%H:%M"))) in
  let* temp := subscript2 forecast "main" "temp" in
  let* desc := (let* d := description_of forecast in method_title d) in
  inr (py "  " ++ time ++ py ": " ++ py_str temp ++ py "°C, " ++ desc ++ nl).

(** The body of the loop over the days: what it appends to
    [forecast_info]. *)
Definition day_summary (day : date * list json) : res pystr :=
  let (date, forecasts) := day in
  let date_str := date_strftime date (py "%A, %B %d, %Y") in
  let* temps := map_res (λ f, subscript2 f "main" "temp") forecasts in
  let* min_temp := py_min temps in
  let* max_temp := py_max temps in
  let* conditions := map_res description_of forecasts in
  let* most_common_condition :=
    (let* c := most_common conditions in method_title c) in
  let* avg_humidity := average "humidity" forecasts in
  let* avg_pressure := average "pressure" forecasts in
  let* min_temp_s := format_f 1 min_temp in
  let* max_temp_s := format_f 1 max_temp in
  let* hourly := map_res hourly_line (take 4 forecasts) in
  inr (nl ++ date_str ++ nl ++ repeat 61 60 ++ nl ++
       nl ++
       py "Temperature Range: " ++ min_temp_s ++ py "°C - " ++ max_temp_s ++ py "°C" ++ nl ++
       py "Condition: " ++ most_common_condition ++ nl ++
       py "Average Humidity: " ++ float_fmt 0 avg_humidity ++ py "%" ++ nl ++
       py "Average Pressure: " ++ float_fmt 0 avg_pressure ++ py " hPa" ++ nl ++
       nl ++
       py "Hourly Details:" ++ nl ++
       concat hourly ++
       nl).

(** The [try] block of [format_forecast]. *)
Definition format_forecast_body (data : json) : res pystr :=
  let* city := subscript2 data "city" "name" in
  let* country := subscript2 data "city" "country" in
  let forecast_info :=
    nl ++
    py "╔" ++ rule ++ py "╗" ++ nl ++
    py "║                    5-DAY WEATHER FORECAST                    ║" ++ nl ++
    py "╠" ++ rule ++ py "╣" ++ nl ++
    py "║ Location: " ++ py_str city ++ py ", " ++ py_str country ++ nl ++
    py "║ Generated: " ++ strftime now (py "%Y-%m-%d %H:%M:%S") ++ nl ++
    py "║" ++ nl ++
    py "╚" ++ rule ++ py "╝" ++ nl ++
    nl in
  let* items := (let* l := subscript data (py "list") in py_iter l) in
  let* daily_forecasts := group_by_date items [] in
  let* days := map_res day_summary (take 5 daily_forecasts) in
  inr (forecast_info ++ concat days).

Definition format_forecast (data : json) : res pystr :=
  match format_forecast_body data with
  | inl (KeyError k) =>
      inr (py "Error formatting forecast data: Missing key " ++ key_error_str k)
  | r => r
  end.

End Formatting.

(** *** The widgets the handlers write to, the queue and the workers *)

Section Coordinator.
Context `{PyHost} `{Unicode} `{!Session}.

(** A line of [comparison_tree]: city, temperature, humidity, pressure,
    condition. *)
Definition row : Type := pystr * pystr * pystr * pystr * pystr.

Inductive box := showwarning | showerror.

Record gui := Gui {
  weather_text : pystr;
  forecast_text : pystr;
  status_var : pystr;
  current_weather_data : json;
  comparison_tree : list row;
  cities_listbox : list pystr;
  (** the message boxes shown so far, oldest first: kind, title, text *)
  messagebox : list (box * pystr * pystr);
}.

Definition set_weather_text (s : pystr) (g : gui) : gui :=
  Gui s (forecast_text g) (status_var g) (current_weather_data g)
      (comparison_tree g) (cities_listbox g) (messagebox g).
Definition set_forecast_text (s : pystr) (g : gui) : gui :=
  Gui (weather_text g) s (status_var g) (current_weather_data g)
      (comparison_tree g) (cities_listbox g) (messagebox g).
Definition set_status (s : pystr) (g : gui) : gui :=
  Gui (weather_text g) (forecast_text g) s (current_weather_data g)
      (comparison_tree g) (cities_listbox g) (messagebox g).
Definition set_current_weather_data (d : json) (g : gui) : gui :=
  Gui (weather_text g) (forecast_text g) (status_var g) d
      (comparison_tree g) (cities_listbox g) (messagebox g).
Definition set_comparison_tree (t : list row) (g : gui) : gui :=
  Gui (weather_text g) (forecast_text g) (status_var g) (current_weather_data g)
      t (cities_listbox g) (messagebox g).
Definition show (b : box) (title text : pystr) (g : gui) : gui :=
  Gui (weather_text g) (forecast_text g) (status_var g) (current_weather_data g)
      (comparison_tree g) (cities_listbox g) (messagebox g ++ [(b, title, text)]).

(** A handler leaves the widgets in a new state and either returns or
    raises.  The chart functions catch every [Exception] and draw on
    canvases that are not part of [gui]. *)
Definition handler : Type := gui → option exn * gui.

Definition display_current_weather (weather_data : json) (city : pystr) : handler :=
  λ g,
  let g := set_weather_text [] g in
  if negb (truthy weather_data) then
    let g := set_weather_text
               (py "Error: Could not fetch weather data for " ++ city ++ nl) g in
    (None, set_status (py "Error fetching weather data") g)
  else
    let g := set_current_weather_data weather_data g in
    match format_current_weather weather_data with
    | inl e => (Some e, g)
    | inr weather_info =>
        let g := set_weather_text weather_info g in
        (None, set_status (py "Weather data loaded for " ++ city) g)
    end.

Definition display_forecast (forecast_data : json) (city : pystr) : handler :=
  λ g,
  let g := set_forecast_text [] g in
  if negb (truthy forecast_data) then
    let g := set_forecast_text
               (py "Error: Could not fetch forecast data for " ++ city ++ nl) g in
    (None, set_status (py "Error fetching forecast data") g)
  else
    match format_forecast forecast_data with
    | inl e => (Some e, g)
    | inr forecast_info =>
        let g := set_forecast_text forecast_info g in
        (None, set_status (py "Forecast data loaded for " ++ city) g)
    end.

(** The body of the loop of [display_comparison]. *)
Definition comparison_row (result : pystr * json) : res row :=
  let (city, data) := result in
  let* temp := (let* t := subscript2 data "main" "temp" in format_f 1 t) in
  let* humidity := subscript2 data "main" "humidity" in
  let* pressure := subscript2 data "main" "pressure" in
  let* condition := (let* d := description_of data in method_title d) in
  inr (city, temp ++ py "°C", py_str humidity ++ py "%",
       py_str pressure ++ py " hPa", condition).

Fixpoint insert_rows (results : list (pystr * json)) (g : gui) : option exn * gui :=
  match results with
  | [] => (None, g)
  | result :: rest =>
      match comparison_row result with
      | inl e => (Some e, g)
      | inr r => insert_rows rest (set_comparison_tree (comparison_tree g ++ [r]) g)
      end
  end.

Definition display_comparison (comparison_results : list (pystr * json)) : handler :=
  λ g,
  match comparison_results with
  | [] =>
      (None, show showwarning (py "Warning")
               (py "No weather data could be retrieved for comparison") g)
  | _ =>
      let g := set_comparison_tree [] g in
      match insert_rows comparison_results g with
      | (Some e, g) => (Some e, g)
      | (None, g) =>
          (None,
           set_status (py "Comparison complete for " ++
                       num_str (num_of_Z (Z.of_nat (length comparison_results))) ++
                       py " cities") g)
      end
  end.

(** The tuples [(message_type, data, city)] the workers put on the queue. *)
Inductive message :=
  | current_weather (data : json) (city : pystr)
  | forecast (data : json) (city : pystr)
  | comparison (results : list (pystr * json))
  | error (text : pystr) (city : pystr).

(** The [if]/[elif] chain of [process_queue]. *)
Definition dispatch (m : message) : handler :=
  match m with
  | current_weather data city => display_current_weather data city
  | forecast data city => display_forecast data city
  | comparison data => display_comparison data
  | error data city =>
      λ g,
      let g := show showerror (py "Error")
                 (py "Error fetching weather data for " ++ city ++ py ": " ++ data) g in
      (None, set_status (py "Error occurred") g)
  end.

(** One run of [process_queue].  [get_nowait] takes the head of the queue;
    on [queue.Empty] the loop ends and [root.after(100, ...)] schedules the
    next run; any other exception leaves the function before that line. *)
Record poll := Poll {
  poll_ui : gui;
  poll_queue : list message;
  (** the messages handed to their handler, in order *)
  dispatched : list message;
  poll_raised : option exn;
  rescheduled : bool;
}.

Fixpoint process_queue (queue : list message) (g : gui) : poll :=
  match queue with
  | [] => Poll g [] [] None true
  | m :: rest =>
      match dispatch m g with
      | (None, g') =>
          let r := process_queue rest g' in
          Poll (poll_ui r) (poll_queue r) (m :: dispatched r) (poll_raised r) (rescheduled r)
      | (Some e, g') => Poll g' rest [m] (Some e) false
      end
  end.

(** A run of [process_queue] while workers go on putting: [Get] is one
    [get_nowait] of the loop with the call of the handler, [Put] a [put] of
    another thread between two of them.  The result is [None] as long as
    the loop has not ended; the [put]s after its end stay on the queue. *)
Inductive action :=
  | Put (m : message)
  | Get.

Definition puts (actions : list action) : list message :=
  omap (λ a, match a with Put m => Some m | Get => None end) actions.

Definition poll_then_put (r : poll) (after : list message) : poll :=
  Poll (poll_ui r) (poll_queue r ++ after) (dispatched r) (poll_raised r) (rescheduled r).

Fixpoint process_queue_interleaved (actions : list action) (queue : list message)
    (g : gui) : option poll :=
  match actions with
  | [] => None
  | Put m :: rest => process_queue_interleaved rest (queue ++ [m]) g
  | Get :: rest =>
      match queue with
      | [] => Some (Poll g (puts rest) [] None true)
      | m :: queue' =>
          match dispatch m g with
          | (None, g') =>
              r ← process_queue_interleaved rest queue' g';
              Some (Poll (poll_ui r) (poll_queue r) (m :: dispatched r)
                         (poll_raised r) (rescheduled r))
          | (Some e, g') => Some (Poll g' (queue' ++ puts rest) [m] (Some e) false)
          end
      end
  end.

(** [try: ... except Exception as e: ...] *)
Definition try_except {A} (body : res A) (handle : exn → res A) : res A :=
  match body with
  | inl e => handle e
  | inr a => inr a
  end.

(** The workers: each returns the queue after its [put] (or raises) and
    the network as it left it. *)
Definition fetch_current_weather (api_key city : pystr) (queue : list message)
    (w : world) : res (list message) * world :=
  let (r, w') := WeatherAPI.get_weather_data api_key city w in
  (try_except
     (let* weather_data := r in inr (queue ++ [current_weather weather_data city]))
     (λ e, inr (queue ++ [error (exn_str e) city])),
   w').

Definition fetch_forecast (api_key city : pystr) (queue : list message)
    (w : world) : res (list message) * world :=
  let (r, w') := WeatherAPI.get_forecast_data api_key city 5 w in
  (try_except
     (let* forecast_data := r in inr (queue ++ [forecast forecast_data city]))
     (λ e, inr (queue ++ [error (exn_str e) city])),
   w').

(** The loop of [fetch_comparison_data]: the [except] clause prints and
    goes on with the next city. *)
Fixpoint comparison_loop (api_key : pystr) (cities : list pystr)
    (comparison_results : list (pystr * json)) (w : world)
  : list (pystr * json) * world :=
  match cities with
  | [] => (comparison_results, w)
  | city :: rest =>
      let (r, w') := WeatherAPI.get_weather_data api_key city w in
      let comparison_results :=
        match r with
        | inr weather_data =>
            if truthy weather_data
            then comparison_results ++ [(city, weather_data)]
            else comparison_results
        | inl _ => comparison_results
        end in
      comparison_loop api_key rest comparison_results w'
  end.

Definition fetch_comparison_data (api_key : pystr) (cities : list pystr)
    (queue : list message) (w : world) : res (list message) * world :=
  let (comparison_results, w') := comparison_loop api_key cities [] w in
  (inr (queue ++ [comparison comparison_results]), w').

(** *** The application as a transition system

    A worker thread is started per fetch and runs to its [put]; the owner
    thread runs [process_queue] when its timer fires, if a run is
    scheduled.  [queue.Queue] serialises [put] and [get_nowait], so a
    [put] during a run of [process_queue] is a [put] before it or after
    it. *)
Inductive fetch :=
  | FetchCurrent (city : pystr)
  | FetchForecast (city : pystr)
  | FetchComparison (cities : list pystr).

Definition worker (api_key : pystr) (f : fetch) :
    list message → world → res (list message) * world :=
  match f with
  | FetchCurrent city => fetch_current_weather api_key city
  | FetchForecast city => fetch_forecast api_key city
  | FetchComparison cities => fetch_comparison_data api_key cities
  end.

Inductive event :=
  (** the worker of a fetch runs to completion *)
  | Complete (f : fetch)
  (** the timer of the owner thread fires *)
  | Tick.

Record app := App {
  ui : gui;
  queue : list message;
  (** a run of [process_queue] is scheduled *)
  polling : bool;
  net : world;
  (** the history, which the program does not keep: every message put so
      far and every message dispatched so far, in order *)
  enqueued : list message;
  delivered : list message;
}.

Definition step (api_key : pystr) (e : event) (a : app) : app :=
  match e with
  | Complete f =>
      match worker api_key f (queue a) (net a) with
      | (inr queue', w') =>
          App (ui a) queue' (polling a) w'
              (enqueued a ++ drop (length (queue a)) queue') (delivered a)
      | (inl _, w') =>
          App (ui a) (queue a) (polling a) w' (enqueued a) (delivered a)
      end
  | Tick =>
      if polling a then
        let r := process_queue (queue a) (ui a) in
        App (poll_ui r) (poll_queue r) (rescheduled r) (net a)
            (enqueued a) (delivered a ++ dispatched r)
      else a
  end.

Definition run (api_key : pystr) (events : list event) (a : app) : app :=
  foldl (λ a e, step api_key e a) a events.

(** The state in which [__init__] leaves the application: empty widgets,
    an empty queue and the first run of [process_queue] behind it. *)
Definition gui0 : gui := Gui [] [] (py "Ready") (JObj []) [] [] [].

Definition app0 (w : world) : app := App gui0 [] true w [] [].

End Coordinator.
End WeatherDashboardGUI.

(** ** Test doubles

    A run time, a session with scripted replies and a session that records
    the requests it is given. *)
Module Mock.

Definition unicode : Unicode :=
  {| lower_beyond := λ s, s; str_title := λ s, s |}.

Definition decimal (z : Z) : pystr := py (NilZero.string_of_int (Z.to_int z)).

(** The numbers are the [int]s, and a quotient is rounded down to one;
    an [int] is within the range of a [float] below [2 ^ 1024]. *)
Definition float_max : Z := Eval vm_compute in (2 ^ 1024)%Z.

Definition in_float_range (z : Z) : bool := (Z.abs z <? float_max)%Z.

Definition fixed (digits : nat) (z : Z) : pystr :=
  match digits with
  | O => decimal z
  | S _ => decimal z ++ py "." ++ repeat 48 digits
  end.

Definition pynum : PyNum :=
  {| num := Z;
     num_of_Z := λ z, z;
     num_eqb := Z.eqb;
     num_ltb := Z.ltb;
     num_add := λ x y, Some (x + y)%Z;
     float := Z;
     num_div := λ x y, if in_float_range (x / y) then Some (x / y)%Z else None;
     num_str := decimal;
     float_str := decimal;
     num_fmt := λ digits z, if in_float_range z then Some (fixed digits z) else None;
     float_fmt := fixed |}.

Definition host : @PyHost pynum :=
  {| datetime := Z;
     date := Z;
     date_eq_dec := Z.eq_dec;
     fromtimestamp := (Some : @num pynum → option Z);
     dt_date := λ t, (t / 86400)%Z;
     strftime := λ t _, decimal t;
     date_strftime := λ d _, decimal d;
     now := 0%Z;
     str_compound := λ _, py "...";
     min_other := λ _, inl TypeError;
     max_other := λ _, inl TypeError;
     set_order := λ l, l;
     set_order_nonempty := λ l Hl, Hl;
     set_order_elem_of := λ l x Hx, Hx;
     exn_str := λ _, py "error" |}.

(** Each [get] takes the next scripted outcome; with none left the
    connection fails. *)
Definition session : @Session pynum :=
  {| world := list (@outcome pynum);
     session_get := λ _ w,
       match w with
       | o :: w' => (o, w')
       | [] => (Raised ConnectionError, [])
       end;
     json_error_is_request_exception := true |}.

(** A payload of the current-weather endpoint with every field the
    program reads. *)
Definition payload (name : string) (temp : Z) : @json pynum :=
  JObj [(py "name", JStr (py name));
        (py "sys", JObj [(py "country", JStr (py "NO"));
                         (py "sunrise", JNum (1700000000%Z : @num pynum));
                         (py "sunset", JNum (1700030000%Z : @num pynum))]);
        (py "main", JObj [(py "temp", JNum (temp : @num pynum));
                          (py "feels_like", JNum (temp : @num pynum));
                          (py "humidity", JNum (55%Z : @num pynum));
                          (py "pressure", JNum (1012%Z : @num pynum))]);
        (py "weather", JArr [JObj [(py "description", JStr (py "clear sky"))]]);
        (py "wind", JObj [(py "speed", JNum (3%Z : @num pynum))]);
        (py "visibility", JNum (10000%Z : @num pynum))].

(** The payload without one of its fields. *)
Definition without (key : string) (data : @json pynum) : @json pynum :=
  match data with
  | JObj fields => JObj (filter (λ kv, kv.1 ≠ py key) fields)
  | _ => data
  end.

(** The payload with another value for one of its fields. *)
Definition with_field (key : string) (v : @json pynum) (data : @json pynum)
  : @json pynum :=
  match data with
  | JObj fields =>
      JObj (map (λ kv, if decide (kv.1 = py key) then (kv.1, v) else kv) fields)
  | _ => data
  end.

(** An [int] beyond the range of a [float]. *)
Definition huge : @json pynum := JNum (float_max : @num pynum).

(** A sample and a payload of the forecast endpoint. *)
Definition sample (dt temp : Z) : @json pynum :=
  JObj [(py "dt", JNum (dt : @num pynum));
        (py "main", JObj [(py "temp", JNum (temp : @num pynum));
                          (py "humidity", JNum (55%Z : @num pynum));
                          (py "pressure", JNum (1012%Z : @num pynum))]);
        (py "weather", JArr [JObj [(py "description", JStr (py "clear sky"))]])].

Definition forecast_payload (items : list (@json pynum)) : @json pynum :=
  JObj [(py "city", JObj [(py "name", JStr (py "Oslo")); (py "country", JStr (py "NO"))]);
        (py "list", JArr items)].

End Mock.

(** A session that keeps the list of the requests it was given. *)
Definition recording `{PyNum} (S : Session) : Session :=
  {| world := list request * @world _ S;
     session_get := λ r w,
       let (o, w') := @session_get _ S r w.2 in (o, (w.1 ++ [r], w'));
     json_error_is_request_exception := @json_error_is_request_exception _ S |}.

(** ** Vocabulary of the properties *)

(** The answer of one step of the loops of [find_city_location]: the
    location of an entry that has the city. *)
Definition hit (city : pystr) (e : pystr * pystr * list pystr) : option (pystr * pystr) :=
  if decide (city ∈ e.2) then Some e.1 else None.

Section Vocabulary.
Import WeatherDashboardGUI.
Context `{PyHost} `{Unicode} `{!Session}.

(** The handler of a message returns, whatever the widgets show. *)
Definition returns (m : message) : Prop := ∀ g, (dispatch m g).1 = None.

(** The failures of the transport that the client turns into [None]. *)
Definition transport_failure (o : outcome) : Prop :=
  match o with
  | Raised _ => True
  | Response status_code _ => (400 ≤ status_code < 600)%Z
  end.

(** The failures of the transport as the specification lists them: DNS,
    refused connection, timeout, a status that is not 2xx. *)
Definition transport_failure_listed (o : outcome) : Prop :=
  match o with
  | Raised ConnectionError | Raised Timeout => True
  | Raised OtherRequestException => False
  | Response status_code _ => ¬ (200 ≤ status_code < 300)%Z
  end.

(** A message is the result of a fetch: same kind, same city. *)
Definition produced_by (f : fetch) (m : message) : Prop :=
  match f, m with
  | FetchCurrent city, current_weather _ city' => city = city'
  | FetchForecast city, forecast _ city' => city = city'
  | FetchCurrent city, error _ city' => city = city'
  | FetchForecast city, error _ city' => city = city'
  | FetchComparison cities, comparison results => results.*1 `sublist_of` cities
  | _, _ => False
  end.

(** The invariant of the application: what was put on the queue is what was
    dispatched followed by what is still queued. *)
Definition fifo (a : app) : Prop := delivered a ++ queue a = enqueued a.

(** The message of a fetch that the client answered with [None]. *)
Definition failure_message (f : fetch) : message :=
  match f with
  | FetchCurrent city => current_weather JNull city
  | FetchForecast city => forecast JNull city
  | FetchComparison _ => comparison []
  end.

(** The request of the one [get] of a fetch of current weather or of a
    forecast. *)
Definition request_of (api_key : pystr) (f : fetch) : option request :=
  match f with
  | FetchCurrent city => Some (WeatherAPI.weather_request api_key city)
  | FetchForecast city => Some (WeatherAPI.forecast_request api_key city 5)
  | FetchComparison _ => None
  end.

(** The fetches whose workers complete, in the order in which they do. *)
Definition completions (events : list event) : list fetch :=
  omap (λ e, match e with Complete f => Some f | Tick => None end) events.



End Vocabulary.

(** *** Payloads with absent fields *)

Section Payloads.
Import WeatherDashboardGUI.
Context `{PyHost} `{Unicode}.

(** The field [k] of an object, when both are there. *)
Definition field (o : option json) (k : string) : option json :=
  match o with
  | Some (JObj fields) => dict_lookup fields (py k)
  | _ => None
  end.

Definition first_item (o : option json) : option json :=
  match o with
  | Some (JArr (x :: _)) => Some x
  | _ => None
  end.

(** Those of the keys that an object does not have. *)
Definition missing_of (o : option json) (keys : list string) : list pystr :=
  match o with
  | Some (JObj fields) => filter (λ k, dict_lookup fields k = None) (map py keys)
  | _ => []
  end.

(** A field that is there has the shape [P]. *)
Definition shaped (P : json → Prop) (o : option json) : Prop :=
  match o with
  | Some v => P v
  | None => True
  end.

Definition is_obj (v : json) : Prop :=
  match v with JObj _ => True | _ => False end.
Definition is_str (v : json) : Prop :=
  match v with JStr _ => True | _ => False end.
Definition is_number (v : json) : Prop := is_Some (as_num v).
Definition is_timestamp (v : json) : Prop :=
  ∃ n, as_num v = Some n ∧ is_Some (fromtimestamp n).
(** A number that [format(v, '.1f')] takes, and a visibility: the default
    or a number that [/ 1000] takes.  An [int] beyond the range of a
    [float] is neither. *)
Definition is_temperature (v : json) : Prop :=
  ∃ n, as_num v = Some n ∧ is_Some (num_fmt 1 n).
Definition is_visibility (v : json) : Prop :=
  str_neb v (py "N/A") = false ∨
  ∃ n, as_num v = Some n ∧ is_Some (num_div n (num_of_Z 1000)).

(** ["weather"]%string: a list that starts with an object, whose description is a
    string. *)
Definition is_weather (v : json) : Prop :=
  match v with
  | JArr (JObj w0 :: _) => shaped is_str (dict_lookup w0 (py "description"))
  | _ => False
  end.

(** A payload of the current-weather endpoint from which fields may be
    absent: what is there has the shape the endpoint gives it. *)
Definition current_shape (data : json) : Prop :=
  is_obj data ∧
  shaped is_obj (field (Some data) "sys") ∧
  shaped is_timestamp (field (field (Some data) "sys") "sunrise") ∧
  shaped is_timestamp (field (field (Some data) "sys") "sunset") ∧
  shaped is_obj (field (Some data) "main") ∧
  shaped is_weather (field (Some data) "weather") ∧
  shaped is_obj (field (Some data) "wind") ∧
  shaped is_visibility (field (Some data) "visibility").

(** The fields [format_current_weather] reads without a default and that
    the payload does not have. *)
Definition current_missing (data : json) : list pystr :=
  missing_of (Some data) ["name"; "sys"; "main"; "weather"; "wind"]%string ++
  missing_of (field (Some data) "sys") ["country"; "sunrise"; "sunset"]%string ++
  missing_of (field (Some data) "main") ["temp"; "feels_like"; "humidity"; "pressure"]%string ++
  missing_of (first_item (field (Some data) "weather")) ["description"]%string ++
  missing_of (field (Some data) "wind") ["speed"]%string.

(** The fields under ["main"] and ["weather"] that one step reads. *)
Definition main_missing (fld : string) (f : json) : list pystr :=
  missing_of (Some f) ["main"]%string ++ missing_of (field (Some f) "main") [fld].

Definition weather_missing (f : json) : list pystr :=
  missing_of (Some f) ["weather"]%string ++
  missing_of (first_item (field (Some f) "weather")) ["description"]%string.

(** One sample of a forecast. *)
Definition item_shape (item : json) : Prop :=
  is_obj item ∧
  shaped is_timestamp (field (Some item) "dt") ∧
  shaped is_obj (field (Some item) "main") ∧
  shaped is_temperature (field (field (Some item) "main") "temp") ∧
  shaped is_number (field (field (Some item) "main") "humidity") ∧
  shaped is_number (field (field (Some item) "main") "pressure") ∧
  shaped is_weather (field (Some item) "weather").

Definition is_item_list (v : json) : Prop :=
  match v with
  | JArr items => Forall item_shape items
  | _ => False
  end.

Definition items_of (data : json) : list json :=
  match field (Some data) "list" with
  | Some (JArr items) => items
  | _ => []
  end.

(** The sums and the averages of the days of the report are within the
    range of a [float]: [+] and [/] do not raise [OverflowError]. *)
Definition in_range {A} (r : res A) : Prop := r ≠ inl OverflowError.

Definition averages_in_range (data : json) : Prop :=
  match group_by_date (items_of data) [] with
  | inr daily_forecasts =>
      Forall (λ day : date * list json,
                in_range (average "humidity" day.2) ∧
                in_range (average "pressure" day.2))
             (take 5 daily_forecasts)
  | inl _ => True
  end.

(** A payload of the forecast endpoint from which fields may be absent. *)
Definition forecast_shape (data : json) : Prop :=
  is_obj data ∧
  shaped is_obj (field (Some data) "city") ∧
  shaped is_item_list (field (Some data) "list") ∧
  averages_in_range data.

(** The samples of the five days of the report. *)
Definition shown (data : json) : list json :=
  match group_by_date (items_of data) [] with
  | inr daily_forecasts => flat_map snd (take 5 daily_forecasts)
  | inl _ => []
  end.

Definition item_missing (item : json) : list pystr :=
  missing_of (Some item) ["main"; "weather"]%string ++
  missing_of (field (Some item) "main") ["temp"; "humidity"; "pressure"]%string ++
  missing_of (first_item (field (Some item) "weather")) ["description"]%string.

(** The fields [format_forecast] reads and that the payload does not
    have. *)
Definition forecast_missing (data : json) : list pystr :=
  missing_of (Some data) ["city"; "list"]%string ++
  missing_of (field (Some data) "city") ["name"; "country"]%string ++
  flat_map (λ item, missing_of (Some item) ["dt"]%string) (items_of data) ++
  flat_map item_missing (shown data).

(** A sample that the grouping by date has accepted, and the groups it
    builds from the samples of a list. *)
Definition grouped_ok (all : list json) (item : json) : Prop :=
  item_shape item ∧ is_Some (field (Some item) "dt") ∧ item ∈ all.

Definition groups_ok (all : list json) (groups : list (date * list json)) : Prop :=
  Forall (λ g, g.2 ≠ [] ∧ Forall (grouped_ok all) g.2) groups.

(** A computation returns when no field is missing, and otherwise raises
    the [KeyError] of one of the missing fields. *)
Definition ok_or_missing {A} (r : res A) (missing : list pystr) : Prop :=
  match r with
  | inr _ => missing = []
  | inl (KeyError (KStr k)) => k ∈ missing
  | inl _ => False
  end.

(** The row of a result: the city with the temperature, the humidity, the
    pressure and the condition of its payload, when the payload has them. *)
Definition the_row (result : pystr * json) : option row :=
  let main := field (Some result.2) "main" in
  let weather0 := first_item (field (Some result.2) "weather") in
  n ← field main "temp" ≫= as_num;
  temp ← num_fmt 1 n;
  humidity ← field main "humidity";
  pressure ← field main "pressure";
  description ← field weather0 "description";
  match description with
  | JStr condition =>
      Some (result.1, temp ++ py "°C", py_str humidity ++ py "%",
            py_str pressure ++ py " hPa", str_title condition)
  | _ => None
  end.

(** The messages whose payloads the handlers are written for: no payload,
    a payload whose fields, where it has them, have the shape the endpoint
    gives them, results with the fields of a row, an error text. *)
Definition benign (m : message) : Prop :=
  match m with
  | current_weather data _ => truthy data = false ∨ current_shape data
  | forecast data _ => truthy data = false ∨ forecast_shape data
  | comparison results => Forall (λ result, is_Some (the_row result)) results
  | error _ _ => True
  end.

End Payloads.

(** * The rest of the two programs

    The other queries of the city directory, the selection dialog, the
    entry fields and the cities browser of the Tk front-end, and the page
    of [Web_page_weather_report.py] with its command line. *)

(** ** More of Python's strings *)

(** [c.isspace()] for one code point: the characters that [str.strip()]
    removes from both ends. *)
Definition isspace (c : N) : bool :=
  ((9 <=? c) && (c <=? 13)) || ((28 <=? c) && (c <=? 32)) ||
  (c =? 133) || (c =? 160) || (c =? 5760) ||
  ((8192 <=? c) && (c <=? 8202)) ||
  (c =? 8232) || (c =? 8233) || (c =? 8239) || (c =? 8287) || (c =? 12288).

Fixpoint str_lstrip (s : pystr) : pystr :=
  match s with
  | c :: s' => if isspace c then str_lstrip s' else s
  | [] => []
  end.

Definition str_rstrip (s : pystr) : pystr := reverse (str_lstrip (reverse s)).

Definition str_strip (s : pystr) : pystr := str_rstrip (str_lstrip s).

(** [s.split(sep)] for a separator of one character: the pieces between
    the separators, of which there is always one more than separators. *)
Fixpoint str_split (sep : N) (s : pystr) : list pystr :=
  match s with
  | [] => [[]]
  | c :: s' =>
      if c =? sep then [] :: str_split sep s'
      else match str_split sep s' with
           | piece :: pieces => (c :: piece) :: pieces
           | [] => [[c]]
           end
  end.

(** [sep.join(l)] *)
Fixpoint str_join (sep : pystr) (l : list pystr) : pystr :=
  match l with
  | [] => []
  | [x] => x
  | x :: l' => x ++ sep ++ str_join sep l'
  end.

(** [s.replace(a, b)] for two characters. *)
Definition str_replace (a b : N) (s : pystr) : pystr :=
  map (λ c, if c =? a then b else c) s.

(** [s.endswith(suffix)] *)
Definition ends_with (suffix s : pystr) : bool :=
  starts_with (reverse suffix) (reverse s).

(** [str(i)] of an [int]. *)
Definition int_str (i : Z) : pystr := py (NilZero.string_of_int (Z.to_int i)).

(** ** The other queries of WorldCitiesDatabase *)

Module CityQueries.
Import WorldCitiesDatabase WeatherDashboardGUI.

Definition get_cities_by_continent (db : catalog) (continent : pystr) : list pystr :=
  match dict_lookup db continent with
  | None => []
  | Some countries => sorted (flat_map snd countries)
  end.

Definition get_cities_by_country (db : catalog) (country : pystr) : list pystr :=
  from_option id []
    (first_some (λ continent : pystr * list (pystr * list pystr),
                   sorted <$> dict_lookup continent.2 country) db).

End CityQueries.

(** ** CitySelectionDialog *)

Module CitySelectionDialog.
Import WorldCitiesDatabase CityQueries.

Record dialog := Dialog {
  search_var : pystr;
  (** the lines of the tree: the [text] and the value of each *)
  tree : list (pystr * pystr);
  selected_city : option pystr;
  (** [self.dialog.destroy()] was called *)
  destroyed : bool;
}.

(** What the user does with the open dialog. *)
Inductive dialog_event :=
  (** a key is released in the search field, which then holds [text] *)
  | KeyRelease (text : pystr)
  | PopularCities
  (** "By Continent", and the button pressed in the dialog that opens, if
      one is *)
  | ByContinent (choice : option nat)
  | AllCities
  (** "Select" or a double click, with the lines selected in the tree *)
  | Select (selection : list nat)
  | Cancel
  (** the window is closed by the window manager *)
  | Close.

Section CitySelectionDialog.
Context `{Unicode}.

(** The numbering is [enumerate(cities, 1)]; [title] is not used. *)
Definition populate_tree (cities : list pystr) (title : pystr) (d : dialog) : dialog :=
  Dialog (search_var d)
         (imap (λ i city, (int_str (Z.of_nat i + 1), city)) cities)
         (selected_city d) (destroyed d).

Definition show_popular_cities (cities_db : catalog) (d : dialog) : dialog :=
  let popular := get_popular_cities 50 in
  populate_tree popular (py "Popular Cities") d.

Definition on_search (cities_db : catalog) (d : dialog) : dialog :=
  let query := str_strip (search_var d) in
  if (2 <=? length query)%nat then
    let matches := search_cities cities_db query in
    populate_tree matches
      (py "Search Results (" ++ int_str (Z.of_nat (length matches)) ++ py " found)") d
  else if (length query =? 0)%nat then show_popular_cities cities_db d
  else d.

(** The buttons of [show_continents]: the label of each and the continent
    its command passes to [select_continent]. *)
Definition show_continents (cities_db : catalog) : list (pystr * pystr) :=
  map (λ continent,
         let city_count := length (get_cities_by_continent cities_db continent) in
         (continent ++ py " (" ++ int_str (Z.of_nat city_count) ++ py " cities)",
          continent))
      cities_db.*1.

Definition select_continent (cities_db : catalog) (continent : pystr) (d : dialog)
  : dialog :=
  let cities := get_cities_by_continent cities_db continent in
  populate_tree cities (continent ++ py " Cities") d.

Definition show_all_cities (cities_db : catalog) (d : dialog) : dialog :=
  let all_cities := get_all_cities cities_db in
  populate_tree all_cities
    (py "All Cities (" ++ int_str (Z.of_nat (length all_cities)) ++ py " total)") d.

(** [selection] is what [self.tree.selection()] returns: lines of the
    tree. *)
Definition on_city_select (selection : list nat) (d : dialog) : dialog :=
  match selection with
  | [] => d
  | i :: _ =>
      match tree d !! i with
      | Some (_, city) => Dialog (search_var d) (tree d) (Some city) true
      | None => d
      end
  end.

Definition on_cancel (d : dialog) : dialog :=
  Dialog (search_var d) (tree d) None true.

Definition create_widgets (cities_db : catalog) (d : dialog) : dialog :=
  show_popular_cities cities_db d.

Definition handle (cities_db : catalog) (e : dialog_event) (d : dialog) : dialog :=
  match e with
  | KeyRelease text =>
      on_search cities_db (Dialog text (tree d) (selected_city d) (destroyed d))
  | PopularCities => show_popular_cities cities_db d
  | ByContinent choice =>
      match choice ≫= (show_continents cities_db !!.) with
      | Some (_, continent) => select_continent cities_db continent d
      | None => d
      end
  | AllCities => show_all_cities cities_db d
  | Select selection => on_city_select selection d
  | Cancel => on_cancel d
  | Close => Dialog (search_var d) (tree d) (selected_city d) true
  end.

(** [self.dialog.wait_window()]: the events are handled until the dialog
    is destroyed; [None] as long as it is open. *)
Fixpoint wait_window (cities_db : catalog) (events : list dialog_event) (d : dialog)
  : option dialog :=
  if destroyed d then Some d
  else match events with
       | [] => None
       | e :: rest => wait_window cities_db rest (handle cities_db e d)
       end.

(** [show()], from the state in which [__init__] leaves the dialog:
    what it returns, once it returns. *)
Definition show (cities_db : catalog) (events : list dialog_event)
  : option (option pystr) :=
  selected_city <$>
    wait_window cities_db events (create_widgets cities_db (Dialog [] [] None false)).

End CitySelectionDialog.
End CitySelectionDialog.

(** ** WeatherDashboardGUI: the entry fields, the cities browser and the
    buttons *)

(** Writing files: [open(filename, 'w', encoding=...)] with the [write]s
    that follow leaves the disk in a new state and may raise. *)
Class Storage `{PyNum} := {
  disk : Type;
  (** from the encoding (when one is given), the name and the text: the
      disk afterwards and, when an exception [e] is raised, [str(e)] *)
  write_file : option pystr → pystr → pystr → disk → option pystr * disk;
  (** what [json.dump(v, f, indent=2)] writes *)
  json_dumps : json → pystr;
}.

Module WeatherDashboardWindow.
Import WorldCitiesDatabase CityQueries WeatherDashboardGUI.

Section WeatherDashboardWindow.
Context `{PyHost} `{Unicode} `{!Storage}.

(** The cities browser: the search field, the filter and the lines of
    [browser_tree] (city, continent, country). *)
Record browser := Browser {
  browser_search_var : pystr;
  filter_var : pystr;
  browser_tree : list (pystr * pystr * pystr);
}.

Record window := Window {
  widgets : gui;
  city_var : pystr;
  forecast_city_var : pystr;
  (** the tab that the notebook shows *)
  notebook : nat;
  cities_browser : browser;
  (** the worker threads started so far, oldest first *)
  threads : list fetch;
  (** the [showinfo] boxes shown so far: title, text *)
  showinfo : list (pystr * pystr);
}.

Definition with_widgets (f : gui → gui) (w : window) : window :=
  Window (f (widgets w)) (city_var w) (forecast_city_var w) (notebook w)
         (cities_browser w) (threads w) (showinfo w).
Definition set_city_var (s : pystr) (w : window) : window :=
  Window (widgets w) s (forecast_city_var w) (notebook w)
         (cities_browser w) (threads w) (showinfo w).
Definition set_forecast_city_var (s : pystr) (w : window) : window :=
  Window (widgets w) (city_var w) s (notebook w)
         (cities_browser w) (threads w) (showinfo w).
Definition notebook_select (tab : nat) (w : window) : window :=
  Window (widgets w) (city_var w) (forecast_city_var w) tab
         (cities_browser w) (threads w) (showinfo w).
Definition with_browser (f : browser → browser) (w : window) : window :=
  Window (widgets w) (city_var w) (forecast_city_var w) (notebook w)
         (f (cities_browser w)) (threads w) (showinfo w).
Definition start_thread (f : fetch) (w : window) : window :=
  Window (widgets w) (city_var w) (forecast_city_var w) (notebook w)
         (cities_browser w) (threads w ++ [f]) (showinfo w).
Definition show_info (title text : pystr) (w : window) : window :=
  Window (widgets w) (city_var w) (forecast_city_var w) (notebook w)
         (cities_browser w) (threads w) (showinfo w ++ [(title, text)]).

(** *** The cities browser *)

Definition populate_browser_tree (cities_db : catalog) (cities : list pystr)
    (b : browser) : browser :=
  Browser (browser_search_var b) (filter_var b)
          (map (λ city,
                  let (continent, country) := find_city_location cities_db city in
                  (city, continent, country))
               cities).

Definition refresh_cities_browser (cities_db : catalog) (b : browser) : browser :=
  let filter_value := filter_var b in
  let cities :=
    if decide (filter_value = py "All Cities") then get_all_cities cities_db
    else if decide (filter_value = py "Popular Cities") then get_popular_cities 50
    else if decide (filter_value ∈ cities_db.*1)
         then get_cities_by_continent cities_db filter_value
    else [] in
  populate_browser_tree cities_db cities b.

Definition on_browser_search (cities_db : catalog) (b : browser) : browser :=
  let query := str_strip (browser_search_var b) in
  if (2 <=? length query)%nat then
    let matches := search_cities cities_db query in
    populate_browser_tree cities_db matches b
  else if (length query =? 0)%nat then refresh_cities_browser cities_db b
  else b.

Definition on_filter_change (cities_db : catalog) (b : browser) : browser :=
  refresh_cities_browser cities_db b.

(** The browser as [create_cities_browser_tab] leaves it. *)
Definition browser0 (cities_db : catalog) : browser :=
  refresh_cities_browser cities_db (Browser [] (py "All Cities") []).

(** *** Starting the fetches *)

Definition get_current_weather (w : window) : window :=
  let city := str_strip (city_var w) in
  if bool_decide (city = []) then
    with_widgets (show showwarning (py "Warning") (py "Please enter a city name")) w
  else
    let w := with_widgets
               (set_status (py "Fetching weather data for " ++ city ++ py "...")) w in
    let w := with_widgets (set_weather_text []) w in
    let w := with_widgets (set_weather_text (py "Loading weather data..." ++ nl)) w in
    start_thread (FetchCurrent city) w.

Definition get_weather_forecast (w : window) : window :=
  let city := str_strip (forecast_city_var w) in
  if bool_decide (city = []) then
    with_widgets (show showwarning (py "Warning") (py "Please enter a city name")) w
  else
    let w := with_widgets
               (set_status (py "Fetching forecast data for " ++ city ++ py "...")) w in
    let w := with_widgets (set_forecast_text []) w in
    let w := with_widgets (set_forecast_text (py "Loading forecast data..." ++ nl)) w in
    start_thread (FetchForecast city) w.

Definition compare_weather (w : window) : window :=
  let cities := cities_listbox (widgets w) in
  if (length cities <? 2)%nat then
    with_widgets
      (show showwarning (py "Warning")
            (py "Please add at least 2 cities for comparison")) w
  else
    let w := with_widgets
               (set_status (py "Fetching weather data for comparison...")) w in
    let w := with_widgets (set_comparison_tree []) w in
    start_thread (FetchComparison cities) w.

(** [selected_city] is what [CitySelectionDialog.show] returned. *)
Definition browse_cities_current (selected_city : option pystr) (w : window) : window :=
  match selected_city with
  | Some city => if bool_decide (city = []) then w else set_city_var city w
  | None => w
  end.

Definition browse_cities_forecast (selected_city : option pystr) (w : window) : window :=
  match selected_city with
  | Some city => if bool_decide (city = []) then w else set_forecast_city_var city w
  | None => w
  end.

(** [selection] is what [self.browser_tree.selection()] returns. *)
Definition get_weather_from_browser (selection : list nat) (w : window) : window :=
  match selection with
  | [] => w
  | i :: _ =>
      match browser_tree (cities_browser w) !! i with
      | Some (city, _, _) =>
          let w := notebook_select 0 w in
          let w := set_city_var city w in
          get_current_weather w
      | None => w
      end
  end.

(** *** Saving and clearing *)

(** [filename] is what the file dialog returns when it is asked: the empty
    string when the user cancels. *)
Definition save_current_weather (filename : pystr) (w : window) (d : disk)
  : window * disk :=
  if negb (truthy (current_weather_data (widgets w))) then
    (with_widgets (show showwarning (py "Warning") (py "No weather data to save")) w, d)
  else if bool_decide (filename = []) then (w, d)
  else
    let text :=
      if ends_with (py ".json") filename
      then json_dumps (current_weather_data (widgets w))
      else weather_text (widgets w) ++ nl in
    match write_file None filename text d with
    | (None, d') =>
        (show_info (py "Success") (py "Weather data saved to " ++ filename) w, d')
    | (Some e, d') =>
        (with_widgets (show showerror (py "Error") (py "Failed to save file: " ++ e)) w,
         d')
    end.

Definition clear_current_weather (w : window) : window :=
  let w := with_widgets (set_weather_text []) w in
  let w := with_widgets (set_current_weather_data (JObj [])) w in
  let w := set_city_var [] w in
  with_widgets (set_status (py "Ready")) w.

(** The window as [__init__] leaves it. *)
Definition window0 (cities_db : catalog) : window :=
  Window gui0 [] [] 0 (browser0 cities_db) [] [].

End WeatherDashboardWindow.
End WeatherDashboardWindow.

(** ** IntegratedWeatherDashboard: the page

    The rest of the class of [Web_page_weather_report.py].  The charts are
    drawn by matplotlib and the page is a template around them: both are
    left to the run time. *)

(** The double quote, which a literal here cannot hold. *)
Definition dq : pystr := [34].

Class WebHost `{PyHost} := {
  (** [str(d)] of a datetime *)
  datetime_str : datetime → pystr;
  (** a pandas [Timestamp], and [pd.to_datetime(v)], which raises on what
      it cannot parse *)
  timestamp : Type;
  to_datetime : json → res timestamp;
}.

Module DashboardPage.
Import WeatherDashboardGUI.

Section Values.
Context `{WebHost} `{Unicode}.

(** The values of the dict that [process_current_weather] builds: values
    of the payload and a datetime. *)
Inductive value :=
  | VJson (v : json)
  | VTime (d : datetime).

(** [d[k]] *)
Definition item (d : list (pystr * value)) (k : string) : res value :=
  match dict_lookup d (py k) with
  | Some v => inr v
  | None => inl (KeyError (KStr (py k)))
  end.

(** [f"{v}"], [f"{v:.1f}"], [v.title()] and [v.strftime(fmt)]; a datetime
    formats with [strftime]. *)
Definition value_str (v : value) : pystr :=
  match v with
  | VJson v => py_str v
  | VTime d => datetime_str d
  end.

Definition value_format_f (digits : nat) (spec : pystr) (v : value) : res pystr :=
  match v with
  | VJson v => format_f digits v
  | VTime d => inr (strftime d spec)
  end.

Definition value_title (v : value) : res pystr :=
  match v with
  | VJson v => method_title v
  | VTime _ => inl AttributeError
  end.

Definition value_strftime (v : value) (fmt : pystr) : res pystr :=
  match v with
  | VJson _ => inl AttributeError
  | VTime d => inr (strftime d fmt)
  end.

(** A line of the frame of [process_forecast_data]. *)
Record sample_row := SampleRow {
  row_city : json;
  row_datetime : timestamp;
  row_temperature : json;
  row_feels_like : json;
  row_humidity : json;
  row_pressure : json;
  row_wind_speed : json;
  row_weather_condition : json;
  row_description : json;
}.

End Values.

(** What matplotlib, seaborn and pandas do with a frame.  A chart is the
    base64 text of its picture; drawing may raise, and two of the charts
    add a column to the frame they are given. *)
Class Plots `{WebHost} := {
  frame : Type;
  DataFrame : list sample_row → frame;
  create_temperature_trend_chart : frame → pystr → res (pystr * frame);
  create_conditions_chart : frame → pystr → res (pystr * frame);
  create_correlation_chart : frame → pystr → res (pystr * frame);
  create_daily_summary_chart : frame → pystr → res (pystr * frame);
  create_hourly_chart : frame → pystr → res (pystr * frame);
  (** the drawing of [create_multi_city_chart], from [current_data] *)
  plot_multi_city : list (list (pystr * value)) → res pystr;
  (** the template of the page, from the city, the summary and the
      charts *)
  generate_html_dashboard : pystr → pystr → list (pystr * pystr) → pystr;
}.

Section DashboardPage.
Context `{Plots} `{Unicode} `{!Session} `{!Storage}.

Definition weather_request (api_key city : pystr) : request :=
  {| url := base_url ++ py "/weather";
     params := [(py "q", PStr city); (py "appid", PStr api_key);
                (py "units", PStr (py "metric"))];
     timeout := None |}.

Definition get_current_weather (api_key city : pystr) (w : world) : res json * world :=
  let (o, w') := session_get (weather_request api_key city) w in
  (WeatherAPI.receive (JObj []) o, w').

(** [data.get(a, {}).get(b, default)] *)
Definition get2 (data : json) (a b : string) (default : json) : res json :=
  let* x := method_get data (py a) (JObj []) in
  method_get x (py b) default.

(** [data.get('weather', [{}])[0].get(k, 'Unknown')] *)
Definition weather0 (data : json) (k : string) : res json :=
  let* w := method_get data (py "weather") (JArr [JObj []]) in
  let* w0 := subscript0 w in
  method_get w0 (py k) (JStr (py "Unknown")).

Definition process_current_weather (data : json) : res (list (pystr * value)) :=
  if negb (truthy data) then inr []
  else
    let* city := method_get data (py "name") (JStr (py "Unknown")) in
    let* country := get2 data "sys" "country" (JStr (py "Unknown")) in
    let* temperature := get2 data "main" "temp" (JNum (num_of_Z 0)) in
    let* feels_like := get2 data "main" "feels_like" (JNum (num_of_Z 0)) in
    let* humidity := get2 data "main" "humidity" (JNum (num_of_Z 0)) in
    let* pressure := get2 data "main" "pressure" (JNum (num_of_Z 0)) in
    let* wind_speed := get2 data "wind" "speed" (JNum (num_of_Z 0)) in
    let* weather_condition := weather0 data "main" in
    let* description := weather0 data "description" in
    inr [(py "city", VJson city);
         (py "country", VJson country);
         (py "temperature", VJson temperature);
         (py "feels_like", VJson feels_like);
         (py "humidity", VJson humidity);
         (py "pressure", VJson pressure);
         (py "wind_speed", VJson wind_speed);
         (py "weather_condition", VJson weather_condition);
         (py "description", VJson description);
         (py "timestamp", VTime now)].

(** ['list' in data] *)
Definition contains (data : json) (k : pystr) : res bool :=
  match data with
  | JObj fields => inr (bool_decide (is_Some (dict_lookup fields k)))
  | JArr items => inr (existsb (λ x, atom_eqb (JStr k) x) items)
  | JStr s => inr (str_in k s)
  | _ => inl TypeError
  end.

(** The dict that the loop of [process_forecast_data] appends for one
    item. *)
Definition forecast_row (city_name : json) (item : json) : res sample_row :=
  let* datetime :=
    (let* t := subscript item (py "dt_txt") in to_datetime t) in
  let* temperature := subscript2 item "main" "temp" in
  let* feels_like := subscript2 item "main" "feels_like" in
  let* humidity := subscript2 item "main" "humidity" in
  let* pressure := subscript2 item "main" "pressure" in
  let* wind_speed := get2 item "wind" "speed" (JNum (num_of_Z 0)) in
  let* weather_condition :=
    (let* w := subscript item (py "weather") in
     let* w0 := subscript0 w in subscript w0 (py "main")) in
  let* description := description_of item in
  inr (SampleRow city_name datetime temperature feels_like humidity pressure
                 wind_speed weather_condition description).

(** The lines of the frame that [process_forecast_data] returns. *)
Definition process_forecast_data (data : json) : res (list sample_row) :=
  if negb (truthy data) then inr []
  else
    let* has_list := contains data (py "list") in
    if negb has_list then inr []
    else
      let* city_name := get2 data "city" "name" (JStr (py "Unknown")) in
      let* items := (let* l := subscript data (py "list") in py_iter l) in
      map_res (forecast_row city_name) items.

Definition create_current_weather_html (weather_data : list (pystr * value))
  : res pystr :=
  match weather_data with
  | [] => inr (py "<p>No current weather data available</p>")
  | _ =>
      let* city := (let* v := item weather_data "city" in inr (value_str v)) in
      let* country := (let* v := item weather_data "country" in inr (value_str v)) in
      let* timestamp :=
        (let* v := item weather_data "timestamp" in
         value_strftime v (py "%Y-%m-%d %H:%M")) in
      let* temperature :=
        (let* v := item weather_data "temperature" in value_format_f 1 (py ".1f") v) in
      let* feels_like :=
        (let* v := item weather_data "feels_like" in value_format_f 1 (py ".1f") v) in
      let* weather_condition :=
        (let* v := item weather_data "weather_condition" in inr (value_str v)) in
      let* description :=
        (let* v := item weather_data "description" in value_title v) in
      let* humidity := (let* v := item weather_data "humidity" in inr (value_str v)) in
      let* pressure := (let* v := item weather_data "pressure" in inr (value_str v)) in
      let* wind_speed :=
        (let* v := item weather_data "wind_speed" in inr (value_str v)) in
      inr (nl ++
       py "        <div class=" ++ dq ++ py "current-weather-card" ++ dq ++ py ">" ++ nl ++
       py "            <div class=" ++ dq ++ py "weather-header" ++ dq ++ py ">" ++ nl ++
       py "                <h2>" ++ city ++ py ", " ++ country ++ py "</h2>" ++ nl ++
       py "                <p class=" ++ dq ++ py "timestamp" ++ dq ++ py ">Last updated: " ++ timestamp ++ py "</p>" ++ nl ++
       py "            </div>" ++ nl ++
       py "            <div class=" ++ dq ++ py "weather-main" ++ dq ++ py ">" ++ nl ++
       py "                <div class=" ++ dq ++ py "temperature" ++ dq ++ py ">" ++ nl ++
       py "                    <span class=" ++ dq ++ py "temp-value" ++ dq ++ py ">" ++ temperature ++ py "¬∞C</span>" ++ nl ++
       py "                    <span class=" ++ dq ++ py "feels-like" ++ dq ++ py ">Feels like " ++ feels_like ++ py "¬∞C</span>" ++ nl ++
       py "                </div>" ++ nl ++
       py "                <div class=" ++ dq ++ py "condition" ++ dq ++ py ">" ++ nl ++
       py "                    <h3>" ++ weather_condition ++ py "</h3>" ++ nl ++
       py "                    <p>" ++ description ++ py "</p>" ++ nl ++
       py "                </div>" ++ nl ++
       py "            </div>" ++ nl ++
       py "            <div class=" ++ dq ++ py "weather-details" ++ dq ++ py ">" ++ nl ++
       py "                <div class=" ++ dq ++ py "detail-item" ++ dq ++ py ">" ++ nl ++
       py "                    <span class=" ++ dq ++ py "label" ++ dq ++ py ">Humidity</span>" ++ nl ++
       py "                    <span class=" ++ dq ++ py "value" ++ dq ++ py ">" ++ humidity ++ py "%</span>" ++ nl ++
       py "                </div>" ++ nl ++
       py "                <div class=" ++ dq ++ py "detail-item" ++ dq ++ py ">" ++ nl ++
       py "                    <span class=" ++ dq ++ py "label" ++ dq ++ py ">Pressure</span>" ++ nl ++
       py "                    <span class=" ++ dq ++ py "value" ++ dq ++ py ">" ++ pressure ++ py " hPa</span>" ++ nl ++
       py "                </div>" ++ nl ++
       py "                <div class=" ++ dq ++ py "detail-item" ++ dq ++ py ">" ++ nl ++
       py "                    <span class=" ++ dq ++ py "label" ++ dq ++ py ">Wind Speed</span>" ++ nl ++
       py "                    <span class=" ++ dq ++ py "value" ++ dq ++ py ">" ++ wind_speed ++ py " m/s</span>" ++ nl ++
       py "                </div>" ++ nl ++
       py "            </div>" ++ nl ++
       py "        </div>" ++ nl ++
       py "        ")
  end.

(** The loop of [create_multi_city_chart], which collects [current_data],
    and the function. *)
Fixpoint multi_city_data (api_key : pystr) (cities : list pystr)
    (current_data : list (list (pystr * value))) (w : world)
  : res (list (list (pystr * value))) * world :=
  match cities with
  | [] => (inr current_data, w)
  | city :: rest =>
      let (weather_data, w') := get_current_weather api_key city w in
      match (let* data := weather_data in process_current_weather data) with
      | inl e => (inl e, w')
      | inr processed_data =>
          let current_data :=
            match processed_data with
            | [] => current_data
            | _ => current_data ++ [processed_data]
            end in
          multi_city_data api_key rest current_data w'
      end
  end.

Definition create_multi_city_chart (api_key : pystr) (cities : list pystr) (w : world)
  : res pystr * world :=
  match multi_city_data api_key cities [] w with
  | (inl e, w') => (inl e, w')
  | (inr [], w') => (inr [], w')
  | (inr current_data, w') => (plot_multi_city current_data, w')
  end.

Definition unable : pystr := py "<h1>Unable to fetch weather data</h1>".

(** The charts of [create_integrated_dashboard], in the order in which
    they are drawn, with the key of each in [chart_images]. *)
Definition draw (key : string) (chart : frame → pystr → res (pystr * frame))
    (city : pystr) (state : list (pystr * pystr) * frame)
  : res (list (pystr * pystr) * frame) :=
  let* drawn := chart state.2 city in
  inr (state.1 ++ [(py key, drawn.1)], drawn.2).

Definition create_integrated_dashboard (api_key city : pystr)
    (multi_cities : option (list pystr)) (w : world) : res pystr * world :=
  let (current_data, w) := get_current_weather api_key city w in
  match (let* data := current_data in process_current_weather data) with
  | inl e => (inl e, w)
  | inr current_weather' =>
      let (forecast_data, w) := IntegratedWeatherDashboard.get_forecast_data api_key city w in
      match (let* data := forecast_data in process_forecast_data data) with
      | inl e => (inl e, w)
      | inr [] => (inr unable, w)
      | inr rows =>
          let df := DataFrame rows in
          match
            (let* current_summary := create_current_weather_html current_weather' in
             let* s := draw "temp_trend" create_temperature_trend_chart city ([], df) in
             let* s := draw "conditions" create_conditions_chart city s in
             let* s := draw "correlation" create_correlation_chart city s in
             let* s := draw "daily_summary" create_daily_summary_chart city s in
             inr (current_summary, s))
          with
          | inl e => (inl e, w)
          | inr (current_summary, s) =>
              let (multi, w) :=
                match multi_cities with
                | Some (c :: cs) =>
                    let (chart, w) := create_multi_city_chart api_key (c :: cs) w in
                    (let* chart := chart in
                     inr (s.1 ++ [(py "multi_city", chart)], s.2), w)
                | _ => (inr s, w)
                end in
              (let* s := multi in
               let* s := draw "hourly" create_hourly_chart city s in
               inr (generate_html_dashboard city current_summary s.1), w)
          end
      end
  end.

(** What [save_dashboard] raises: an exception of the page, or the
    exception of [open] and [write], with its text. *)
Inductive save_error :=
  | PageError (e : exn)
  | FileError (text : pystr).

Definition default_filename (city : pystr) : pystr :=
  let timestamp := strftime now (py "%Y%m%d_%H%M%S") in
  py "weather_dashboard_" ++ str_replace 32 95 city ++ py "_" ++ timestamp ++ py ".html".

Definition save_dashboard (api_key city : pystr) (multi_cities : option (list pystr))
    (filename : option pystr) (w : world) (d : disk)
  : (save_error + pystr) * world * disk :=
  let filename :=
    match filename with
    | Some (c :: name) => c :: name
    | _ => default_filename city
    end in
  match create_integrated_dashboard api_key city multi_cities w with
  | (inl e, w) => (inl (PageError e), w, d)
  | (inr html_content, w) =>
      match write_file (Some (py "utf-8")) filename html_content d with
      | (Some text, d) => (inl (FileError text), w, d)
      | (None, d) => (inr filename, w, d)
      end
  end.

End DashboardPage.
End DashboardPage.

(** *** The command line of the page *)

Module WebMain.

(** The cities of the comparison, from the line that [main] reads. *)
Definition multi_cities (line : pystr) : list pystr :=
  let multi_cities_input := str_strip line in
  match multi_cities_input with
  | [] => []
  | _ =>
      map str_strip
          (filter (λ city, str_strip city ≠ []) (str_split 44 multi_cities_input))
  end.

End WebMain.

(** ** WeatherAnalytics *)

Module WeatherAnalytics.
Section WeatherAnalytics.
Context `{PyNum}.

Definition predict_rain_probability (humidity pressure : num) : pystr :=
  if num_ltb (num_of_Z 80) humidity && num_ltb pressure (num_of_Z 1013) then py "High"
  else if num_ltb (num_of_Z 60) humidity && num_ltb pressure (num_of_Z 1015)
  then py "Medium"
  else if num_ltb (num_of_Z 40) humidity then py "Low"
  else py "Very Low".

End WeatherAnalytics.
End WeatherAnalytics.

(** A session without a network: every request fails to connect. *)
Definition offline `{PyNum} : Session :=
  {| world := unit;
     session_get := λ _ w, (Raised ConnectionError, w);
     json_error_is_request_exception := true |}.

(** ** Test doubles of the disk and of the charts *)

Module MockFiles.

(** A disk that keeps what is written, and refuses to write to the root
    directory. *)
Definition storage : @Storage Mock.pynum :=
  {| disk := list (pystr * pystr);
     write_file := λ encoding filename text d,
       if bool_decide (filename = py "/")
       then (Some (py "[Errno 21] Is a directory: '/'"), d)
       else (None, d ++ [(filename, text)]);
     json_dumps := λ _, py "{...}" |}.

End MockFiles.

Module MockPage.

Definition webhost : @WebHost Mock.pynum Mock.host :=
  {| datetime_str := (Mock.decimal : @datetime _ Mock.host → pystr);
     timestamp := pystr;
     to_datetime := λ v, match v with JStr s => inr s | _ => inl TypeError end |}.

(** A chart is the text of its title; the page lists the charts. *)
Definition plots : @DashboardPage.Plots Mock.pynum Mock.host webhost :=
  {| DashboardPage.frame := nat;
     DashboardPage.DataFrame := λ rows, length rows;
     DashboardPage.create_temperature_trend_chart := λ df city, inr (py "trend", df);
     DashboardPage.create_conditions_chart := λ df city, inr (py "conditions", df);
     DashboardPage.create_correlation_chart := λ df city, inr (py "correlation", df);
     DashboardPage.create_daily_summary_chart := λ df city, inr (py "daily", df);
     DashboardPage.create_hourly_chart := λ df city, inr (py "hourly", df);
     DashboardPage.plot_multi_city := λ current_data, inr (py "cities");
     DashboardPage.generate_html_dashboard := λ city current_summary chart_images,
       city ++ current_summary ++ concat (chart_images.*2) |}.

End MockPage.

Section TestDoubles.
Import WeatherDashboardGUI WeatherDashboardWindow DashboardPage.
Local Existing Instances Mock.pynum Mock.host Mock.unicode Mock.session MockFiles.storage
  MockPage.webhost MockPage.plots.

Definition empty_disk : @disk _ MockFiles.storage := [].

Definition sample_window (city_var forecast_city_var : pystr) (g : gui) : window :=
  Window g city_var forecast_city_var 1 (Browser [] (py "All Cities") []) [] [].

(** Six samples a day apart, and a temperature. *)
Definition six_days : list json :=
  map (λ k, Mock.sample (86400 * k) (10 + k)) [0; 1; 2; 3; 4; 5]%Z.

Definition celsius (z : Z) : @json Mock.pynum := JNum (z : @num Mock.pynum).

(** A sample of the forecast endpoint as the page reads it, and the
    answer of a session that carries a payload. *)
Definition page_sample (dt_txt : string) (temp : Z) : @json Mock.pynum :=
  JObj [(py "dt_txt", JStr (py dt_txt));
        (py "main", JObj [(py "temp", JNum (temp : @num Mock.pynum));
                          (py "feels_like", JNum (temp : @num Mock.pynum));
                          (py "humidity", JNum (55%Z : @num Mock.pynum));
                          (py "pressure", JNum (1012%Z : @num Mock.pynum))]);
        (py "weather", JArr [JObj [(py "main", JStr (py "Clear"));
                                   (py "description", JStr (py "clear sky"))]])].

Definition ok (data : @json Mock.pynum) : @outcome Mock.pynum :=
  Response 200 (Some data).

End TestDoubles.

(** ** Vocabulary of the other properties *)

(** A string of blanks only. *)
Definition blank (s : pystr) : Prop := Forall (λ c, isspace c = true) s.

(** [city] is what is left of the text of an entry field without the
    blanks at its two ends. *)
Definition stripped (field city : pystr) : Prop :=
  ∃ pre post, field = pre ++ city ++ post ∧ blank pre ∧ blank post ∧
    (∀ c, head city = Some c → isspace c = false) ∧
    (∀ c, last city = Some c → isspace c = false).

Section DirectoryVocabulary.
Import WorldCitiesDatabase CityQueries WeatherDashboardGUI CitySelectionDialog.

(** A city of the curated list or of the catalog. *)
Definition listed (db : catalog) (city : pystr) : Prop :=
  city ∈ get_popular_cities 50 ∨ city ∈ all_cities db.

(** What holds of the dialog while it is handled: the tree shows listed
    cities, and a city is selected only once the dialog is destroyed. *)
Definition dialog_ok (db : catalog) (d : dialog) : Prop :=
  Forall (listed db) (tree d).*2 ∧
  (∀ city, selected_city d = Some city → listed db city) ∧
  (destroyed d = false → selected_city d = None).

(** A line of the browser whose continent and country are those of a list
    of the catalog that has the city, and a line of a city that no list
    has. *)
Definition located (db : catalog) (line : pystr * pystr * pystr) : Prop :=
  ∃ cs, (line.1.2, line.2, cs) ∈ entries db ∧ line.1.1 ∈ cs.

Definition unlisted (db : catalog) (line : pystr * pystr * pystr) : Prop :=
  ¬ line.1.1 ∈ all_cities db ∧ line.1.2 = unknown ∧ line.2 = unknown.

End DirectoryVocabulary.

Section ForecastVocabulary.
Import WeatherDashboardGUI.
Context `{PyHost}.

(** The date under which [format_forecast] files a sample. *)
Definition date_of (item : json) : res date :=
  let* t := subscript item (py "dt") in
  let* d := py_fromtimestamp t in
  inr (dt_date d).

Definition on_date (d : date) (item : json) : bool :=
  match date_of item with
  | inr d' => bool_decide (d' = d)
  | inl _ => false
  end.

(** The samples filed under a date. *)
Fixpoint group_of (groups : list (date * list json)) (d : date) : list json :=
  match groups with
  | [] => []
  | (d', fs) :: rest => if decide (d' = d) then fs else group_of rest d
  end.

(** The samples of the dates that a list of groups starts with. *)
Definition of_first_days (n : nat) (groups : list (date * list json)) (item : json)
  : bool :=
  match date_of item with
  | inr d => bool_decide (d ∈ take n groups.*1)
  | inl _ => false
  end.

End ForecastVocabulary.

Section SummaryVocabulary.
Context `{PyNum}.

(** [x < y] on the numbers. *)
Definition num_lt (x y : num) : Prop := num_ltb x y = true.

(** The loop of [min] and [max], with the number of the element it
    keeps. *)
Fixpoint best_pair (better : num → num → bool) (best : json * num)
    (l : list (json * num)) : json * num :=
  match l with
  | [] => best
  | x :: l' => best_pair better (if better x.2 best.2 then x else best) l'
  end.

End SummaryVocabulary.

(** The level of a rain probability, from "Very Low" to "High". *)
Definition rain_level (probability : pystr) : nat :=
  if decide (probability = py "High") then 3
  else if decide (probability = py "Medium") then 2
  else if decide (probability = py "Low") then 1
  else 0.

(** A name that the command line can hold between two commas. *)
Definition city_name (c : pystr) : Prop :=
  c ≠ [] ∧ str_strip c = c ∧ 44 ∉ c.

#[global] Instance city_name_dec (c : pystr) : Decision (city_name c).
Proof. unfold city_name. apply _. Defined.

Section PageVocabulary.
Import WeatherDashboardGUI DashboardPage.
Context `{Plots} `{Unicode} `{!Session}.

(** A list that starts with an object, as ["weather"]%string is read. *)
Definition starts_with_obj (v : json) : Prop :=
  match v with
  | JArr (JObj _ :: _) => True
  | _ => False
  end.

(** A payload of the current-weather endpoint from which fields may be
    absent, as the page reads it: the two temperatures, or the zero that
    stands for an absent one, are numbers that [format(v, '.1f')] takes. *)
Definition summary_shape (data : json) : Prop :=
  is_obj data ∧
  shaped is_obj (field (Some data) "sys") ∧
  shaped is_obj (field (Some data) "main") ∧
  shaped is_obj (field (Some data) "wind") ∧
  shaped starts_with_obj (field (Some data) "weather") ∧
  is_temperature
    (from_option id (JNum (num_of_Z 0)) (field (field (Some data) "main") "temp")) ∧
  is_temperature
    (from_option id (JNum (num_of_Z 0)) (field (field (Some data) "main") "feels_like")) ∧
  shaped is_str (field (first_item (field (Some data) "weather")) "description").

(** The value the page shows for a field: the field, or the default. *)
Definition shown_value (o : option json) (default : json) : value :=
  VJson (from_option id default o).

End PageVocabulary.

Section PageAnswers.
Import WeatherDashboardGUI DashboardPage.
Context `{WebHost}.

(** The answers to the forecast request from which
    [process_forecast_data] gets no line: a failure of the transport, a
    payload that is false, a dict without ["list"]%string or with an empty
    one. *)
Definition no_forecast (o : outcome) : Prop :=
  transport_failure o ∨
  ∃ status_code data,
    o = Response status_code (Some data) ∧ raise_for_status status_code = false ∧
    (truthy data = false ∨
     ∃ fields, data = JObj fields ∧
       (dict_lookup fields (py "list") = None ∨
        (dict_lookup fields (py "list") = Some (JArr []) ∧
         shaped is_obj (dict_lookup fields (py "city"))))).

(** The name under which [save_dashboard] writes. *)
Definition saved_as `{!Unicode} (city : pystr) (filename : option pystr) : pystr :=
  match filename with
  | Some (c :: name) => c :: name
  | _ => default_filename city
  end.

End PageAnswers.

(** A session whose transport always fails. *)
Definition network_down `{PyNum} (S : Session) : Prop :=
  ∀ r net, transport_failure (@session_get _ S r net).1.

(** * Properties *)

Import WorldCitiesDatabase WeatherDashboardGUI.

(** ** Strings *)

Lemma starts_with_spec (s c : pystr) :
  starts_with s c = true ↔ ∃ post, c = s ++ post.
Proof.
  revert c. induction s as [|a s IH]; intros c; simpl.
  - split; [intros _; by exists c | done].
  - destruct c as [|b c].
    + split; [done | intros [post Hpost]; discriminate].
    + rewrite andb_true_iff, N.eqb_eq, IH. split.
      * intros [-> [post ->]]. by exists post.
      * intros [post Hpost]. injection Hpost as -> ->. eauto.
Qed.

Lemma str_in_spec (s c : pystr) : str_in s c = true ↔ substring s c.
Proof.
  unfold substring. split.
  - induction c as [|b c IH].
    + simpl. rewrite orb_false_r. intros [post ->]%starts_with_spec.
      by exists [], post.
    + simpl. intros [[post Hpost]%starts_with_spec | Hin]%orb_true_iff.
      * by exists [], post.
      * destruct (IH Hin) as (pre & post & ->). by exists (b :: pre), post.
  - intros (pre & post & ->). induction pre as [|b pre IH].
    + simpl. assert (starts_with s (s ++ post) = true) as Hs
        by (apply starts_with_spec; eauto).
      destruct (s ++ post); simpl; by rewrite Hs.
    + simpl. rewrite IH. apply orb_true_r.
Qed.

Lemma str_in_nil (c : pystr) : str_in [] c = true.
Proof. apply str_in_spec. by exists [], c. Qed.

Global Instance str_le_total : Total str_le.
Proof.
  intros a. unfold str_le. induction a as [|x a IH]; intros [|y b]; simpl; auto.
  destruct (N.lt_trichotomy x y) as [Hlt | [-> | Hgt]].
  - left. apply N.ltb_lt in Hlt. by rewrite Hlt.
  - rewrite N.ltb_irrefl, N.eqb_refl. simpl. apply IH.
  - right. apply N.ltb_lt in Hgt. by rewrite Hgt.
Qed.

Global Instance str_le_trans : Transitive str_le.
Proof.
  intros a. unfold str_le. induction a as [|x a IH]; intros [|y b] [|z c]; simpl; try done.
  rewrite !orb_true_iff, !andb_true_iff, !N.ltb_lt, !N.eqb_eq.
  intros [Hxy | [Hxy Hab]] [Hyz | [Hyz Hbc]].
  - left. lia.
  - left. lia.
  - left. lia.
  - right. split; [congruence | by eapply IH].
Qed.

Global Instance str_le_antisymm : AntiSymm eq str_le.
Proof.
  intros a. unfold str_le. induction a as [|x a IH]; intros [|y b]; simpl; try done.
  rewrite !orb_true_iff, !andb_true_iff, !N.ltb_lt, !N.eqb_eq.
  intros [Hxy | [Hxy Hab]] [Hyx | [Hyx Hba]]; try lia.
  f_equal; [done | by apply IH].
Qed.

(** Whatever algorithm [sorted] runs, its result is the one list that is
    sorted and has the elements of the argument. *)
Lemma sorted_unique (l l' : list pystr) :
  l' ≡ₚ l → Sorted str_le l' → l' = sorted l.
Proof.
  intros Hperm Hsorted. apply (Sorted_unique str_le); [done | |].
  - apply Sorted_merge_sort, _.
  - unfold sorted. by rewrite merge_sort_Permutation.
Qed.

Ltac cmp_cases :=
  repeat match goal with
         | |- context [(?a <=? ?b)%N] => destruct (N.leb_spec a b)
         | |- context [(?a =? ?b)%N] => destruct (N.eqb_spec a b)
         end;
  simpl in *; try lia.

Lemma lower_cp_latin1 (c : N) : c < 256 → lower_cp c < 256.
Proof. intros Hc. unfold lower_cp. cmp_cases. Qed.

Lemma lower_cp_idemp (c : N) : lower_cp (lower_cp c) = lower_cp c.
Proof. unfold lower_cp. cmp_cases. Qed.

Lemma latin1_Forall (s : pystr) : latin1 s = true ↔ Forall (λ c, c < 256) s.
Proof.
  unfold latin1. induction s as [|c s IH]; simpl.
  - split; [constructor | done].
  - by rewrite andb_true_iff, N.ltb_lt, IH, Forall_cons.
Qed.

Lemma latin1_map_lower (s : pystr) : latin1 s = true → latin1 (map lower_cp s) = true.
Proof.
  rewrite !latin1_Forall. intros Hs. induction Hs; simpl; constructor;
    auto using lower_cp_latin1.
Qed.

Lemma latin1_substring (s c : pystr) : substring s c → latin1 c = true → latin1 s = true.
Proof.
  intros (pre & post & ->). rewrite !latin1_Forall, !Forall_app. tauto.
Qed.

(** On a catalog name, taking a piece and lowering it twice gives a piece
    of the lowered name. *)
Lemma lower_substring `{Unicode} (s c : pystr) :
  latin1 c = true → substring s c →
  substring (str_lower (str_lower s)) (str_lower c).
Proof.
  intros Hc Hs. pose proof (latin1_substring _ _ Hs Hc) as Hl.
  unfold str_lower. rewrite Hl, Hc, (latin1_map_lower _ Hl).
  rewrite <-list_fmap_compose.
  destruct Hs as (pre & post & ->).
  exists (map lower_cp pre), (map lower_cp post).
  rewrite !map_app. f_equal. f_equal.
  apply map_ext. intros c. simpl. by rewrite lower_cp_idemp.
Qed.

(** ** The city directory *)

Lemma flat_map_filter {A} (P : A → Prop) `{∀ x, Decision (P x)} (ls : list (list A)) :
  flat_map (filter P) ls = filter P (flat_map (λ l, l) ls).
Proof.
  induction ls as [|l ls IH]; [done|]. simpl. by rewrite filter_app, IH.
Qed.

Lemma sorted_elem_of (l : list pystr) (c : pystr) : c ∈ sorted l ↔ c ∈ l.
Proof. unfold sorted. by rewrite merge_sort_Permutation. Qed.

Lemma catalog_latin1 : Forall (λ c, latin1 c = true) (all_cities cities).
Proof. apply (bool_decide_unpack _). by vm_compute. Qed.

(** C2: [search_cities] returns, sorted, exactly the catalog cities whose
    lowered name contains the lowered query, each as often as the catalog
    has it; every catalog city is found by the lowering of each of its
    non-empty pieces. *)
Theorem search_cities_correct `{Unicode} (q : pystr) :
  StronglySorted str_le (search_cities cities q) ∧
  search_cities cities q ≡ₚ
    filter (λ c, str_in (str_lower q) (str_lower c) = true) (get_all_cities cities) ∧
  (∀ c, c ∈ search_cities cities q ↔
        c ∈ get_all_cities cities ∧ substring (str_lower q) (str_lower c)) ∧
  (∀ c s, c ∈ get_all_cities cities → s ≠ [] → substring s c →
          c ∈ search_cities cities (str_lower s)).
Proof.
  assert (∀ q', search_cities cities q' ≡ₚ
    filter (λ c, str_in (str_lower q') (str_lower c) = true) (get_all_cities cities))
    as Hperm.
  { intros q'. unfold search_cities, get_all_cities, sorted.
    by rewrite !merge_sort_Permutation, flat_map_filter. }
  assert (∀ q' c, c ∈ search_cities cities q' ↔
    c ∈ get_all_cities cities ∧ substring (str_lower q') (str_lower c)) as Hmem.
  { intros q' c. rewrite Hperm, list_elem_of_filter, str_in_spec. tauto. }
  split; [apply StronglySorted_merge_sort; apply _|].
  split; [apply Hperm|]. split; [apply Hmem|].
  intros c s Hc _ Hs. apply Hmem. split; [done|].
  apply lower_substring; [|done].
  unfold get_all_cities in Hc. rewrite sorted_elem_of in Hc.
  pose proof catalog_latin1 as Hl. rewrite Forall_forall in Hl. by apply Hl.
Qed.

Lemma search_cities_correct_witness :
  py "London" ∈ @search_cities Mock.unicode cities (@str_lower Mock.unicode (py "ondo")).
Proof.
  apply (proj2 (proj2 (proj2 (@search_cities_correct Mock.unicode (py "ondo"))))).
  - apply (bool_decide_unpack _). by vm_compute.
  - done.
  - by exists (py "L"), (py "n").
Defined.

(** C10: the empty query finds the whole catalog: the same list as
    [get_all_cities], duplicates and order included. *)
Theorem search_cities_empty_query `{Unicode} (db : catalog) :
  search_cities db [] = get_all_cities db.
Proof.
  unfold search_cities, get_all_cities, all_cities. f_equal.
  induction (countries_of db) as [|country l IH]; [done|].
  simpl. rewrite IH. f_equal.
  induction country as [|c country IHc]; [done|].
  rewrite filter_cons_True by apply str_in_nil. by rewrite IHc.
Qed.

Example search_lon :
  @search_cities Mock.unicode cities (py "LON") =
  [py "Barcelona"; py "East London"; py "London"; py "London"; py "Wollongong"].
Proof. by vm_compute. Qed.

Example search_accent :
  @search_cities Mock.unicode cities (py "Ó") =
  [py "Concepción"; py "Córdoba"; py "León"; py "Torreón"].
Proof. by vm_compute. Qed.

(** C3: for a limit that is not negative, [get_popular_cities] returns the
    first [min(limit, 38)] names of the curated list, which is the whole
    list once the limit reaches its length. *)
Theorem get_popular_cities_truncates (limit : Z) :
  (0 ≤ limit)%Z →
  get_popular_cities limit = take (Z.to_nat limit) popular ∧
  Z.of_nat (length (get_popular_cities limit)) = Z.min limit (Z.of_nat (length popular)) ∧
  length popular = 38%nat ∧
  get_popular_cities limit `prefix_of` popular ∧
  ((Z.of_nat (length popular) ≤ limit)%Z → get_popular_cities limit = popular).
Proof.
  intros Hlimit. unfold get_popular_cities, slice_to.
  destruct (Z.ltb_spec limit 0) as [|_]; [lia|].
  split; [done|]. split; [rewrite length_take; lia|].
  split; [done|]. split; [apply prefix_take|].
  intros Hlen. apply take_ge. lia.
Qed.

Lemma get_popular_cities_truncates_witness :
  get_popular_cities 3 = [py "New York"; py "London"; py "Tokyo"] ∧
  get_popular_cities 50 = popular.
Proof.
  split.
  - by rewrite (proj1 (get_popular_cities_truncates 3 ltac:(lia))).
  - apply (get_popular_cities_truncates 50 ltac:(lia)). vm_compute. discriminate.
Defined.

Lemma first_some_app {A B} (f : A → option B) (l k : list A) :
  first_some f (l ++ k) =
  match first_some f l with
  | Some b => Some b
  | None => first_some f k
  end.
Proof. induction l as [|a l IH]; [done|]. simpl. by destruct (f a). Qed.

Lemma first_some_flat_map {A B C} (f : B → option C) (g : A → list B) (l : list A) :
  first_some (λ a, first_some f (g a)) l = first_some f (flat_map g l).
Proof.
  induction l as [|a l IH]; [done|]. simpl. rewrite first_some_app.
  by destruct (first_some f (g a)).
Qed.

Lemma first_some_map {A B C} (f : B → option C) (g : A → B) (l : list A) :
  first_some f (map g l) = first_some (λ a, f (g a)) l.
Proof. induction l as [|a l IH]; [done|]. simpl. by rewrite IH. Qed.

Lemma first_some_None {A B} (f : A → option B) (l : list A) :
  Forall (λ a, f a = None) l → first_some f l = None.
Proof. induction 1 as [|a l Ha _ IH]; [done|]. simpl. by rewrite Ha. Qed.

Lemma find_city_location_entries (db : catalog) (city : pystr) :
  find_city_location db city =
  from_option id (unknown, unknown)
    (first_some (hit city) (entries db)).
Proof.
  unfold find_city_location, entries. f_equal.
  rewrite <-first_some_flat_map. induction db as [|continent db IH]; [done|].
  simpl. rewrite IH. by rewrite first_some_map.
Qed.

(** C4: [find_city_location] returns the continent and country of the first
    list, in traversal order, that has the city, and the pair of "Unknown"
    when no list has it; London is found in Canada, which comes before the
    United Kingdom. *)
Theorem find_city_location_first_match (db : catalog) (city : pystr) :
  (∀ pre continent country cs post,
      entries db = pre ++ (continent, country, cs) :: post →
      city ∈ cs → Forall (λ e, city ∉ e.2) pre →
      find_city_location db city = (continent, country)) ∧
  (Forall (λ e, city ∉ e.2) (entries db) →
   find_city_location db city = (py "Unknown", py "Unknown")) ∧
  find_city_location cities (py "London") =
    (py "North America", py "Canada").
Proof.
  assert (∀ l, Forall (λ e : pystr * pystr * list pystr, city ∉ e.2) l →
               first_some (hit city) l = None) as Hnone.
  { intros l Hl. apply first_some_None. eapply Forall_impl; [done|].
    intros e He. unfold hit. by destruct (decide _). }
  split; [|split].
  - intros pre continent country cs post Hentries Hin Hpre.
    rewrite find_city_location_entries, Hentries, first_some_app, (Hnone _ Hpre).
    simpl. unfold hit. simpl. by destruct (decide _).
  - intros Hall. by rewrite find_city_location_entries, (Hnone _ Hall).
  - by vm_compute.
Qed.

Lemma find_city_location_first_match_witness :
  find_city_location cities (py "London") =
    (py "North America", py "Canada") ∧
  find_city_location cities (py "Atlantis") =
    (py "Unknown", py "Unknown").
Proof.
  split.
  - apply (proj1 (find_city_location_first_match cities (py "London"))
             (take 1 (entries cities)) _ _
             (nth 1 (countries_of cities) [])
             (drop 2 (entries cities))).
    + by vm_compute.
    + apply (bool_decide_unpack _). by vm_compute.
    + apply (bool_decide_unpack _). by vm_compute.
  - apply (proj1 (proj2 (find_city_location_first_match cities (py "Atlantis")))).
    apply (bool_decide_unpack _). by vm_compute.
Defined.

Example find_hamilton :
  find_city_location cities (py "Hamilton") = (py "North America", py "Canada").
Proof. by vm_compute. Qed.

Example popular_negative_limit : length (get_popular_cities (-1)) = 37%nat.
Proof. by vm_compute. Qed.

(** ** The weather client *)

(** C5, as the claim states it, at the forecast fetch of the document
    front-end: the one request it sends has no [cnt] parameter. *)
Lemma forecast_count_counterexample :
  (@IntegratedWeatherDashboard.get_forecast_data _ (recording Mock.session)
     (py "key") (py "Tokyo") ([], [])).2.1 =
    [IntegratedWeatherDashboard.forecast_request (py "key") (py "Tokyo")] ∧
  dict_lookup
    (params (IntegratedWeatherDashboard.forecast_request (py "key") (py "Tokyo")))
    (py "cnt") = None ∧
  dict_lookup
    (params (IntegratedWeatherDashboard.forecast_request (py "key") (py "Tokyo")))
    (py "cnt") ≠ Some (PInt (5 * 8)).
Proof. by vm_compute. Qed.

(** C5, amended: the forecast fetch of [WeatherAPI] sends one request, whose
    [cnt] is [days * 8], which is 40 for the default of five days that the
    worker of the GUI uses; the forecast fetch of the document front-end
    sends one request without [cnt]. *)
Theorem forecast_request_count `{PyNum} (S : Session) (api_key city : pystr)
    (days : Z) (log : list request) (w : @world _ S) :
  (∃ r, (@WeatherAPI.get_forecast_data _ (recording S) api_key city days (log, w)).2.1
          = log ++ [r] ∧
        dict_lookup (params r) (py "cnt") = Some (PInt (days * 8))) ∧
  (∃ r, (@WeatherAPI.get_forecast_data _ (recording S) api_key city 5 (log, w)).2.1
          = log ++ [r] ∧
        dict_lookup (params r) (py "cnt") = Some (PInt 40)) ∧
  (∃ r, (@IntegratedWeatherDashboard.get_forecast_data _ (recording S) api_key city
           (log, w)).2.1 = log ++ [r] ∧
        dict_lookup (params r) (py "cnt") = None).
Proof.
  unfold WeatherAPI.get_forecast_data, IntegratedWeatherDashboard.get_forecast_data.
  simpl. repeat split.
  - exists (WeatherAPI.forecast_request api_key city days).
    by destruct (session_get _ w).
  - exists (WeatherAPI.forecast_request api_key city 5).
    by destruct (session_get _ w).
  - exists (IntegratedWeatherDashboard.forecast_request api_key city).
    by destruct (session_get _ w).
Qed.

(** ** The comparison set *)

Lemma add_comparison_city_NoDup (selected_city : option pystr) (l : list pystr) :
  NoDup l → NoDup (add_comparison_city selected_city l).
Proof.
  intros Hl. destruct selected_city as [city|]; [|done]. simpl.
  destruct (bool_decide _); [done|]. destruct (decide _) as [|Hnotin]; [done|].
  apply NoDup_app. repeat split; [done| |apply NoDup_singleton].
  intros x Hx ->%list_elem_of_singleton. done.
Qed.

Lemma comparison_set_NoDup (l : list pystr) : comparison_set l → NoDup l.
Proof.
  induction 1 as [|selected_city l _ IH|selection l _ IH|l _ _].
  - constructor.
  - by apply add_comparison_city_NoDup.
  - destruct selection as [i|]; [|done]. simpl.
    eapply sublist_NoDup; [done | apply sublist_delete].
  - constructor.
Qed.

Lemma filter_absent (l : list pystr) (city : pystr) :
  city ∉ l → filter (λ x, x = city) l = [].
Proof.
  induction l as [|x l IH]; [done|]. intros [Hx Hl]%not_elem_of_cons.
  rewrite filter_cons_False by done. by apply IH.
Qed.

Lemma NoDup_occurs_once (l : list pystr) (city : pystr) :
  NoDup l → city ∈ l → length (filter (λ x, x = city) l) = 1%nat.
Proof.
  induction 1 as [|x l Hx Hl IH]; [by intros ?%elem_of_nil|].
  intros [->|Hin]%elem_of_cons.
  - rewrite filter_cons_True by done. by rewrite filter_absent.
  - rewrite filter_cons_False; [by apply IH|]. by intros ->.
Qed.

(** C8: adding a name a second time changes nothing, the list then has the
    name once, and what was in the list before is still there, in the same
    places. *)
Theorem add_comparison_city_idempotent (l : list pystr) (city : pystr) :
  comparison_set l → city ≠ [] →
  let once := add_comparison_city (Some city) l in
  let twice := add_comparison_city (Some city) once in
  twice = once ∧
  length (filter (λ x, x = city) twice) = 1%nat ∧
  l `prefix_of` twice ∧
  comparison_set twice ∧ NoDup twice.
Proof.
  intros Hl Hcity once twice.
  assert (city ∈ once ∧ l `prefix_of` once) as [Hin Hprefix].
  { subst once. simpl. rewrite bool_decide_eq_false_2 by done.
    destruct (decide _).
    - done.
    - split; [apply elem_of_app; right; apply list_elem_of_singleton; done
             | by apply prefix_app_r]. }
  assert (twice = once) as Heq.
  { subst twice. simpl. rewrite bool_decide_eq_false_2 by done.
    by destruct (decide _). }
  rewrite Heq. split; [done|].
  assert (comparison_set once) as Hset by by constructor.
  pose proof (comparison_set_NoDup _ Hset) as Hnodup.
  split; [|done]. by apply NoDup_occurs_once.
Qed.

Lemma add_comparison_city_idempotent_witness :
  add_comparison_city (Some (py "Oslo"))
    (add_comparison_city (Some (py "Oslo")) [py "Paris"]) = [py "Paris"; py "Oslo"].
Proof.
  assert (comparison_set [py "Paris"]) as Hset
    by exact (cs_add (Some (py "Paris")) [] cs_init).
  rewrite (proj1 (add_comparison_city_idempotent [py "Paris"] (py "Oslo") Hset
                    ltac:(discriminate))).
  reflexivity.
Defined.

(** ** The formatters on payloads with absent fields *)

Section FormattingProperties.
Context `{PyHost} `{Unicode}.
Local Arguments py : simpl never.

Lemma ok_or_missing_ret {A} (a : A) : ok_or_missing (inr a) [].
Proof. done. Qed.

Lemma ok_or_missing_bind {A B} (r : res A) (k : A → res B) (m1 m2 : list pystr) :
  ok_or_missing r m1 →
  (∀ a, r = inr a → ok_or_missing (k a) m2) →
  ok_or_missing (bind r k) (m1 ++ m2).
Proof.
  destruct r as [e|a]; simpl.
  - destruct e as [[key|]| | | | | | |]; try done. intros Hk _. apply elem_of_app. by left.
  - intros -> Hk. by apply Hk.
Qed.

Lemma ok_or_missing_equiv {A} (r : res A) (m m' : list pystr) :
  ok_or_missing r m → (∀ k, k ∈ m ↔ k ∈ m') → ok_or_missing r m'.
Proof.
  destruct r as [e|a]; simpl.
  - destruct e as [[key|]| | | | | | |]; try done. intros Hk Hm. by apply Hm.
  - intros -> Hm. destruct m' as [|k m']; [done|].
    exfalso. eapply not_elem_of_nil, Hm. by left.
Qed.

Lemma ok_or_missing_map_res {A B} (f : A → res B) (mf : A → list pystr) (l : list A) :
  (∀ x, x ∈ l → ok_or_missing (f x) (mf x)) →
  ok_or_missing (map_res f l) (flat_map mf l).
Proof.
  induction l as [|x l IH]; intros Hl; [done|]. simpl.
  apply ok_or_missing_bind; [apply Hl; by left|]. intros b _.
  rewrite <-(app_nil_r (flat_map mf l)).
  apply ok_or_missing_bind; [apply IH; intros y Hy; apply Hl; by right|].
  intros bs _. apply ok_or_missing_ret.
Qed.

Lemma subscript2_then {A} (data : json) (a b : string) (P : json → Prop)
    (f : json → res A) :
  is_obj data → shaped is_obj (field (Some data) a) →
  shaped P (field (field (Some data) a) b) →
  (∀ v, P v → ∃ x, f v = inr x) →
  ok_or_missing (let* t := subscript2 data a b in f t)
    (missing_of (Some data) [a] ++ missing_of (field (Some data) a) [b]).
Proof.
  destruct data as [| | | | |fields]; try done. intros _. simpl.
  unfold subscript2. simpl.
  destruct (dict_lookup fields (py a)) as [x|] eqn:Ha; simpl.
  - destruct x as [| | | | |xfields]; try done. intros _. simpl.
    destruct (dict_lookup xfields (py b)) as [y|] eqn:Hb; simpl.
    + intros Hy Hf. destruct (Hf y Hy) as [z ->]. simpl.
      rewrite !filter_cons_False, !filter_nil by (by rewrite ?Ha, ?Hb). done.
    + intros _ _. apply elem_of_app. right.
      rewrite filter_cons_True by done. by left.
  - intros _ _ _. rewrite filter_cons_True by done. by left.
Qed.

Lemma subscript2_ok (data : json) (a b : string) :
  is_obj data → shaped is_obj (field (Some data) a) →
  ok_or_missing (subscript2 data a b)
    (missing_of (Some data) [a] ++ missing_of (field (Some data) a) [b]).
Proof.
  intros Hdata Ha.
  pose proof (subscript2_then data a b (λ _, True) inr Hdata Ha) as Hthen.
  assert (∀ r : res json, (let* t := r in inr t) = r) as Hid by (by intros [?|?]).
  rewrite Hid in Hthen. apply Hthen; [by destruct (field _ b) | eauto].
Qed.

Lemma timestamp_ok (data : json) (a b : string) (fmt : pystr) :
  is_obj data → shaped is_obj (field (Some data) a) →
  shaped is_timestamp (field (field (Some data) a) b) →
  ok_or_missing
    (let* t := subscript2 data a b in
     let* d := py_fromtimestamp t in inr (strftime d fmt))
    (missing_of (Some data) [a] ++ missing_of (field (Some data) a) [b]).
Proof.
  intros Hdata Ha Hb. apply (subscript2_then data a b is_timestamp); [done..|].
  intros v (n & Hn & d & Hd). unfold py_fromtimestamp. rewrite Hn, Hd. simpl. eauto.
Qed.

Lemma title_description_ok (v : json) :
  is_obj v → shaped is_weather (field (Some v) "weather") →
  ok_or_missing (let* d := description_of v in method_title d)
    (missing_of (Some v) ["weather"]%string ++
     missing_of (first_item (field (Some v) "weather")) ["description"]%string).
Proof.
  destruct v as [| | | | |fields]; try done. intros _. simpl.
  unfold description_of. simpl.
  destruct (dict_lookup fields (py "weather")) as [w|] eqn:Hw; simpl.
  - destruct w as [| | | |[|[| | | | |w0] ws]|]; try done. simpl.
    destruct (dict_lookup w0 (py "description")) as [d|] eqn:Hd; simpl.
    + destruct d; try done. intros _. simpl.
      rewrite !filter_cons_False, !filter_nil by (by rewrite ?Hw, ?Hd). done.
    + intros _. apply elem_of_app. right. rewrite filter_cons_True by done. by left.
  - intros _. rewrite filter_cons_True by done. by left.
Qed.

Lemma description_ok (v : json) :
  is_obj v → shaped is_weather (field (Some v) "weather") →
  ok_or_missing (description_of v)
    (missing_of (Some v) ["weather"]%string ++
     missing_of (first_item (field (Some v) "weather")) ["description"]%string) ∧
  (∀ d, description_of v = inr d → is_str d).
Proof.
  destruct v as [| | | | |fields]; try done. intros _. simpl.
  unfold description_of. simpl.
  destruct (dict_lookup fields (py "weather")) as [w|] eqn:Hw; simpl.
  - destruct w as [| | | |[|[| | | | |w0] ws]|]; try done. simpl.
    destruct (dict_lookup w0 (py "description")) as [d|] eqn:Hd; simpl.
    + intros Hstr. split; [|by intros ? [= <-]].
      rewrite !filter_cons_False, !filter_nil by (by rewrite ?Hw, ?Hd). done.
    + intros _. split; [|done].
      apply elem_of_app. right. rewrite filter_cons_True by done. by left.
  - intros _. split; [|done]. rewrite filter_cons_True by done. by left.
Qed.

Lemma wind_deg_ok (data : json) :
  is_obj data → shaped is_obj (field (Some data) "wind") →
  ok_or_missing
    (let* wind := subscript data (py "wind") in
     method_get wind (py "deg") (JNum (num_of_Z 0)))
    (missing_of (Some data) ["wind"]%string).
Proof.
  destruct data as [| | | | |fields]; try done. intros _. simpl.
  destruct (dict_lookup fields (py "wind")) as [wind|] eqn:Hwind; simpl.
  - destruct wind; try done. intros _. simpl.
    by rewrite !filter_cons_False, !filter_nil by (by rewrite ?Hwind).
  - intros _. rewrite filter_cons_True by done. by left.
Qed.

Lemma name_ok (data : json) :
  is_obj data →
  ok_or_missing (subscript data (py "name")) (missing_of (Some data) ["name"]%string).
Proof.
  destruct data as [| | | | |fields]; try done. intros _. simpl.
  destruct (dict_lookup fields (py "name")) as [name|] eqn:Hname; simpl.
  - by rewrite !filter_cons_False, !filter_nil by (by rewrite ?Hname).
  - rewrite filter_cons_True by done. by left.
Qed.

Lemma visibility_ok (data : json) (visibility : json) :
  is_obj data → shaped is_visibility (field (Some data) "visibility") →
  method_get data (py "visibility") (JStr (py "N/A")) = inr visibility →
  ∃ s, (if negb (str_neb visibility (py "N/A")) then inr (py "N/A")
        else match as_num visibility with
             | Some n =>
                 match num_div n (num_of_Z 1000) with
                 | Some km => inr (float_str km)
                 | None => inl OverflowError
                 end
             | None => inl TypeError
             end) = inr s.
Proof.
  destruct data as [| | | | |fields]; try done. intros _. simpl.
  destruct (dict_lookup fields (py "visibility")) as [v|]; simpl.
  - intros [Hna | (n & Hn & km & Hkm)] [= <-].
    + rewrite Hna. simpl. eauto.
    + rewrite Hn, Hkm. destruct (negb _); eauto.
  - intros _ [= <-]. simpl. eauto.
Qed.

(** A key is missing from a list that is built from the lists of the
    steps. *)
Lemma elem_of_missing_keys (o : option json) (keys : list string) (k : pystr) :
  k ∈ missing_of o keys ↔
  ∃ key, key ∈ keys ∧ k = py key ∧ k ∈ missing_of o [key].
Proof.
  destruct o as [[| | | | |fields]|]; simpl;
    try (split; [by intros ?%elem_of_nil | by intros (? & _ & _ & ?%elem_of_nil)]).
  rewrite list_elem_of_filter, list_elem_of_fmap. split.
  - intros [Hk (key & -> & Hkey)]. exists key. split; [done|]. split; [done|].
    rewrite filter_cons_True by done. by left.
  - intros (key & Hkey & -> & Hk). apply list_elem_of_filter in Hk as [Hk _]. eauto.
Qed.

Lemma missing_of_cons (o : option json) (a b : string) (keys : list string) (k : pystr) :
  k ∈ missing_of o (a :: b :: keys) ↔ k ∈ missing_of o [a] ∨ k ∈ missing_of o (b :: keys).
Proof.
  destruct o as [[| | | | |fields]|]; simpl;
    try (split; [by intros ?%elem_of_nil | by intros [?%elem_of_nil | ?%elem_of_nil]]).
  rewrite !list_elem_of_filter, !elem_of_cons, elem_of_nil. tauto.
Qed.

Ltac missing_keys :=
  intros ?; rewrite ?elem_of_app, ?missing_of_cons, ?elem_of_nil; tauto.

Lemma format_current_weather_body_ok (data : json) :
  current_shape data →
  ok_or_missing (format_current_weather_body data) (current_missing data).
Proof.
  intros (Hdata & Hsys & Hsunrise & Hsunset & Hmain & Hweather & Hwind & Hvisibility).
  unfold format_current_weather_body.
  eapply ok_or_missing_equiv.
  - eapply ok_or_missing_bind; [by apply name_ok|]. intros city _.
    eapply ok_or_missing_bind; [by apply subscript2_ok|]. intros country _.
    eapply ok_or_missing_bind; [by apply subscript2_ok|]. intros temp _.
    eapply ok_or_missing_bind; [by apply subscript2_ok|]. intros feels_like _.
    eapply ok_or_missing_bind; [by apply subscript2_ok|]. intros humidity _.
    eapply ok_or_missing_bind; [by apply subscript2_ok|]. intros pressure _.
    eapply ok_or_missing_bind; [by apply title_description_ok|]. intros description _.
    eapply ok_or_missing_bind; [by apply subscript2_ok|]. intros wind_speed _.
    eapply ok_or_missing_bind; [by apply wind_deg_ok|]. intros wind_deg _.
    eapply (ok_or_missing_bind _ _ []); [by destruct data|]. intros visibility Hvis.
    eapply ok_or_missing_bind; [by apply timestamp_ok|]. intros sunrise _.
    eapply ok_or_missing_bind; [by apply timestamp_ok|]. intros sunset _.
    destruct (visibility_ok data visibility Hdata Hvisibility Hvis) as [km Hkm].
    eapply (ok_or_missing_bind _ _ [] []); [|intros; apply ok_or_missing_ret].
    match goal with |- ok_or_missing ?r _ => assert (r = inr km) as -> by exact Hkm end.
    done.
  - unfold current_missing. missing_keys.
Qed.

Lemma format_forecast_header_ok (data : json) :
  is_obj data → shaped is_obj (field (Some data) "city") →
  ok_or_missing (subscript2 data "city" "name")
    (missing_of (Some data) ["city"]%string ++ missing_of (field (Some data) "city") ["name"]%string) ∧
  ok_or_missing (subscript2 data "city" "country")
    (missing_of (Some data) ["city"]%string ++ missing_of (field (Some data) "city") ["country"]%string).
Proof. intros Hdata Hcity. split; by apply subscript2_ok. Qed.

Lemma map_res_inr {A B} (f : A → res B) (l : list A) (bs : list B) :
  map_res f l = inr bs → Forall2 (λ a b, f a = inr b) l bs.
Proof.
  revert bs. induction l as [|a l IH]; intros bs; simpl.
  - intros [= <-]. constructor.
  - destruct (f a) as [e|b] eqn:Hb; [done|]. simpl.
    destruct (map_res f l) as [e|bs']; [done|]. simpl. intros [= <-].
    constructor; [done | by apply IH].
Qed.

Lemma elem_of_flat_map {A B} (f : A → list B) (l : list A) (y : B) :
  y ∈ flat_map f l ↔ ∃ x, x ∈ l ∧ y ∈ f x.
Proof.
  induction l as [|x l IH]; simpl.
  - split; [by intros ?%elem_of_nil | by intros (? & ?%elem_of_nil & _)].
  - rewrite elem_of_app, IH. split.
    + intros [Hy | (x' & Hx' & Hy)]; [exists x; split; [by left | done]|].
      exists x'. split; [by right | done].
    + intros (x' & [->|Hx']%elem_of_cons & Hy); [by left|]. right. eauto.
Qed.

Lemma subscript2_inr (data : json) (a b : string) (v : json) :
  subscript2 data a b = inr v → field (field (Some data) a) b = Some v.
Proof.
  unfold subscript2. destruct data as [| | | | |fields]; try done. simpl.
  destruct (dict_lookup fields (py a)) as [[| | | | |xfields]|]; try done. simpl.
  by destruct (dict_lookup xfields (py b)); intros [= <-].
Qed.

Lemma subscript2_bind {A} (data : json) (a b : string) (P : json → Prop)
    (f : json → res A) (m : list pystr) :
  is_obj data → shaped is_obj (field (Some data) a) →
  shaped P (field (field (Some data) a) b) →
  (∀ v, P v → ok_or_missing (f v) m) →
  ok_or_missing (let* t := subscript2 data a b in f t)
    ((missing_of (Some data) [a] ++ missing_of (field (Some data) a) [b]) ++ m).
Proof.
  intros Hdata Ha Hb Hf. apply ok_or_missing_bind; [by apply subscript2_ok|].
  intros v Hv%subscript2_inr. rewrite Hv in Hb. by apply Hf.
Qed.

Lemma group_add_ok (all : list json) (groups : list (date * list json)) (d : date)
    (item : json) :
  groups_ok all groups → grouped_ok all item → groups_ok all (group_add groups d item).
Proof.
  intros Hgroups Hitem. induction Hgroups as [|[d' fs] groups [Hne Hfs] Hgroups IH]; simpl.
  - constructor; [|constructor]. simpl. split; [done|]. constructor; [done | constructor].
  - simpl in *. destruct (decide (d' = d)).
    + constructor; [|exact Hgroups]. simpl. split.
      * by destruct fs.
      * apply Forall_app. split; [done|]. constructor; [done | constructor].
    + constructor; [|exact IH]. done.
Qed.

Lemma group_by_date_ok (all items : list json) (groups : list (date * list json)) :
  Forall item_shape items → (∀ x, x ∈ items → x ∈ all) →
  ok_or_missing (group_by_date items groups)
    (flat_map (λ item, missing_of (Some item) ["dt"]%string) items) ∧
  (∀ groups', group_by_date items groups = inr groups' →
     groups_ok all groups → groups_ok all groups').
Proof.
  intros Hitems. revert groups.
  induction Hitems as [|item items Hitem _ IH]; intros groups Hall; simpl.
  - split; [done|]. by intros ? [= <-].
  - pose proof Hitem as (Hobj & Hdt & _).
    destruct item as [| | | | |fields]; try done. simpl in *.
    destruct (dict_lookup fields (py "dt")) as [t|] eqn:Ht; simpl.
    + destruct Hdt as (n & Hn & d & Hd). unfold py_fromtimestamp. rewrite Hn, Hd. simpl.
      rewrite filter_cons_False, filter_nil by (by rewrite Ht). simpl.
      destruct (IH (group_add groups (dt_date d) (JObj fields))) as [Hok Hinv].
      { intros x Hx. apply Hall. by right. }
      split; [done|]. intros groups' Hgroups' Hgroups. apply Hinv; [done|].
      apply group_add_ok; [done|]. split; [done|]. split.
      * simpl. by rewrite Ht.
      * apply Hall. by left.
    + split; [|done]. rewrite filter_cons_True by done. by left.
Qed.

Lemma best_by_elem (P : json → Prop) (better : num → num → bool) (best : json * num)
    (l : list (json * num)) :
  P best.1 → Forall (λ p, P p.1) l → P (best_by better best l).
Proof.
  intros Hbest Hl. revert best Hbest.
  induction Hl as [|x l Hx _ IH]; intros best Hbest; simpl; [done|].
  apply IH. by destruct (better x.2 best.2).
Qed.

Lemma zip_fst_Forall {A B} (P : A → Prop) (l : list A) (k : list B) :
  Forall P l → Forall (λ p, P p.1) (zip l k).
Proof.
  intros Hl. revert k. induction Hl as [|x l Hx _ IH]; intros [|y k]; simpl;
    constructor; auto.
Qed.

Lemma py_min_max_numbers (P : json → Prop) (temps : list json) :
  temps ≠ [] → Forall is_number temps → Forall P temps →
  (∃ x, py_min temps = inr x ∧ P x) ∧ (∃ x, py_max temps = inr x ∧ P x).
Proof.
  intros Hne Htemps HP.
  assert (is_Some (all_numbers temps)) as [ns Hns].
  { unfold all_numbers. apply mapM_is_Some. eapply Forall_impl; [exact Htemps|]. done. }
  destruct temps as [|x temps]; [done|].
  unfold py_min, py_max. rewrite Hns.
  destruct ns as [|n ns].
  { unfold all_numbers in Hns. apply length_mapM in Hns. done. }
  apply Forall_cons in HP as [Hx HP].
  split; eexists; (split; [done|]); apply best_by_elem; try done;
    by apply zip_fst_Forall.
Qed.

Lemma max_by_key_elem (P : json → Prop) (key : json → nat) (best : json) (l : list json) :
  P best → Forall P l → P (max_by_key key best l).
Proof.
  intros Hbest Hl. revert best Hbest.
  induction Hl as [|x l Hx _ IH]; intros best Hbest; simpl; [done|].
  apply IH. by destruct (decide _).
Qed.

Lemma most_common_str (conditions : list json) :
  conditions ≠ [] → Forall is_str conditions →
  ∃ c, most_common conditions = inr c ∧ is_str c.
Proof.
  intros Hne Hstr. unfold most_common.
  assert (forallb hashable conditions = true) as ->.
  { clear Hne. induction Hstr as [|v l Hv _ IH]; [done|]. simpl. rewrite IH.
    by destruct v. }
  pose proof (set_order_nonempty conditions Hne) as Hset.
  pose proof (set_order_elem_of conditions) as Helem.
  destruct (set_order conditions) as [|x rest]; [done|].
  eexists. split; [done|]. rewrite Forall_forall in Hstr.
  apply max_by_key_elem.
  - apply Hstr, Helem. by left.
  - apply Forall_forall. intros v Hv. apply Hstr, Helem. by right.
Qed.

Lemma is_temperature_number (v : json) : is_temperature v → is_number v.
Proof. intros (n & Hn & _). by exists n. Qed.

(** A sum returns when no field is missing, raises the [KeyError] of a
    missing field, or raises [OverflowError]. *)
Lemma py_sum_ok (fld : string) (forecasts : list json) (acc : num) :
  Forall (λ f, is_obj f ∧ shaped is_obj (field (Some f) "main") ∧
               shaped is_number (field (field (Some f) "main") fld)) forecasts →
  match py_sum (λ f, subscript2 f "main" fld) forecasts acc with
  | inr _ => flat_map (main_missing fld) forecasts = []
  | inl (KeyError (KStr k)) => k ∈ flat_map (main_missing fld) forecasts
  | inl OverflowError => True
  | inl _ => False
  end.
Proof.
  intros Hfs. revert acc. induction Hfs as [|f fs (Hobj & Hmain & Hfld) _ IH]; intros acc.
  - done.
  - cbn [py_sum flat_map].
    pose proof (subscript2_ok f "main" fld Hobj Hmain) as Hok.
    fold (main_missing fld f) in Hok.
    destruct (subscript2 f "main" fld) as [e|v] eqn:Hv; cbn [bind].
    + destruct e as [[k|]| | | | | | |]; try done. apply elem_of_app. by left.
    + simpl in Hok. rewrite Hok, app_nil_l.
      apply subscript2_inr in Hv. rewrite Hv in Hfld. destruct Hfld as [n ->].
      destruct (num_add acc n) as [acc'|]; [apply IH | done].
Qed.

Lemma average_ok (fld : string) (forecasts : list json) :
  forecasts ≠ [] →
  Forall (λ f, is_obj f ∧ shaped is_obj (field (Some f) "main") ∧
               shaped is_number (field (field (Some f) "main") fld)) forecasts →
  in_range (average fld forecasts) →
  ok_or_missing (average fld forecasts) (flat_map (main_missing fld) forecasts).
Proof.
  intros Hne Hfs Hrange. unfold in_range, average in *.
  pose proof (py_sum_ok fld forecasts (num_of_Z 0) Hfs) as Hsum.
  destruct (py_sum _ forecasts (num_of_Z 0)) as [e|total]; cbn [bind] in *.
  - by destruct e as [[k|]| | | | | | |].
  - destruct forecasts as [|f fs]; [done|].
    by destruct (num_div total _).
Qed.

Lemma hourly_line_ok (all : list json) (f : json) :
  grouped_ok all f →
  ok_or_missing (hourly_line f) (main_missing "temp" f ++ weather_missing f).
Proof.
  intros ((Hobj & Hdt & Hmain & Htemp & _ & _ & Hweather) & [t Ht] & _).
  unfold hourly_line.
  assert (∃ time, (let* t := subscript f (py "dt") in
                   let* d := py_fromtimestamp t in inr (strftime d (py "%H:%M")))
                  = inr time) as [time ->].
  { destruct f as [| | | | |fields]; try done. simpl in *. rewrite Ht in *. simpl.
    destruct Hdt as (n & Hn & d & Hd). unfold py_fromtimestamp. rewrite Hn, Hd.
    simpl. eauto. }
  simpl. eapply ok_or_missing_equiv.
  - eapply ok_or_missing_bind; [by apply subscript2_ok|]. intros temp _.
    eapply ok_or_missing_bind; [by apply title_description_ok|]. intros desc _.
    apply ok_or_missing_ret.
  - unfold main_missing, weather_missing. missing_keys.
Qed.

Lemma Forall2_Forall_r {A B} (P : A → Prop) (Q : B → Prop) (R : A → B → Prop)
    (l : list A) (k : list B) :
  Forall2 R l k → Forall P l → (∀ a b, P a → R a b → Q b) → Forall Q k.
Proof.
  intros HR. induction HR as [|a b l k Hab _ IH]; intros Hl HPQ; [constructor|].
  apply Forall_cons in Hl as [Ha Hl]. constructor; eauto.
Qed.

Lemma day_summary_ok (all : list json) (day : date * list json) :
  day.2 ≠ [] → Forall (grouped_ok all) day.2 →
  in_range (average "humidity" day.2) → in_range (average "pressure" day.2) →
  ok_or_missing (day_summary day) (flat_map item_missing day.2).
Proof.
  destruct day as [d forecasts]. simpl. intros Hne Hfs Hhumidity Hpressure.
  unfold day_summary.
  assert (Forall item_shape forecasts) as Hshape.
  { eapply Forall_impl; [done|]. by intros f [? _]. }
  assert (∀ fld, fld = "temp"%string ∨ fld = "humidity"%string ∨ fld = "pressure"%string →
    Forall (λ f, is_obj f ∧ shaped is_obj (field (Some f) "main") ∧
                 shaped is_number (field (field (Some f) "main") fld)) forecasts) as Hmain.
  { intros fld Hfld. eapply Forall_impl; [exact Hshape|].
    intros f (? & _ & ? & Htemp & ? & ? & _). destruct Hfld as [->|[->| ->]]; try done.
    split; [done|]. split; [done|].
    destruct (field (field (Some f) "main") "temp"); [|done].
    by apply is_temperature_number. }
  eapply ok_or_missing_equiv.
  - eapply ok_or_missing_bind.
    { apply (ok_or_missing_map_res _ (main_missing "temp")). intros f Hf.
      rewrite Forall_forall in Hshape. destruct (Hshape f Hf) as (? & _ & ? & _).
      by apply subscript2_ok. }
    intros temps Htemps%map_res_inr.
    assert (temps ≠ [] ∧ Forall is_temperature temps) as [Htne Htnum].
    { split.
      - destruct Htemps; [done | discriminate].
      - eapply Forall2_Forall_r; [exact Htemps | exact Hshape |].
        intros f v (_ & _ & _ & Hnum & _) Hv%subscript2_inr. by rewrite Hv in Hnum. }
    destruct (py_min_max_numbers is_temperature temps Htne
                (Forall_impl _ _ _ Htnum is_temperature_number) Htnum)
      as [(min_temp & -> & Hmin) (max_temp & -> & Hmax)]. simpl.
    eapply ok_or_missing_bind.
    { apply (ok_or_missing_map_res _ weather_missing). intros f Hf.
      rewrite Forall_forall in Hshape. destruct (Hshape f Hf) as (? & _ & _ & _ & _ & _ & ?).
      by apply description_ok. }
    intros conditions Hconditions%map_res_inr.
    assert (conditions ≠ [] ∧ Forall is_str conditions) as [Hcne Hcstr].
    { split.
      - destruct Hconditions; [done | discriminate].
      - eapply Forall2_Forall_r; [exact Hconditions | exact Hshape |].
        intros f v (? & _ & _ & _ & _ & _ & ?) Hv. by eapply description_ok. }
    destruct (most_common_str conditions Hcne Hcstr) as (c & -> & Hc). simpl.
    destruct c; try done. simpl.
    eapply ok_or_missing_bind; [apply average_ok; [done | apply Hmain; auto | done]|].
    intros avg_humidity _.
    eapply ok_or_missing_bind; [apply average_ok; [done | apply Hmain; auto | done]|].
    intros avg_pressure _.
    assert (∀ v, is_temperature v → ∃ s, format_f 1 v = inr s) as Hfmt.
    { intros v (n & Hn & text & Hs). unfold format_f. rewrite Hn, Hs.
      destruct v; try done; eauto. }
    destruct (Hfmt _ Hmin) as [min_temp_s ->]. destruct (Hfmt _ Hmax) as [max_temp_s ->].
    simpl.
    eapply ok_or_missing_bind.
    { apply (ok_or_missing_map_res _ (λ f, main_missing "temp" f ++ weather_missing f)).
      intros f Hf%elem_of_take. destruct Hf as (i & Hf & _).
      rewrite Forall_forall in Hfs. eapply hourly_line_ok, Hfs.
      by eapply list_elem_of_lookup_2. }
    intros hourly _. apply ok_or_missing_ret.
  - intros k. rewrite !elem_of_app, !elem_of_flat_map, elem_of_nil.
    unfold item_missing, main_missing, weather_missing.
    split.
    + intros [(f & Hf & Hk)|[(f & Hf & Hk)|[(f & Hf & Hk)|[(f & Hf & Hk)|
               [(f & Hf & Hk)|[]]]]]];
        try (apply elem_of_take in Hf as (i & Hf & _);
             apply list_elem_of_lookup_2 in Hf);
        exists f; (split; [done|]); revert k Hk; missing_keys.
    + intros (f & Hf & Hk). revert Hk.
      rewrite !elem_of_app, !missing_of_cons.
      intros [[Hk|Hk]|[[Hk|[Hk|Hk]]|Hk]].
      * left. exists f. split; [done|]. apply elem_of_app. by left.
      * right. left. exists f. split; [done|]. apply elem_of_app. by left.
      * left. exists f. split; [done|]. apply elem_of_app. by right.
      * right. right. left. exists f. split; [done|]. apply elem_of_app. by right.
      * right. right. right. left. exists f. split; [done|]. apply elem_of_app. by right.
      * right. left. exists f. split; [done|]. apply elem_of_app. by right.
Qed.

Lemma items_ok (data : json) :
  is_obj data → shaped is_item_list (field (Some data) "list") →
  ok_or_missing (let* l := subscript data (py "list") in py_iter l)
    (missing_of (Some data) ["list"]%string) ∧
  (∀ items, (let* l := subscript data (py "list") in py_iter l) = inr items →
     items = items_of data ∧ Forall item_shape items).
Proof.
  destruct data as [| | | | |fields]; try done. intros _. unfold items_of. simpl.
  destruct (dict_lookup fields (py "list")) as [l|] eqn:Hl; simpl.
  - destruct l as [| | | |items|]; try done. simpl. intros Hitems.
    split; [|by intros ? [= <-]].
    by rewrite filter_cons_False, filter_nil by (by rewrite Hl).
  - intros _. split; [|done]. rewrite filter_cons_True by done. by left.
Qed.

Lemma flat_map_flat_map {A B C} (f : B → list C) (g : A → list B) (l : list A) :
  flat_map f (flat_map g l) = flat_map (λ x, flat_map f (g x)) l.
Proof. induction l as [|x l IH]; [done|]. simpl. by rewrite flat_map_app, IH. Qed.

Lemma format_forecast_body_ok (data : json) :
  forecast_shape data →
  ok_or_missing (format_forecast_body data) (forecast_missing data).
Proof.
  intros (Hdata & Hcity & Hlist & Hrange). unfold format_forecast_body.
  destruct (items_ok data Hdata Hlist) as [Hitems_ok Hitems].
  eapply ok_or_missing_equiv.
  - eapply ok_or_missing_bind; [by apply subscript2_ok|]. intros city _.
    eapply ok_or_missing_bind; [by apply subscript2_ok|]. intros country _.
    eapply ok_or_missing_bind; [exact Hitems_ok|]. intros items [-> Hshape]%Hitems.
    destruct (group_by_date_ok (items_of data) (items_of data) [] Hshape ltac:(done))
      as [Hgroups_ok Hgroups].
    eapply ok_or_missing_bind; [exact Hgroups_ok|]. intros daily_forecasts Hdaily.
    apply (ok_or_missing_bind _ _ (flat_map item_missing (shown data)) []);
      [|intros; apply ok_or_missing_ret].
    unfold shown. unfold averages_in_range in Hrange.
    rewrite Hdaily in Hrange |- *. rewrite flat_map_flat_map.
    apply ok_or_missing_map_res. intros day Hday.
    specialize (Hgroups _ Hdaily ltac:(constructor)).
    rewrite Forall_forall in Hrange. destruct (Hrange day Hday) as [Hhumidity Hpressure].
    apply elem_of_take in Hday as (i & Hday%list_elem_of_lookup_2 & _).
    unfold groups_ok in Hgroups. rewrite Forall_forall in Hgroups.
    destruct (Hgroups day Hday) as [Hne Hfs].
    by eapply day_summary_ok.
  - unfold forecast_missing. missing_keys.
Qed.

(** C9, amended: on a payload from which fields are absent that the
    formatter reads without a default, and whose other fields have the
    shape the endpoint gives them (a weather list that starts with a dict,
    timestamps that [fromtimestamp] takes, numbers within the range of a
    [float] where they are formatted, divided or averaged),
    [format_current_weather] and [format_forecast] return, instead of
    raising, a string that names one of those absent fields (the first one
    they come to); with no such field absent they return the report, so a
    payload that lacks only a field read with a default, or a field of a
    sample of a day that is not shown, is formatted without an error. *)
Theorem malformed_payload_fails_soft :
  (∀ data, current_shape data →
     (current_missing data ≠ [] →
      ∃ k, k ∈ current_missing data ∧
           format_current_weather data =
             inr (py "Error formatting weather data: Missing key " ++
                  py "'" ++ k ++ py "'")) ∧
     (current_missing data = [] →
      ∃ report, format_current_weather_body data = inr report ∧
                format_current_weather data = inr report)) ∧
  (∀ data, forecast_shape data →
     (forecast_missing data ≠ [] →
      ∃ k, k ∈ forecast_missing data ∧
           format_forecast data =
             inr (py "Error formatting forecast data: Missing key " ++
                  py "'" ++ k ++ py "'")) ∧
     (forecast_missing data = [] →
      ∃ report, format_forecast_body data = inr report ∧
                format_forecast data = inr report)).
Proof.
  split.
  - intros data Hok%format_current_weather_body_ok. unfold format_current_weather.
    destruct (format_current_weather_body data) as [e|report]; simpl in Hok.
    + destruct e as [[k|]| | | | | | |]; try done. split.
      * intros _. exists k. split; [done|]. done.
      * intros Hnone. rewrite Hnone in Hok. by apply elem_of_nil in Hok.
    + split; [done|]. eauto.
  - intros data Hok%format_forecast_body_ok. unfold format_forecast.
    destruct (format_forecast_body data) as [e|report]; simpl in Hok.
    + destruct e as [[k|]| | | | | | |]; try done. split.
      * intros _. exists k. split; [done|]. done.
      * intros Hnone. rewrite Hnone in Hok. by apply elem_of_nil in Hok.
    + split; [done|]. eauto.
Qed.

Lemma format_current_weather_returns (data : json) :
  current_shape data → ∃ text, format_current_weather data = inr text.
Proof.
  intros Hok%format_current_weather_body_ok. unfold format_current_weather.
  destruct (format_current_weather_body data) as [[[k|]| | | | | | |]|report];
    simpl in Hok; try done; eauto.
Qed.

Lemma format_forecast_returns (data : json) :
  forecast_shape data → ∃ text, format_forecast data = inr text.
Proof.
  intros Hok%format_forecast_body_ok. unfold format_forecast.
  destruct (format_forecast_body data) as [[[k|]| | | | | | |]|report];
    simpl in Hok; try done; eauto.
Qed.

Lemma the_row_comparison_row (result : pystr * json) (r : row) :
  the_row result = Some r → comparison_row result = inr r.
Proof.
  destruct result as [city data]. unfold the_row, comparison_row, subscript2,
    description_of. simpl.
  destruct data as [| | | | |fields]; try done. simpl.
  destruct (dict_lookup fields (py "main")) as [[| | | | |main]|]; try done. simpl.
  destruct (dict_lookup main (py "temp")) as [temp|]; [|done]. simpl.
  destruct (as_num temp) as [n|] eqn:Hn; [|done]. simpl.
  destruct (num_fmt 1 n) as [temp_s|] eqn:Hs; [|done]. simpl.
  destruct (dict_lookup main (py "humidity")) as [humidity|]; [|done]. simpl.
  destruct (dict_lookup main (py "pressure")) as [pressure|]; [|done]. simpl.
  destruct (dict_lookup fields (py "weather")) as [[| | | |[|[| | | | |w0] ws]|]|];
    try done. simpl.
  destruct (dict_lookup w0 (py "description")) as [[| | |condition| |]|]; try done.
  simpl. intros [= <-]. unfold format_f. rewrite Hn, Hs. by destruct temp.
Qed.

End FormattingProperties.

Section FormattingExamples.
Local Existing Instances Mock.pynum Mock.host Mock.unicode.

Lemma malformed_payload_fails_soft_witness :
  format_current_weather (Mock.without "wind" (Mock.payload "Oslo" 4)) =
    inr (py "Error formatting weather data: Missing key 'wind'") ∧
  format_forecast
    (Mock.forecast_payload
       [Mock.sample 1700000000 4; Mock.without "main" (Mock.sample 1700010800 5)]) =
    inr (py "Error formatting forecast data: Missing key 'main'").
Proof.
  destruct malformed_payload_fails_soft as [Hcurrent Hforecast]. split.
  - destruct (Hcurrent (Mock.without "wind" (Mock.payload "Oslo" 4))) as [Herror _].
    { repeat split; try exact I.
      - eexists. split; [reflexivity|]. eexists. reflexivity.
      - eexists. split; [reflexivity|]. eexists. reflexivity.
      - right. eexists. split; [reflexivity|]. eexists. reflexivity. }
    destruct Herror as (k & Hk & Hformat); [discriminate|].
    change (k ∈ [py "wind"]) in Hk. apply list_elem_of_singleton in Hk. subst k.
    exact Hformat.
  - destruct (Hforecast
                (Mock.forecast_payload
                   [Mock.sample 1700000000 4;
                    Mock.without "main" (Mock.sample 1700010800 5)])) as [Herror _].
    { split; [exact I|]. split; [exact I|]. split.
      - repeat constructor; try exact I.
        + eexists. split; [reflexivity|]. eexists. reflexivity.
        + eexists. split; [reflexivity|]. eexists. reflexivity.
        + eexists. reflexivity.
        + eexists. reflexivity.
        + eexists. split; [reflexivity|]. eexists. reflexivity.
      - repeat constructor; discriminate. }
    destruct Herror as (k & Hk & Hformat); [discriminate|].
    change (k ∈ [py "main"]) in Hk. apply list_elem_of_singleton in Hk. subst k.
    exact Hformat.
Defined.

(** C9, as the claim states it.  A payload without ["visibility"]%string
    is formatted with the default, and a forecast whose sixth day has a
    sample without ["main"]%string is formatted as if it had it: neither
    gives an error string.  A payload without ["wind"]%string whose
    weather list is empty raises [IndexError], and a forecast whose first
    day holds a temperature beyond the range of a [float] and whose second
    day lacks ["main"]%string raises [OverflowError]: the [except
    KeyError] clauses let both through. *)
Lemma malformed_payload_counterexample :
  let no_visibility := Mock.without "visibility" (Mock.payload "Oslo" 4) in
  let no_weather :=
    Mock.with_field "weather" (JArr []) (Mock.without "wind" (Mock.payload "Oslo" 4)) in
  let sixth_day := take 5 six_days ++ [Mock.without "main" (Mock.sample 432000 15)] in
  let overflow :=
    [Mock.with_field "main"
       (JObj [(py "temp", Mock.huge); (py "humidity", JNum 55%Z);
              (py "pressure", JNum 1012%Z)])
       (Mock.sample 1700000000 4);
     Mock.without "main" (Mock.sample 1700010800 5)] in
  (∃ report, format_current_weather no_visibility = inr report ∧
             take 16 report ≠ py "Error formatting") ∧
  (∃ report, format_forecast (Mock.forecast_payload sixth_day) = inr report ∧
             take 16 report ≠ py "Error formatting" ∧
             format_forecast (Mock.forecast_payload six_days) = inr report) ∧
  format_current_weather no_weather = inl IndexError ∧
  format_forecast (Mock.forecast_payload overflow) = inl OverflowError.
Proof.
  split; [|split; [|split]].
  - eexists. split; [reflexivity|]. vm_compute. discriminate.
  - eexists. split; [reflexivity|]. split; [vm_compute; discriminate|reflexivity].
  - reflexivity.
  - reflexivity.
Qed.

End FormattingExamples.

(** ** The workers and the poll loop *)

Section CoordinatorProperties.
Context `{PyHost} `{Unicode} `{!Session}.

Lemma receive_transport_failure (failure : json) (o : outcome) :
  transport_failure o → WeatherAPI.receive failure o = inr failure.
Proof.
  destruct o as [e|status_code body]; [done|]. simpl. intros Hs.
  unfold raise_for_status.
  destruct (Z.leb_spec 400 status_code), (Z.ltb_spec status_code 600); simpl; (done || lia).
Qed.

(** A worker ends with exactly one [put], and never with an exception. *)
Lemma worker_puts_one (api_key : pystr) (f : fetch) (q : list message) (w : world) :
  ∃ m, (worker api_key f q w).1 = inr (q ++ [m]) ∧ produced_by f m.
Proof.
  destruct f as [city|city|cities]; simpl.
  - unfold fetch_current_weather.
    destruct (WeatherAPI.get_weather_data api_key city w) as [[e|data] w']; simpl;
      (eexists; split; [reflexivity | done]).
  - unfold fetch_forecast.
    destruct (WeatherAPI.get_forecast_data api_key city 5 w) as [[e|data] w']; simpl;
      (eexists; split; [reflexivity | done]).
  - unfold fetch_comparison_data.
    destruct (comparison_loop api_key cities [] w) as [results w'] eqn:Hloop. simpl.
    eexists. split; [done|]. simpl.
    assert (∀ cs acc w0 results0 w1,
      comparison_loop api_key cs acc w0 = (results0, w1) →
      ∃ new, results0 = acc ++ new ∧ new.*1 `sublist_of` cs) as Hgen.
    { clear. induction cs as [|city cs IH]; intros acc w0 results0 w1; simpl.
      - intros [= <- <-]. exists []. by rewrite app_nil_r.
      - destruct (WeatherAPI.get_weather_data api_key city w0) as [r w0'].
        intros Hloop. apply IH in Hloop as (new & -> & Hsub).
        destruct r as [e|data]; [|destruct (truthy data)].
        + exists new. split; [done|]. by apply sublist_cons.
        + exists ((city, data) :: new). split; [by rewrite <-app_assoc|].
          simpl. by apply sublist_skip.
        + exists new. split; [done|]. by apply sublist_cons. }
    apply Hgen in Hloop as (new & -> & Hsub). done.
Qed.

(** One run of [process_queue] hands over a prefix of the queue and leaves
    the rest. *)
Lemma process_queue_split (q : list message) (g : gui) :
  dispatched (process_queue q g) ++ poll_queue (process_queue q g) = q.
Proof.
  revert g. induction q as [|m q IH]; intros g; [done|]. simpl.
  destruct (dispatch m g) as [[e|] g']; simpl; [done|]. by rewrite IH.
Qed.

Lemma process_queue_returns (q : list message) (g : gui) :
  Forall returns q →
  dispatched (process_queue q g) = q ∧
  poll_queue (process_queue q g) = [] ∧
  poll_raised (process_queue q g) = None ∧
  rescheduled (process_queue q g) = true.
Proof.
  intros Hq. revert g. induction Hq as [|m q Hm _ IH]; intros g; [done|]. simpl.
  specialize (Hm g). destruct (dispatch m g) as [[e|] g']; [done|]. simpl.
  destruct (IH g') as (-> & -> & -> & ->). done.
Qed.

Lemma process_queue_raises (m : message) (q : list message) (g : gui) (e : exn) :
  (dispatch m g).1 = Some e →
  dispatched (process_queue (m :: q) g) = [m] ∧
  poll_queue (process_queue (m :: q) g) = q ∧
  rescheduled (process_queue (m :: q) g) = false.
Proof. simpl. destruct (dispatch m g) as [[e'|] g']; [done | discriminate]. Qed.

(** A run during which other threads put is the run of [process_queue] on
    the queue with the [put]s that came before its end, followed by the
    other [put]s: this is why [step] takes a run as one event. *)
Lemma process_queue_serialises (actions : list action) (q : list message) (g : gui)
    (r : poll) :
  process_queue_interleaved actions q g = Some r →
  ∃ before after,
    puts actions = before ++ after ∧
    r = poll_then_put (process_queue (q ++ before) g) after.
Proof.
  revert q g r. induction actions as [|[m|] actions IH]; intros q g r; simpl.
  - done.
  - intros (before & after & Hputs & ->)%IH. exists (m :: before), after.
    split; [by rewrite Hputs|]. by rewrite <-app_assoc.
  - destruct q as [|m q].
    + intros [= <-]. by exists [], (puts actions).
    + simpl. destruct (dispatch m g) as [[e|] g'].
      * intros [= <-]. exists [], (puts actions). split; [done|].
        by rewrite app_nil_r.
      * destruct (process_queue_interleaved actions q g') as [r'|] eqn:Hr'; [|done].
        simpl. intros [= <-]. apply IH in Hr' as (before & after & Hputs & ->).
        by exists before, after.
Qed.

Lemma step_fifo (api_key : pystr) (e : event) (a : app) :
  fifo a → fifo (step api_key e a).
Proof.
  unfold fifo. intros Ha. destruct e as [f|]; simpl.
  - destruct (worker_puts_one api_key f (queue a) (net a)) as (m & Hm & _).
    destruct (worker api_key f (queue a) (net a)) as [[e|q'] w']; simpl in *; [done|].
    injection Hm as ->. rewrite drop_app_length, <-Ha. by rewrite app_assoc.
  - destruct (polling a); [|done]. simpl.
    by rewrite <-app_assoc, process_queue_split.
Qed.

Lemma run_fifo (api_key : pystr) (events : list event) (a : app) :
  fifo a → fifo (run api_key events a).
Proof.
  revert a. induction events as [|e events IH]; intros a Ha; [done|].
  simpl. apply IH. by apply step_fifo.
Qed.

Lemma step_enqueued (api_key : pystr) (e : event) (a : app) :
  ∃ new, enqueued (step api_key e a) = enqueued a ++ new ∧
         Forall2 produced_by (completions [e]) new.
Proof.
  destruct e as [f|]; simpl.
  - destruct (worker_puts_one api_key f (queue a) (net a)) as (m & Hm & Hf).
    destruct (worker api_key f (queue a) (net a)) as [[e|q'] w']; simpl in *; [done|].
    injection Hm as ->. rewrite drop_app_length. exists [m]. split; [done|].
    by repeat constructor.
  - exists []. rewrite app_nil_r. split; [by destruct (polling a) | constructor].
Qed.

Lemma run_enqueued (api_key : pystr) (events : list event) (a : app) :
  ∃ new, enqueued (run api_key events a) = enqueued a ++ new ∧
         Forall2 produced_by (completions events) new.
Proof.
  revert a. induction events as [|e events IH]; intros a.
  - exists []. rewrite app_nil_r. split; [done | constructor].
  - destruct (step_enqueued api_key e a) as (new1 & Hnew1 & Hf1).
    destruct (IH (step api_key e a)) as (new2 & Hnew2 & Hf2).
    exists (new1 ++ new2). split.
    + change (run api_key (e :: events) a) with (run api_key events (step api_key e a)).
      by rewrite Hnew2, Hnew1, app_assoc.
    + assert (completions (e :: events) = completions [e] ++ completions events) as ->
        by (by destruct e).
      by apply Forall2_app.
Qed.

Lemma run_polling (api_key : pystr) (events : list event) (a : app) :
  fifo a → polling a = true →
  Forall returns (enqueued (run api_key events a)) →
  polling (run api_key events a) = true.
Proof.
  revert a. induction events as [|e events IH]; intros a Ha Hp Hreturns; [done|].
  simpl in *. apply IH; [by apply step_fifo | | done].
  destruct e as [f|]; simpl.
  - by destruct (worker api_key f (queue a) (net a)) as [[e|q'] w'].
  - rewrite Hp. simpl. apply process_queue_returns.
    destruct (run_enqueued api_key events (step api_key Tick a)) as (new & Hnew & _).
    rewrite Hnew in Hreturns. apply Forall_app in Hreturns as [Hreturns _].
    simpl in Hreturns. rewrite Hp in Hreturns. simpl in Hreturns.
    rewrite <-Ha in Hreturns. by apply Forall_app in Hreturns as [_ Hreturns].
Qed.

End CoordinatorProperties.

(** ** The comparison *)

Section ComparisonTheorems.
Context `{PyHost} `{Unicode} `{!Session}.



Lemma set_comparison_tree_twice (t1 t2 : list row) (g : gui) :
  set_comparison_tree t2 (set_comparison_tree t1 g) = set_comparison_tree t2 g.
Proof. done. Qed.

Lemma insert_rows_all (results : list (pystr * json)) (rows : list row) (g : gui) :
  map_res comparison_row results = inr rows →
  insert_rows results g = (None, set_comparison_tree (comparison_tree g ++ rows) g).
Proof.
  revert rows g. induction results as [|result results IH]; intros rows g; simpl.
  - intros [= <-]. rewrite app_nil_r. by destruct g.
  - destruct (comparison_row result) as [e|r]; [done|]. simpl.
    destruct (map_res comparison_row results) as [e|rows'] eqn:Hrows; [done|].
    simpl. intros [= <-]. rewrite (IH rows' _ eq_refl). simpl.
    by rewrite <-app_assoc.
Qed.

Lemma rows_of_results (results : list (pystr * json)) (rows : list row) :
  Forall2 (λ result r, the_row result = Some r) results rows →
  map_res comparison_row results = inr rows.
Proof.
  induction 1 as [|result r results rows Hr _ IH]; [done|]. simpl.
  by rewrite (the_row_comparison_row _ _ Hr), IH.
Qed.

(** The handlers return on the messages they are written for. *)
Lemma benign_returns (m : message) : benign m → returns m.
Proof.
  destruct m as [data city|data city|results|text city]; simpl; intros Hm g.
  - destruct (truthy data) eqn:Htruthy;
      unfold dispatch, display_current_weather; rewrite Htruthy; simpl; [|done].
    destruct Hm as [|Hshape]; [done|].
    by destruct (format_current_weather_returns data Hshape) as [text ->].
  - destruct (truthy data) eqn:Htruthy;
      unfold dispatch, display_forecast; rewrite Htruthy; simpl; [|done].
    destruct Hm as [|Hshape]; [done|].
    by destruct (format_forecast_returns data Hshape) as [text ->].
  - unfold dispatch, display_comparison. destruct results as [|result results]; [done|].
    assert (∃ rows, Forall2 (λ result r, the_row result = Some r)
                      (result :: results) rows) as [rows Hrows].
    { induction Hm as [|x l [r Hr] _ [rows IH]]; [by exists []|].
      exists (r :: rows). by constructor. }
    by rewrite (insert_rows_all _ rows _ (rows_of_results _ _ Hrows)).
  - done.
Qed.


End ComparisonTheorems.

Section CoordinatorTheorems.
Context `{PyHost} `{Unicode} `{!Session}.

Lemma run_app (api_key : pystr) (events1 events2 : list event) (a : app) :
  run api_key (events1 ++ events2) a = run api_key events2 (run api_key events1 a).
Proof. apply foldl_app. Qed.

(** X26: whatever the workers and the timer do, the messages dispatched
    so far followed by the queue are the messages put so far, in the order
    of the [put]s, one per completed fetch; the handlers return on the
    messages they are written for; and when the handler of every message
    put returns, a run of [process_queue] hands over the whole queue in
    order and schedules the next run, so that after a last tick every
    message has been dispatched, once, in completion order. *)
Theorem poll_delivers_in_completion_order (api_key : pystr) (w : world)
    (events : list event) :
  let b := run api_key events (app0 w) in
  let a := run api_key (events ++ [Tick]) (app0 w) in
  (delivered b ++ queue b = enqueued b ∧
   Forall2 produced_by (completions events) (enqueued b)) ∧
  (∀ m, benign m → returns m) ∧
  (Forall returns (enqueued a) →
   (∀ q g, q `sublist_of` enqueued a →
      dispatched (process_queue q g) = q ∧
      poll_queue (process_queue q g) = [] ∧
      rescheduled (process_queue q g) = true) ∧
   delivered a = enqueued a ∧ queue a = [] ∧ polling a = true ∧
   Forall2 produced_by (completions events) (delivered a) ∧
   (∀ issued, completions events ≡ₚ issued → length (delivered a) = length issued)).
Proof.
  intros b a.
  assert (fifo b) as Hb by (by apply run_fifo).
  destruct (run_enqueued api_key events (app0 w)) as (new & Hnew & Hnewf).
  simpl in Hnew. fold b in Hnew. subst new.
  split; [done|]. split; [apply benign_returns|]. intros Hreturns.
  assert (enqueued a = enqueued b) as Hab.
  { subst a. rewrite run_app. fold b. simpl. by destruct (polling b). }
  rewrite Hab in *.
  assert (polling b = true) as Hp by (by apply run_polling).
  assert (Forall returns (queue b)) as Hq.
  { rewrite <-Hb in Hreturns. by apply Forall_app in Hreturns as [_ ?]. }
  split.
  { intros q g Hsub. pose proof (process_queue_returns q g) as Hr.
    destruct Hr as (? & ? & _ & ?); [|done].
    apply Forall_forall. intros m Hm. rewrite Forall_forall in Hreturns.
    apply Hreturns. by eapply elem_of_sublist. }
  subst a. rewrite run_app. fold b. simpl. rewrite Hp. simpl.
  destruct (process_queue_returns (queue b) (ui b) Hq) as (-> & -> & _ & ->).
  unfold fifo in Hb. rewrite !Hb.
  split; [reflexivity|]. split; [reflexivity|]. split; [reflexivity|].
  split; [exact Hnewf|].
  intros issued Hissued. rewrite <-(Permutation_length Hissued).
  symmetry. by eapply Forall2_length.
Qed.

(** C6, amended: a [get] that raises a [RequestException] or answers with a
    4xx or 5xx status makes the client return [None]; no worker ever ends
    with an exception, each ends with one [put]; the handler of a [None]
    result returns, so the run of [process_queue] that dispatches it
    schedules the next run, and the result of any fetch that completes
    afterwards, a success among them, is dispatched by that next run. *)
Theorem transport_failure_is_survived (api_key city : pystr) (w w' : world)
    (o : outcome) :
  transport_failure o →
  (session_get (WeatherAPI.weather_request api_key city) w = (o, w') →
   WeatherAPI.get_weather_data api_key city w = (inr JNull, w')) ∧
  (session_get (WeatherAPI.forecast_request api_key city 5) w = (o, w') →
   WeatherAPI.get_forecast_data api_key city 5 w = (inr JNull, w')) ∧
  (∀ f q w0, ∃ m, (worker api_key f q w0).1 = inr (q ++ [m])) ∧
  (∀ f r a,
     request_of api_key f = Some r → session_get r w = (o, w') →
     fifo a → polling a = true → queue a = [] → net a = w →
     let a1 := run api_key [Complete f; Tick] a in
     delivered a1 = delivered a ++ [failure_message f] ∧
     queue a1 = [] ∧ polling a1 = true ∧
     ∀ f2,
       let a2 := run api_key [Complete f2; Tick] a1 in
       (∃ m2, produced_by f2 m2 ∧
              delivered a2 = delivered a ++ [failure_message f; m2]) ∧
       queue a2 = [] ∧
       (∀ city2 payload w'',
          f2 = FetchCurrent city2 →
          session_get (WeatherAPI.weather_request api_key city2) w'
            = (Response 200 (Some payload), w'') →
          delivered a2 =
            delivered a ++ [failure_message f; current_weather payload city2])).
Proof.
  intros Hfail.
  assert (∀ r failure, session_get r w = (o, w') →
            (let (o0, w0) := session_get r w in (WeatherAPI.receive failure o0, w0))
            = (inr failure, w')) as Hget.
  { intros r failure ->. by rewrite receive_transport_failure. }
  split; [by apply Hget|]. split; [by apply Hget|]. split.
  { intros f q w0. destruct (worker_puts_one api_key f q w0) as (m & Hm & _). eauto. }
  intros f r a Hr Hsend Hfifo Hpolling Hqueue Hnet a1.
  assert (worker api_key f [] w = (inr [failure_message f], w')) as Hworker.
  { destruct f as [c|c|cs]; simpl in *; [| |done]; injection Hr as <-.
    - unfold fetch_current_weather, WeatherAPI.get_weather_data.
      by rewrite (Hget _ JNull Hsend).
    - unfold fetch_forecast, WeatherAPI.get_forecast_data.
      by rewrite (Hget _ JNull Hsend). }
  assert ((dispatch (failure_message f) (ui a)).1 = None) as Hreturns.
  { by destruct f. }
  assert (a1 = App (dispatch (failure_message f) (ui a)).2 [] true w'
                   (enqueued a ++ [failure_message f])
                   (delivered a ++ [failure_message f])) as Ha1.
  { subst a1. unfold run. simpl. rewrite Hqueue, Hnet, Hworker. simpl.
    rewrite Hpolling. simpl.
    destruct (dispatch (failure_message f) (ui a)) as [[e|] g']; [done|]. done. }
  do 3 (split; [by rewrite Ha1|]).
  intros f2 a2.
  assert (∀ m2 w2, worker api_key f2 [] w' = (inr [m2], w2) →
            delivered a2 = delivered a ++ [failure_message f; m2] ∧ queue a2 = [])
    as Hnext.
  { intros m2 w2 Hworker2. subst a2. rewrite Ha1. unfold run. simpl.
    rewrite Hworker2. simpl.
    destruct (dispatch m2 _) as [[e|] g']; simpl; by rewrite <-app_assoc. }
  destruct (worker_puts_one api_key f2 [] w') as (m2 & Hm2 & Hf2).
  destruct (worker api_key f2 [] w') as [r2 w2] eqn:Hworker2. simpl in Hm2. subst r2.
  destruct (Hnext m2 w2 eq_refl) as [Hd2 Hq2].
  split; [by exists m2|]. split; [done|].
  intros city2 payload w'' -> Hsend2.
  assert (m2 = current_weather payload city2) as ->; [|done].
  simpl in Hworker2. unfold fetch_current_weather, WeatherAPI.get_weather_data in Hworker2.
  rewrite Hsend2 in Hworker2. simpl in Hworker2. by injection Hworker2 as <- _.
Qed.

End CoordinatorTheorems.

(** ** The coordinator on scripted replies *)

Section Examples.
Local Existing Instances Mock.pynum Mock.host Mock.unicode Mock.session.


Lemma poll_delivers_in_completion_order_witness :
  let w : world := [Response 200 (Some (Mock.payload "Oslo" 4));
                    Response 200 (Some (Mock.payload "Paris" 12))] in
  let a := run (py "key")
             ([Complete (FetchCurrent (py "Oslo")); Tick; Complete (FetchCurrent (py "Paris"))]
              ++ [Tick]) (app0 w) in
  delivered a = [current_weather (Mock.payload "Oslo" 4) (py "Oslo");
                 current_weather (Mock.payload "Paris" 12) (py "Paris")] ∧
  queue a = [] ∧ polling a = true.
Proof.
  intros w a.
  destruct (poll_delivers_in_completion_order (py "key") w
              [Complete (FetchCurrent (py "Oslo")); Tick; Complete (FetchCurrent (py "Paris"))])
    as (_ & _ & Hdrained).
  destruct Hdrained as (_ & Hd & Hq & Hp & _).
  - repeat constructor; intros g; reflexivity.
  - split; [|split]; [|exact Hq | exact Hp].
    etransitivity; [exact Hd | reflexivity].
Defined.

(** C6, as the claim states it, at a status that is neither 2xx nor an
    error for [raise_for_status]: the client returns the decoded body. *)
Lemma transport_failure_counterexample :
  let body := JObj [(py "cod", JNum 300%Z)] in
  transport_failure_listed (Response 300 (Some body)) ∧
  (WeatherAPI.get_weather_data (py "key") (py "Oslo") [Response 300 (Some body)]).1
    = inr body ∧
  (WeatherAPI.get_forecast_data (py "key") (py "Oslo") 5 [Response 300 (Some body)]).1
    = inr body.
Proof. split; [simpl; lia | split; reflexivity]. Qed.

Lemma transport_failure_is_survived_witness :
  let w : world := [Response 404 None; Response 200 (Some (Mock.payload "Paris" 12))] in
  let a1 := run (py "key") [Complete (FetchCurrent (py "Oslo")); Tick] (app0 w) in
  let a2 := run (py "key") [Complete (FetchCurrent (py "Paris")); Tick] a1 in
  transport_failure (Response 404 None) ∧
  polling a1 = true ∧
  delivered a2 = [current_weather JNull (py "Oslo");
                  current_weather (Mock.payload "Paris" 12) (py "Paris")].
Proof.
  intros w a1 a2.
  assert (transport_failure (Response 404 None)) as Hfail by (simpl; lia).
  split; [exact Hfail|].
  destruct (transport_failure_is_survived (py "key") (py "Oslo") w
              [Response 200 (Some (Mock.payload "Paris" 12))] (Response 404 None) Hfail)
    as (_ & _ & _ & Hpoll).
  destruct (Hpoll (FetchCurrent (py "Oslo")) _ (app0 w) eq_refl eq_refl eq_refl eq_refl
              eq_refl eq_refl) as (_ & _ & Hp & Hnext).
  destruct (Hnext (FetchCurrent (py "Paris"))) as (_ & _ & Hd).
  split; [exact Hp|].
  exact (Hd (py "Paris") (Mock.payload "Paris" 12) [] eq_refl eq_refl).
Defined.



End Examples.

(** * Properties of the rest of the two programs *)

Import CityQueries.

(** ** Dicts and the queries of the city directory *)

Lemma dict_lookup_None {V} (fields : list (pystr * V)) (k : pystr) :
  dict_lookup fields k = None ↔ k ∉ fields.*1.
Proof.
  induction fields as [|[k' v] fields IH]; simpl.
  - split; [intros _; apply not_elem_of_nil | done].
  - rewrite not_elem_of_cons. destruct (decide (k' = k)) as [->|Hne].
    + split; [done | intros [? _]; done].
    + rewrite IH. split; [intros ?; split; [congruence | done] | tauto].
Qed.

Lemma dict_lookup_Some_elem_of {V} (fields : list (pystr * V)) (k : pystr) (v : V) :
  dict_lookup fields k = Some v → (k, v) ∈ fields.
Proof.
  induction fields as [|[k' v'] fields IH]; simpl; [done|].
  destruct (decide (k' = k)) as [->|Hne].
  - intros [= ->]. left.
  - intros Hl. right. by apply IH.
Qed.

Lemma dict_lookup_NoDup {V} (fields : list (pystr * V)) (k : pystr) (v : V) :
  NoDup fields.*1 → (k, v) ∈ fields → dict_lookup fields k = Some v.
Proof.
  induction fields as [|[k' v'] fields IH]; simpl.
  - by intros _ ?%elem_of_nil.
  - intros [Hk' Hnd]%NoDup_cons [[= -> ->]|Hin]%elem_of_cons.
    + by rewrite decide_True.
    + destruct (decide (k' = k)) as [->|Hne]; [|by apply IH].
      destruct Hk'. apply list_elem_of_fmap. by exists (k, v).
Qed.

Lemma all_cities_entries (db : catalog) :
  all_cities db = flat_map (λ e, e.2) (entries db).
Proof.
  unfold all_cities, countries_of, entries.
  induction db as [|continent db IH]; [done|]. simpl.
  rewrite !flat_map_app, IH. f_equal.
  induction continent.2 as [|country l IHl]; [done|]. simpl. by rewrite IHl.
Qed.

Lemma all_cities_continents (db : catalog) :
  all_cities db = flat_map (λ continent, flat_map snd continent.2) db.
Proof.
  unfold all_cities, countries_of.
  induction db as [|continent db IH]; [done|]. simpl.
  rewrite !flat_map_app, IH. f_equal.
  induction continent.2 as [|country l IHl]; [done|]. simpl. by rewrite IHl.
Qed.

Lemma elem_of_flat_map' {A B} (f : A → list B) (l : list A) (y : B) :
  y ∈ flat_map f l ↔ ∃ x, x ∈ l ∧ y ∈ f x.
Proof.
  induction l as [|a l IH]; simpl.
  - split; [by intros ?%elem_of_nil | by intros (x & ?%elem_of_nil & _)].
  - rewrite elem_of_app, IH. split.
    + intros [Hy | (x & Hx & Hy)]; [exists a | exists x]; split; try done;
        [left | by right].
    + intros (x & [->|Hx]%elem_of_cons & Hy); [by left | right; eauto].
Qed.

Lemma flat_map_Permutation_ext {A B} (f g : A → list B) (l : list A) :
  (∀ x, x ∈ l → f x ≡ₚ g x) → flat_map f l ≡ₚ flat_map g l.
Proof.
  induction l as [|a l IH]; intros Hfg; simpl; [done|].
  rewrite (Hfg a) by left. rewrite IH; [done|].
  intros x Hx. apply Hfg. by right.
Qed.

Lemma sorted_Permutation (l : list pystr) : sorted l ≡ₚ l.
Proof. apply merge_sort_Permutation. Qed.

Lemma sorted_Sorted (l : list pystr) : Sorted str_le (sorted l).
Proof. apply Sorted_merge_sort, _. Qed.

(** X1: for a name that is no continent of the catalog
    [get_cities_by_continent] returns the empty list; for a continent it
    returns, in sorted order, the cities of all the countries of that
    continent (with their repetitions), each of which [get_all_cities]
    lists too. *)
Theorem get_cities_by_continent_correct (db : catalog) (continent : pystr) :
  (continent ∉ db.*1 → get_cities_by_continent db continent = []) ∧
  (∀ countries, NoDup db.*1 → (continent, countries) ∈ db →
     Sorted str_le (get_cities_by_continent db continent) ∧
     get_cities_by_continent db continent ≡ₚ flat_map snd countries ∧
     ∀ city, city ∈ get_cities_by_continent db continent → city ∈ get_all_cities db).
Proof.
  unfold get_cities_by_continent. split.
  - intros Hnot. by rewrite (proj2 (dict_lookup_None db continent) Hnot).
  - intros countries Hnd Hin. rewrite (dict_lookup_NoDup _ _ _ Hnd Hin).
    split; [apply sorted_Sorted|]. split; [apply sorted_Permutation|].
    intros city. unfold get_all_cities. rewrite !sorted_elem_of, all_cities_continents.
    intros Hcity. apply elem_of_flat_map'. by exists (continent, countries).
Qed.

Lemma get_cities_by_continent_correct_witness :
  get_cities_by_continent cities (py "Atlantis") = [] ∧
  get_cities_by_continent cities (py "Oceania") ≡ₚ
    flat_map snd (from_option id [] (dict_lookup cities (py "Oceania"))).
Proof.
  split.
  - apply (get_cities_by_continent_correct cities (py "Atlantis")).
    apply (bool_decide_unpack _). by vm_compute.
  - apply (proj2 (get_cities_by_continent_correct cities (py "Oceania"))).
    + apply (bool_decide_unpack _). by vm_compute.
    + apply (bool_decide_unpack _). by vm_compute.
Defined.

(** X2: the continents split the catalog: the listings of
    [get_cities_by_continent] for the continents hold together exactly the
    names of [get_all_cities], which is their concatenation sorted, and
    whose length is the sum of their lengths. *)
Theorem continents_partition_catalog (db : catalog) :
  NoDup db.*1 →
  get_all_cities db ≡ₚ flat_map (get_cities_by_continent db) db.*1 ∧
  get_all_cities db = sorted (flat_map (get_cities_by_continent db) db.*1) ∧
  length (get_all_cities db) =
    sum_list (map (λ continent, length (get_cities_by_continent db continent)) db.*1).
Proof.
  intros Hnd.
  assert (flat_map (get_cities_by_continent db) db.*1 ≡ₚ all_cities db) as Hperm.
  { rewrite all_cities_continents.
    assert (∀ l : catalog, flat_map (get_cities_by_continent db) l.*1 =
              flat_map (λ c, get_cities_by_continent db c.1) l) as ->.
    { intros l. induction l as [|c l IH]; [done|].
      rewrite fmap_cons. simpl. f_equal. exact IH. }
    apply flat_map_Permutation_ext. intros [continent countries] Hin. simpl.
    unfold get_cities_by_continent. rewrite (dict_lookup_NoDup _ _ _ Hnd Hin).
    apply sorted_Permutation. }
  split; [|split].
  - unfold get_all_cities. by rewrite sorted_Permutation, Hperm.
  - unfold get_all_cities. apply sorted_unique; [|apply sorted_Sorted].
    by rewrite sorted_Permutation, Hperm.
  - unfold get_all_cities. rewrite (Permutation_length (sorted_Permutation _)).
    rewrite <-(Permutation_length Hperm).
    generalize (db.*1). intros l.
    induction l as [|c l IH]; [done|]. simpl. rewrite length_app. by rewrite IH.
Qed.

Lemma continents_partition_catalog_witness :
  length (get_all_cities cities) =
    sum_list (map (λ continent, length (get_cities_by_continent cities continent))
                  cities.*1).
Proof.
  apply (continents_partition_catalog cities).
  apply (bool_decide_unpack _). by vm_compute.
Defined.

(** X3: [get_cities_by_country] returns the empty list for a country that
    no continent has, and otherwise the sorted cities of the country in
    the first continent that has it. *)
Theorem get_cities_by_country_correct (db : catalog) (country : pystr) :
  (Forall (λ continent, country ∉ continent.2.*1) db →
   get_cities_by_country db country = []) ∧
  (∀ pre continent post cs,
     db = pre ++ continent :: post →
     Forall (λ c, country ∉ c.2.*1) pre →
     dict_lookup continent.2 country = Some cs →
     get_cities_by_country db country = sorted cs ∧
     Sorted str_le (get_cities_by_country db country) ∧
     get_cities_by_country db country ≡ₚ cs).
Proof.
  assert (∀ l : catalog, Forall (λ c, country ∉ c.2.*1) l →
            first_some (λ continent : pystr * list (pystr * list pystr),
                          sorted <$> dict_lookup continent.2 country) l = None) as Hnone.
  { intros l Hl. apply first_some_None. eapply Forall_impl; [done|].
    intros c Hc. simpl. by rewrite (proj2 (dict_lookup_None _ _) Hc). }
  unfold get_cities_by_country. split.
  - intros Hall. by rewrite Hnone.
  - intros pre continent post cs -> Hpre Hcs.
    rewrite first_some_app, (Hnone _ Hpre). simpl. rewrite Hcs. simpl.
    split; [done|]. split; [apply sorted_Sorted | apply sorted_Permutation].
Qed.

Lemma get_cities_by_country_correct_witness :
  get_cities_by_country cities (py "Atlantis") = [] ∧
  get_cities_by_country cities (py "New Zealand") =
    sorted (map py ["Auckland"; "Wellington"; "Christchurch"; "Hamilton"; "Tauranga";
                    "Napier-Hastings"; "Dunedin"; "Palmerston North"; "Nelson";
                    "Rotorua"]%string).
Proof.
  split.
  - apply (get_cities_by_country_correct cities (py "Atlantis")).
    apply (bool_decide_unpack _). by vm_compute.
  - apply (proj2 (get_cities_by_country_correct cities (py "New Zealand"))
             (take 5 cities) (nth 5 cities ([], [])) []).
    + by vm_compute.
    + apply (bool_decide_unpack _). by vm_compute.
    + by vm_compute.
Defined.

Lemma elem_of_entries (db : catalog) (continent country : pystr) (cs : list pystr) :
  (continent, country, cs) ∈ entries db ↔
  ∃ countries, (continent, countries) ∈ db ∧ (country, cs) ∈ countries.
Proof.
  unfold entries. rewrite elem_of_flat_map'. split.
  - intros ([c countries] & Hc & Hin). simpl in Hin.
    apply list_elem_of_fmap in Hin as ([country' cs'] & [= -> -> ->] & Hin).
    eauto.
  - intros (countries & Hc & Hin). exists (continent, countries). split; [done|].
    simpl. apply list_elem_of_fmap. by exists (country, cs).
Qed.

(** The first list that has the city, as [find_city_location] finds it. *)
Lemma find_city_location_found (db : catalog) (city : pystr) :
  city ∈ all_cities db →
  ∃ pre continent country cs post,
    entries db = pre ++ (continent, country, cs) :: post ∧
    city ∈ cs ∧ Forall (λ e, city ∉ e.2) pre ∧
    find_city_location db city = (continent, country).
Proof.
  rewrite all_cities_entries, find_city_location_entries.
  induction (entries db) as [|[[continent country] cs] l IH]; simpl.
  - by intros ?%elem_of_nil.
  - unfold hit at 1. simpl. destruct (decide (city ∈ cs)) as [Hin|Hnotin].
    + intros _. by exists [], continent, country, cs, l.
    + intros [?|Hl]%elem_of_app; [done|].
      destruct (IH Hl) as (pre & continent' & country' & cs' & post & -> & ? & ? & ?).
      exists ((continent, country, cs) :: pre), continent', country', cs', post.
      repeat split; try done. by constructor.
Qed.

Lemma find_city_location_not_found (db : catalog) (city : pystr) :
  city ∉ all_cities db → find_city_location db city = (unknown, unknown).
Proof.
  rewrite all_cities_entries, find_city_location_entries. intros Hnot.
  rewrite first_some_None; [done|]. apply Forall_forall. intros e He.
  unfold hit. destruct (decide _) as [Hin|]; [|done].
  destruct Hnot. apply elem_of_flat_map'. eauto.
Qed.

Lemma entries_countries (continent : pystr) (countries : list (pystr * list pystr)) :
  (map (λ country : pystr * list pystr, (continent, country.1, country.2))
       countries).*1.*2 = countries.*1.
Proof.
  induction countries as [|country l IH]; [done|].
  csimpl. f_equal. exact IH.
Qed.

Lemma get_cities_by_country_elem_of (db : catalog) (continent country : pystr)
    (cs : list pystr) (city : pystr) :
  NoDup (entries db).*1.*2 →
  (continent, country, cs) ∈ entries db → city ∈ cs →
  city ∈ get_cities_by_country db country.
Proof.
  unfold get_cities_by_country, entries.
  induction db as [|[continent' countries] db IH]; simpl.
  - by intros _ ?%elem_of_nil.
  - rewrite !fmap_app, NoDup_app, entries_countries.
    intros (Hnd1 & Hdisj & Hnd2) Hin Hcity.
    destruct (dict_lookup countries country) as [cs'|] eqn:Hlookup; simpl.
    + apply dict_lookup_Some_elem_of in Hlookup as Hcs'.
      apply elem_of_app in Hin as [Hin|Hin].
      * apply list_elem_of_fmap in Hin as ([country'' cs''] & [= <- <- <-] & Hin).
        rewrite (dict_lookup_NoDup _ _ _ Hnd1 Hin) in Hlookup.
        injection Hlookup as <-. by apply sorted_elem_of.
      * destruct (Hdisj country).
        -- apply list_elem_of_fmap. by exists (country, cs').
        -- apply list_elem_of_fmap. exists (continent, country).
           split; [done|]. apply list_elem_of_fmap. by exists (continent, country, cs).
    + apply elem_of_app in Hin as [Hin|Hin].
      * apply list_elem_of_fmap in Hin as ([country'' cs''] & [= <- <- <-] & Hin).
        apply dict_lookup_None in Hlookup. destruct Hlookup.
        apply list_elem_of_fmap. by exists (country, cs).
      * by apply IH.
Qed.

(** X4: a city of the catalog is listed by [get_cities_by_continent] for
    the continent, and by [get_cities_by_country] for the country, where
    [find_city_location] finds it; the continents, and the countries
    across the catalog, are distinct keys. *)
Theorem located_city_is_listed (db : catalog) (city : pystr) :
  NoDup db.*1 → NoDup (entries db).*1.*2 →
  city ∈ all_cities db →
  city ∈ get_cities_by_continent db (find_city_location db city).1 ∧
  city ∈ get_cities_by_country db (find_city_location db city).2.
Proof.
  intros Hcontinents Hcountries Hcity.
  destruct (find_city_location_found db city Hcity)
    as (pre & continent & country & cs & post & Hentries & Hin & _ & ->). simpl.
  assert ((continent, country, cs) ∈ entries db) as He.
  { rewrite Hentries. apply elem_of_app. right. left. }
  split.
  - apply elem_of_entries in He as (countries & Hc & Hco).
    unfold get_cities_by_continent. rewrite (dict_lookup_NoDup _ _ _ Hcontinents Hc).
    apply sorted_elem_of, elem_of_flat_map'. by exists (country, cs).
  - by eapply get_cities_by_country_elem_of.
Qed.

Lemma located_city_is_listed_witness :
  py "Hamilton" ∈ get_cities_by_country cities (py "Canada").
Proof.
  apply (located_city_is_listed cities (py "Hamilton")).
  - apply (bool_decide_unpack _). by vm_compute.
  - apply (bool_decide_unpack _). by vm_compute.
  - apply (bool_decide_unpack _). by vm_compute.
Defined.

(** The other direction fails for a name that two countries have. *)
Example listed_city_located_elsewhere :
  py "London" ∈ get_cities_by_country cities (py "United Kingdom") ∧
  find_city_location cities (py "London") = (py "North America", py "Canada").
Proof. split; [apply (bool_decide_unpack _)|]; by vm_compute. Qed.

(** X5: with a negative limit [get_popular_cities] drops that many names
    from the end of the curated list of 38, and returns nothing once the
    limit reaches -38. *)
Theorem get_popular_cities_negative_limit (limit : Z) :
  (limit < 0)%Z →
  get_popular_cities limit = take (38 - Z.to_nat (- limit)) popular ∧
  get_popular_cities limit `prefix_of` popular ∧
  length (get_popular_cities limit) = (38 - Z.to_nat (- limit))%nat ∧
  ((limit ≤ -38)%Z → get_popular_cities limit = []).
Proof.
  intros Hlimit. unfold get_popular_cities, slice_to.
  destruct (Z.ltb_spec limit 0) as [_|]; [|lia].
  change (length popular) with 38%nat.
  replace (Z.to_nat (Z.of_nat 38 + limit)) with (38 - Z.to_nat (- limit))%nat by lia.
  split; [done|]. split; [apply prefix_take|].
  split; [rewrite length_take; change (length popular) with 38%nat; lia|].
  intros Hle. by replace (38 - Z.to_nat (- limit))%nat with 0%nat by lia.
Qed.

Lemma get_popular_cities_negative_limit_witness :
  length (get_popular_cities (-3)) = 35%nat.
Proof.
  by rewrite (proj1 (proj2 (proj2 (get_popular_cities_negative_limit (-3) ltac:(lia))))).
Defined.

(** ** [str.strip] *)

Lemma str_lstrip_spec (s : pystr) :
  ∃ pre, s = pre ++ str_lstrip s ∧ blank pre ∧
         ∀ c, head (str_lstrip s) = Some c → isspace c = false.
Proof.
  induction s as [|c s IH]; simpl.
  - exists []. repeat split; [constructor | done].
  - destruct (isspace c) eqn:Hc.
    + destruct IH as (pre & Hs & Hpre & Hhead). exists (c :: pre).
      repeat split; [by rewrite Hs at 1 | by constructor | done].
    + exists []. repeat split; [constructor|]. by intros ? [= <-].
Qed.

Lemma str_lstrip_id (s : pystr) :
  (∀ c, head s = Some c → isspace c = false) → str_lstrip s = s.
Proof. destruct s as [|c s]; [done|]. simpl. intros Hc. by rewrite (Hc c). Qed.

Lemma str_lstrip_blank (s : pystr) : str_lstrip s = [] ↔ blank s.
Proof.
  unfold blank. induction s as [|c s IH]; simpl.
  - split; [constructor | done].
  - rewrite Forall_cons. destruct (isspace c); [|split; [done | by intros [? _]]].
    rewrite IH. tauto.
Qed.

Lemma str_rstrip_spec (s : pystr) :
  ∃ post, s = str_rstrip s ++ post ∧ blank post ∧
          ∀ c, last (str_rstrip s) = Some c → isspace c = false.
Proof.
  unfold str_rstrip.
  destruct (str_lstrip_spec (reverse s)) as (pre & Hs & Hpre & Hhead).
  exists (reverse pre). repeat split.
  - rewrite <-reverse_app, <-Hs. by rewrite reverse_involutive.
  - unfold blank. by apply Forall_reverse.
  - intros c. rewrite last_reverse. apply Hhead.
Qed.

Lemma str_rstrip_id (s : pystr) :
  (∀ c, last s = Some c → isspace c = false) → str_rstrip s = s.
Proof.
  intros Hlast. unfold str_rstrip. rewrite str_lstrip_id; [apply reverse_involutive|].
  intros c. rewrite head_reverse. apply Hlast.
Qed.

(** [s.strip()] is the piece of [s] between a blank prefix and a blank
    suffix that neither starts nor ends with a blank. *)
Lemma str_strip_spec (s : pystr) :
  ∃ pre post, s = pre ++ str_strip s ++ post ∧ blank pre ∧ blank post ∧
    (∀ c, head (str_strip s) = Some c → isspace c = false) ∧
    (∀ c, last (str_strip s) = Some c → isspace c = false).
Proof.
  unfold str_strip.
  destruct (str_lstrip_spec s) as (pre & Hs & Hpre & Hhead).
  destruct (str_rstrip_spec (str_lstrip s)) as (post & Hm & Hpost & Hlast).
  exists pre, post. repeat split; try done.
  - by rewrite <-Hm.
  - intros c Hc. apply Hhead. rewrite Hm.
    destruct (str_rstrip (str_lstrip s)); [done|]. done.
Qed.

Lemma str_strip_id (s : pystr) :
  (∀ c, head s = Some c → isspace c = false) →
  (∀ c, last s = Some c → isspace c = false) →
  str_strip s = s.
Proof.
  intros Hhead Hlast. unfold str_strip. rewrite str_lstrip_id by done.
  by apply str_rstrip_id.
Qed.

Lemma str_strip_idemp (s : pystr) : str_strip (str_strip s) = str_strip s.
Proof.
  destruct (str_strip_spec s) as (_ & _ & _ & _ & _ & Hhead & Hlast).
  by apply str_strip_id.
Qed.

Lemma blank_app (s t : pystr) : blank (s ++ t) ↔ blank s ∧ blank t.
Proof. apply Forall_app. Qed.

Lemma str_strip_blank (s : pystr) : str_strip s = [] ↔ blank s.
Proof.
  destruct (str_strip_spec s) as (pre & post & Hs & Hpre & Hpost & Hhead & _).
  split.
  - intros Hnil. rewrite Hs, Hnil. simpl. by apply blank_app.
  - intros Hblank. destruct (str_strip s) as [|c m] eqn:Hm; [done|].
    rewrite Hs in Hblank. apply blank_app in Hblank as [_ Hblank].
    apply blank_app in Hblank as [Hblank _]. apply Forall_cons in Hblank as [Hc _].
    by rewrite (Hhead c) in Hc.
Qed.

(** ** The selection dialog *)

Section DialogProperties.
Import CitySelectionDialog.
Context `{Unicode}.

Lemma imap_snd {A B} (h : nat → B) (l : list A) :
  (imap (λ i a, (h i, a)) l).*2 = l.
Proof.
  revert h. induction l as [|a l IH]; intros h; [done|].
  csimpl. f_equal. apply (IH (h ∘ S)).
Qed.

Lemma imap_fst {A B} (h : nat → B) (l : list A) :
  (imap (λ i a, (h i, a)) l).*1 = h <$> seq 0 (length l).
Proof.
  revert h. induction l as [|a l IH]; intros h; [done|].
  csimpl. f_equal. etrans; [apply (IH (h ∘ S))|].
  by rewrite <-fmap_S_seq, <-list_fmap_compose.
Qed.

(** The tree shows the cities it is given, in order, numbered from 1. *)
Lemma populate_tree_shows (l : list pystr) (title : pystr) (d : dialog) :
  (tree (populate_tree l title d)).*2 = l ∧
  (tree (populate_tree l title d)).*1 =
    (λ i, int_str (Z.of_nat i + 1)) <$> seq 0 (length l).
Proof. split; [apply imap_snd | apply imap_fst]. Qed.

Lemma search_cities_listed (db : catalog) (q city : pystr) :
  city ∈ search_cities db q → city ∈ all_cities db.
Proof.
  unfold search_cities. rewrite sorted_elem_of, flat_map_filter.
  intros Hin. by apply list_elem_of_filter in Hin as [_ Hin].
Qed.

Lemma get_cities_by_continent_listed (db : catalog) (continent city : pystr) :
  city ∈ get_cities_by_continent db continent → city ∈ all_cities db.
Proof.
  unfold get_cities_by_continent.
  destruct (dict_lookup db continent) as [countries|] eqn:Hlookup;
    [|by intros ?%elem_of_nil].
  rewrite sorted_elem_of, all_cities_continents. intros Hin.
  apply elem_of_flat_map'. exists (continent, countries).
  split; [by apply dict_lookup_Some_elem_of | done].
Qed.

Lemma populate_tree_ok (db : catalog) (l : list pystr) (title : pystr) (d : dialog) :
  Forall (listed db) l → dialog_ok db d → dialog_ok db (populate_tree l title d).
Proof.
  intros Hl (_ & Hsel & Hopen). split; [|done].
  by rewrite (proj1 (populate_tree_shows l title d)).
Qed.

Lemma show_popular_cities_ok (db : catalog) (d : dialog) :
  dialog_ok db d → dialog_ok db (show_popular_cities db d).
Proof.
  intros Hd. unfold show_popular_cities. apply populate_tree_ok; [|done].
  apply Forall_forall. intros city Hcity. by left.
Qed.

Lemma handle_ok (db : catalog) (e : dialog_event) (d : dialog) :
  dialog_ok db d → dialog_ok db (handle db e d).
Proof.
  intros Hd. destruct e as [text| |choice| |selection| |]; simpl.
  - assert (dialog_ok db (Dialog text (tree d) (selected_city d) (destroyed d)))
      as Hd' by done.
    unfold on_search. cbn [search_var].
    destruct (Nat.leb 2 _).
    + apply populate_tree_ok; [|done]. apply Forall_forall. intros city Hcity.
      right. by eapply search_cities_listed.
    + destruct (Nat.eqb _ 0); [by apply show_popular_cities_ok | done].
  - by apply show_popular_cities_ok.
  - destruct (choice ≫= _) as [[label continent]|]; [|done].
    apply populate_tree_ok; [|done]. apply Forall_forall. intros city Hcity.
    right. by eapply get_cities_by_continent_listed.
  - apply populate_tree_ok; [|done]. apply Forall_forall. intros city Hcity.
    right. unfold get_all_cities in Hcity. by rewrite sorted_elem_of in Hcity.
  - unfold on_city_select. destruct selection as [|i _]; [done|].
    destruct (tree d !! i) as [[text city]|] eqn:Hi; [|done].
    destruct Hd as (Htree & _ & _). split; [done|]. split; [|done].
    intros ? [= <-]. rewrite Forall_forall in Htree. apply Htree.
    apply list_elem_of_fmap. exists (text, city). split; [done|].
    by eapply list_elem_of_lookup_2.
  - destruct Hd as (Htree & _ & _). by split.
  - destruct Hd as (Htree & Hsel & _). by split.
Qed.

Lemma wait_window_ok (db : catalog) (events : list dialog_event) (d d' : dialog) :
  dialog_ok db d → wait_window db events d = Some d' →
  dialog_ok db d' ∧ destroyed d' = true.
Proof.
  revert d. induction events as [|e events IH]; intros d Hd; simpl.
  - destruct (destroyed d) eqn:Hdestroyed; [|done]. by intros [= <-].
  - destruct (destroyed d) eqn:Hdestroyed; [by intros [= <-]|].
    apply IH. by apply handle_ok.
Qed.

Lemma wait_window_open (db : catalog) (events : list dialog_event) (e : dialog_event)
    (d : dialog) :
  dialog_ok db d → wait_window db events d = None →
  ∃ d', dialog_ok db d' ∧ destroyed d' = false ∧
        wait_window db (events ++ [e]) d = wait_window db [] (handle db e d').
Proof.
  revert d. induction events as [|e' events IH]; intros d Hd; simpl.
  - destruct (destroyed d) eqn:Hdestroyed; [done|]. intros _. by exists d.
  - destruct (destroyed d) eqn:Hdestroyed; [done|]. apply IH. by apply handle_ok.
Qed.

Lemma dialog0_ok (db : catalog) :
  dialog_ok db (create_widgets db (Dialog [] [] None false)).
Proof. apply show_popular_cities_ok. split; [constructor | done]. Qed.

Lemma listed_names :
  Forall (λ city, city ≠ [] ∧ str_strip city = city)
         (get_popular_cities 50 ++ all_cities cities).
Proof. apply (bool_decide_unpack _). by vm_compute. Qed.

Lemma show_returns_listed (db : catalog) (events : list dialog_event) (city : pystr) :
  show db events = Some (Some city) → listed db city.
Proof.
  unfold show.
  destruct (wait_window _ _ _) as [d'|] eqn:Hwait; [|done]. simpl. intros [= Hsel].
  destruct (wait_window_ok _ _ _ _ (dialog0_ok db) Hwait) as ((_ & Hd' & _) & _).
  by apply Hd'.
Qed.

Lemma show_returns_name (events : list dialog_event) (city : pystr) :
  show cities events = Some (Some city) → city ≠ [] ∧ str_strip city = city.
Proof.
  intros Hin%show_returns_listed. pose proof listed_names as Hnames.
  rewrite Forall_forall in Hnames. apply Hnames, elem_of_app. exact Hin.
Qed.

(** X6: whatever the user does in the selection dialog, a city that
    [show] returns is a name of the curated list or of the catalog; with
    the catalog of the program it is not empty and has no blank at either
    end.  A dialog that is still open returns [None] once it is cancelled
    or closed. *)
Theorem dialog_returns_a_listed_city (db : catalog) (events : list dialog_event)
    (city : pystr) :
  (show db events = Some (Some city) →
   city ∈ get_popular_cities 50 ∨ city ∈ get_all_cities db) ∧
  (show cities events = Some (Some city) → city ≠ [] ∧ str_strip city = city) ∧
  (show db events = None →
   show db (events ++ [Cancel]) = Some None ∧
   show db (events ++ [Close]) = Some None).
Proof.
  split; [|split].
  - intros [?|?]%show_returns_listed; [by left | right].
    unfold get_all_cities. by rewrite sorted_elem_of.
  - apply show_returns_name.
  - unfold show. destruct (wait_window db events _) as [d'|] eqn:Hwait; [done|].
    intros _. split.
    + destruct (wait_window_open _ _ Cancel _ (dialog0_ok db) Hwait)
        as (d' & _ & _ & ->). done.
    + destruct (wait_window_open _ _ Close _ (dialog0_ok db) Hwait)
        as (d' & (_ & _ & Hnone) & Hopen & ->). simpl. by rewrite (Hnone Hopen).
Qed.

End DialogProperties.

Lemma dialog_returns_a_listed_city_witness :
  @CitySelectionDialog.show Mock.unicode cities
    [CitySelectionDialog.KeyRelease (py " tok "); CitySelectionDialog.Select [0%nat]]
    = Some (Some (py "Tokyo")) ∧
  str_strip (py "Tokyo") = py "Tokyo".
Proof.
  assert (@CitySelectionDialog.show Mock.unicode cities
    [CitySelectionDialog.KeyRelease (py " tok "); CitySelectionDialog.Select [0%nat]]
    = Some (Some (py "Tokyo"))) as Hshow by by vm_compute.
  split; [done|].
  apply (proj1 (proj2 (@dialog_returns_a_listed_city Mock.unicode cities _ _)) Hshow).
Defined.

(** ** The cities browser *)

Section BrowserProperties.
Import WeatherDashboardWindow.
Context `{Unicode}.

Lemma populate_browser_tree_cities (db : catalog) (l : list pystr) (b : browser) :
  (browser_tree (populate_browser_tree db l b)).*1.*1 = l.
Proof.
  simpl. induction l as [|city l IH]; [done|].
  csimpl. destruct (find_city_location db city). simpl. f_equal. exact IH.
Qed.

Lemma populate_browser_tree_line (db : catalog) (l : list pystr) (b : browser)
    (line : pystr * pystr * pystr) :
  line ∈ browser_tree (populate_browser_tree db l b) ↔
  line.1.1 ∈ l ∧ (line.1.2, line.2) = find_city_location db line.1.1.
Proof.
  simpl. rewrite list_elem_of_fmap. split.
  - intros (city & -> & Hcity). by destruct (find_city_location db city) eqn:Hloc.
  - destruct line as [[city continent] country]. simpl. intros [Hcity Hloc].
    exists city. split; [|done]. by rewrite <-Hloc.
Qed.

Lemma find_city_location_line (db : catalog) (city : pystr) :
  let line := (city, (find_city_location db city).1, (find_city_location db city).2) in
  (city ∈ all_cities db → located db line) ∧
  (city ∉ all_cities db → unlisted db line).
Proof.
  split.
  - intros Hcity. destruct (find_city_location_found db city Hcity)
      as (pre & continent & country & cs & post & Hentries & Hin & _ & ->).
    exists cs. split; [|done]. simpl. rewrite Hentries.
    apply elem_of_app. right. left.
  - intros Hcity. by rewrite (find_city_location_not_found db city Hcity).
Qed.

Lemma populate_browser_tree_located (db : catalog) (l : list pystr) (b : browser) :
  Forall (λ city, city ∈ all_cities db) l →
  Forall (located db) (browser_tree (populate_browser_tree db l b)).
Proof.
  rewrite !Forall_forall. intros Hl [[city continent] country].
  rewrite populate_browser_tree_line. simpl. intros [Hcity Hloc].
  pose proof (proj1 (find_city_location_line db city) (Hl _ Hcity)) as Hline.
  by rewrite <-Hloc in Hline.
Qed.

(** X7: the lines of the cities browser are those of the cities it is
    given, in their order, and each shows its city with the continent and
    the country of a list of the catalog that has the city, or with
    Unknown twice when no list has it.  Under a filter other than the
    popular cities, and after a search of two characters or more (whose
    lines are the matches of [search_cities]), every line has a
    location. *)
Theorem browser_lines_located (db : catalog) (b : browser) :
  (∀ l, (browser_tree (populate_browser_tree db l b)).*1.*1 = l ∧
        Forall (λ line, located db line ∨ unlisted db line)
               (browser_tree (populate_browser_tree db l b))) ∧
  (filter_var b ≠ py "Popular Cities" →
   Forall (located db) (browser_tree (refresh_cities_browser db b))) ∧
  ((2 ≤ length (str_strip (browser_search_var b)))%nat →
   (browser_tree (on_browser_search db b)).*1.*1 =
     search_cities db (str_strip (browser_search_var b)) ∧
   Forall (located db) (browser_tree (on_browser_search db b))).
Proof.
  split; [|split].
  - intros l. split; [apply populate_browser_tree_cities|].
    apply Forall_forall. intros [[city continent] country].
    rewrite populate_browser_tree_line. simpl. intros [_ Hloc].
    destruct (decide (city ∈ all_cities db)) as [Hcity|Hcity].
    + left. pose proof (proj1 (find_city_location_line db city) Hcity) as Hline.
      by rewrite <-Hloc in Hline.
    + right. pose proof (proj2 (find_city_location_line db city) Hcity) as Hline.
      by rewrite <-Hloc in Hline.
  - intros Hfilter. unfold refresh_cities_browser.
    apply populate_browser_tree_located, Forall_forall. intros city.
    destruct (decide (filter_var b = py "All Cities")).
    { unfold get_all_cities. by rewrite sorted_elem_of. }
    destruct (decide (filter_var b = py "Popular Cities")); [done|].
    destruct (decide (filter_var b ∈ db.*1)); [|by intros ?%elem_of_nil].
    apply get_cities_by_continent_listed.
  - intros Hquery. unfold on_browser_search.
    destruct (Nat.leb_spec 2 (length (str_strip (browser_search_var b)))); [|lia].
    split; [apply populate_browser_tree_cities|].
    apply populate_browser_tree_located, Forall_forall. intros city.
    apply search_cities_listed.
Qed.

End BrowserProperties.

Lemma browser_lines_located_witness :
  Forall (located cities)
    (WeatherDashboardWindow.browser_tree
       (@WeatherDashboardWindow.on_browser_search Mock.unicode cities
          (WeatherDashboardWindow.Browser (py "lond") (py "Europe") []))) ∧
  Forall (located cities)
    (WeatherDashboardWindow.browser_tree
       (WeatherDashboardWindow.refresh_cities_browser cities
          (WeatherDashboardWindow.Browser [] (py "Europe") []))).
Proof.
  split.
  - apply (proj2 (proj2 (@browser_lines_located Mock.unicode cities
             (WeatherDashboardWindow.Browser (py "lond") (py "Europe") [])))).
    vm_compute. lia.
  - apply (proj1 (proj2 (@browser_lines_located Mock.unicode cities
             (WeatherDashboardWindow.Browser [] (py "Europe") [])))).
    vm_compute. intros [=].
Defined.

(** The popular cities that the catalog does not have are shown without a
    location, and under the filter of a continent a city is shown where it
    is found first. *)
Example browser_popular_unknown :
  (py "Hong Kong", py "Unknown", py "Unknown") ∈
    WeatherDashboardWindow.browser_tree
      (WeatherDashboardWindow.refresh_cities_browser cities
         (WeatherDashboardWindow.Browser [] (py "Popular Cities") [])).
Proof. apply (bool_decide_unpack _). by vm_compute. Qed.

Example browser_europe_london :
  (py "London", py "North America", py "Canada") ∈
    WeatherDashboardWindow.browser_tree
      (WeatherDashboardWindow.refresh_cities_browser cities
         (WeatherDashboardWindow.Browser [] (py "Europe") [])).
Proof. apply (bool_decide_unpack _). by vm_compute. Qed.

Lemma first_some_Some {A B} (f : A → option B) (l : list A) (y : B) :
  first_some f l = Some y → ∃ x, x ∈ l ∧ f x = Some y.
Proof.
  induction l as [|a l IH]; simpl; [done|].
  destruct (f a) as [b|] eqn:Ha.
  - intros [= <-]. exists a. split; [left | done].
  - intros (x & Hx & Hfx)%IH. exists x. split; [by right | done].
Qed.

Lemma first_some_is_Some {A B} (f : A → option B) (l : list A) (x : A) :
  x ∈ l → is_Some (f x) → is_Some (first_some f l).
Proof.
  induction l as [|a l IH]; simpl; [by intros ?%elem_of_nil|].
  intros [->|Hx]%elem_of_cons Hfx.
  - destruct Hfx as [y ->]. eauto.
  - destruct (f a); [eauto | by apply IH].
Qed.

Lemma dict_lookup_app_r {V} (pre post : list (pystr * V)) (k : pystr) :
  k ∉ pre.*1 → dict_lookup (pre ++ post) k = dict_lookup post k.
Proof.
  induction pre as [|[k' v] pre IH]; [done|]. csimpl.
  intros [Hne Hpre]%not_elem_of_cons. rewrite decide_False by done. by apply IH.
Qed.

Lemma entries_app (db1 db2 : catalog) : entries (db1 ++ db2) = entries db1 ++ entries db2.
Proof. apply flat_map_app. Qed.

Lemma entries_continent (db : catalog) (e : pystr * pystr * list pystr) :
  e ∈ entries db → e.1.1 ∈ db.*1.
Proof.
  destruct e as [[continent country] cs]. intros (countries & Hc & _)%elem_of_entries.
  apply list_elem_of_fmap. by exists (continent, countries).
Qed.

Section ContinentFilter.
Import WeatherDashboardWindow.

(** X8: under the filter of a continent the browser shows the sorted
    cities of that continent, each beside a continent that is this one or
    one that comes before it in the catalog: a city whose name an earlier
    continent has too is shown there. *)
Theorem continent_filter_lines (db pre post : catalog) (continent : pystr)
    (countries : list (pystr * list pystr)) (b : browser) :
  db = pre ++ (continent, countries) :: post →
  filter_var b = continent → continent ∉ pre.*1 →
  continent ≠ py "All Cities" → continent ≠ py "Popular Cities" →
  (browser_tree (refresh_cities_browser db b)).*1.*1 = sorted (flat_map snd countries) ∧
  Forall (λ line, line.1.2 ∈ pre.*1 ++ [continent])
         (browser_tree (refresh_cities_browser db b)).
Proof.
  intros Hdb Hfilter Hpre Hall Hpopular.
  assert (get_cities_by_continent db continent = sorted (flat_map snd countries))
    as Hcities.
  { unfold get_cities_by_continent. rewrite Hdb, dict_lookup_app_r by done.
    simpl. by rewrite decide_True. }
  assert (continent ∈ db.*1) as Hin.
  { rewrite Hdb, fmap_app. apply elem_of_app. right. left. }
  unfold refresh_cities_browser. rewrite Hfilter.
  rewrite decide_False, decide_False, decide_True, Hcities by done.
  split; [apply populate_browser_tree_cities|].
  apply Forall_forall. intros [[city continent'] country].
  rewrite populate_browser_tree_line, sorted_elem_of. simpl. intros [Hcity Hloc].
  apply elem_of_flat_map' in Hcity as ([country0 cs0] & Hco & Hcity).
  rewrite find_city_location_entries, Hdb in Hloc.
  change ((continent, countries) :: post)
    with ([(continent, countries)] ++ post) in Hloc.
  rewrite !entries_app, app_assoc, first_some_app in Hloc.
  assert (is_Some (first_some (hit city)
                     (entries pre ++ entries [(continent, countries)]))) as [loc Hsome].
  { apply (first_some_is_Some _ _ (continent, country0, cs0)).
    - apply elem_of_app. right. apply elem_of_entries.
      exists countries. split; [left | done].
    - unfold hit. simpl. rewrite decide_True by done. eauto. }
  rewrite Hsome in Hloc. simpl in Hloc.
  apply first_some_Some in Hsome as ([[continent1 country1] cs1] & He & Hhit).
  unfold hit in Hhit. simpl in Hhit. destruct (decide _); [|done].
  injection Hhit as <-. injection Hloc as -> ->.
  rewrite <-(entries_app pre [_]) in He. apply entries_continent in He.
  by rewrite fmap_app in He.
Qed.

End ContinentFilter.

Lemma continent_filter_lines_witness :
  Forall (λ line, line.1.2 ∈ [py "North America"; py "South America"] ++ [py "Europe"])
    (WeatherDashboardWindow.browser_tree
       (WeatherDashboardWindow.refresh_cities_browser cities
          (WeatherDashboardWindow.Browser [] (py "Europe") []))).
Proof.
  assert (cities = take 2 cities ++
            (py "Europe", from_option id [] (dict_lookup cities (py "Europe")))
            :: drop 3 cities) as Hdb by (vm_compute; reflexivity).
  assert (py "Europe" ∉ (take 2 cities).*1) as Hpre
    by (apply (bool_decide_unpack _); vm_compute; reflexivity).
  assert (py "Europe" ≠ py "All Cities") as Hall by (vm_compute; intros [=]).
  assert (py "Europe" ≠ py "Popular Cities") as Hpopular by (vm_compute; intros [=]).
  exact (proj2 (continent_filter_lines cities (take 2 cities) (drop 3 cities)
                  (py "Europe") (from_option id [] (dict_lookup cities (py "Europe")))
                  (WeatherDashboardWindow.Browser [] (py "Europe") [])
                  Hdb eq_refl Hpre Hall Hpopular)).
Defined.

(** ** The entry fields, the fetches and the save *)

Section WindowProperties.
Import WeatherDashboardWindow.
Context `{PyHost} `{Unicode} `{!Storage}.
Local Arguments py : simpl never.

Lemma str_strip_stripped (s : pystr) : stripped s (str_strip s).
Proof.
  destruct (str_strip_spec s) as (pre & post & Hs & Hpre & Hpost & Hhead & Hlast).
  by exists pre, post.
Qed.

Lemma stripped_unique (s city : pystr) :
  stripped s city → city ≠ [] → str_strip s = city.
Proof.
  intros (pre & post & -> & Hpre & Hpost & Hhead & Hlast) Hcity.
  unfold str_strip.
  assert (∀ pre', blank pre' → str_lstrip (pre' ++ city ++ post) = city ++ post) as ->.
  { intros pre' Hpre'. induction Hpre' as [|c pre' Hc _ IH]; simpl.
    - apply str_lstrip_id. intros c. destruct city as [|c' city]; [done|].
      simpl. apply Hhead.
    - by rewrite Hc. }
  2: done.
  unfold str_rstrip. rewrite reverse_app.
  assert (∀ post', blank post' →
            str_lstrip (post' ++ reverse city) = reverse city) as ->.
  { intros post' Hpost'. induction Hpost' as [|c post' Hc _ IH]; simpl.
    - apply str_lstrip_id. intros c. rewrite head_reverse. apply Hlast.
    - by rewrite Hc. }
  - apply reverse_involutive.
  - unfold blank. by apply Forall_reverse.
Qed.

(** X9: with an entry field that holds blanks only, [get_current_weather]
    and [get_weather_forecast] show the warning, start no thread and leave
    the text and the status as they are; otherwise they start one fetch,
    for the text of the field without the blanks at its two ends, and show
    the loading text and the status of that city. *)
Theorem fetch_needs_a_city_name (w : window) :
  let warning := (showwarning, py "Warning", py "Please enter a city name") in
  (blank (city_var w) →
   threads (get_current_weather w) = threads w ∧
   weather_text (widgets (get_current_weather w)) = weather_text (widgets w) ∧
   status_var (widgets (get_current_weather w)) = status_var (widgets w) ∧
   messagebox (widgets (get_current_weather w)) = messagebox (widgets w) ++ [warning]) ∧
  (¬ blank (city_var w) →
   ∃ city, city ≠ [] ∧ stripped (city_var w) city ∧
     threads (get_current_weather w) = threads w ++ [FetchCurrent city] ∧
     weather_text (widgets (get_current_weather w)) = py "Loading weather data..." ++ nl ∧
     status_var (widgets (get_current_weather w)) =
       py "Fetching weather data for " ++ city ++ py "..." ∧
     messagebox (widgets (get_current_weather w)) = messagebox (widgets w)) ∧
  (blank (forecast_city_var w) →
   threads (get_weather_forecast w) = threads w ∧
   forecast_text (widgets (get_weather_forecast w)) = forecast_text (widgets w) ∧
   status_var (widgets (get_weather_forecast w)) = status_var (widgets w) ∧
   messagebox (widgets (get_weather_forecast w)) = messagebox (widgets w) ++ [warning]) ∧
  (¬ blank (forecast_city_var w) →
   ∃ city, city ≠ [] ∧ stripped (forecast_city_var w) city ∧
     threads (get_weather_forecast w) = threads w ++ [FetchForecast city] ∧
     forecast_text (widgets (get_weather_forecast w)) =
       py "Loading forecast data..." ++ nl ∧
     status_var (widgets (get_weather_forecast w)) =
       py "Fetching forecast data for " ++ city ++ py "..." ∧
     messagebox (widgets (get_weather_forecast w)) = messagebox (widgets w)).
Proof.
  intros warning. unfold get_current_weather, get_weather_forecast.
  split; [|split; [|split]].
  - intros Hblank%str_strip_blank. by rewrite Hblank.
  - intros Hblank. rewrite <-str_strip_blank in Hblank.
    rewrite bool_decide_eq_false_2 by done.
    exists (str_strip (city_var w)). split; [done|].
    split; [apply str_strip_stripped | done].
  - intros Hblank%str_strip_blank. by rewrite Hblank.
  - intros Hblank. rewrite <-str_strip_blank in Hblank.
    rewrite bool_decide_eq_false_2 by done.
    exists (str_strip (forecast_city_var w)). split; [done|].
    split; [apply str_strip_stripped | done].
Qed.

(** X10: without weather data (as the window starts, and after
    [clear_current_weather]) [save_current_weather] writes nothing, shows
    no success box and warns; with data and a file dialog that is
    cancelled it does nothing at all. *)
Theorem nothing_to_save (cities_db : catalog) (filename : pystr) (w : window) (d : disk) :
  let warning := (showwarning, py "Warning", py "No weather data to save") in
  let unsaved w :=
    (save_current_weather filename w d).2 = d ∧
    showinfo (save_current_weather filename w d).1 = showinfo w ∧
    messagebox (widgets (save_current_weather filename w d).1) =
      messagebox (widgets w) ++ [warning] in
  (truthy (current_weather_data (widgets w)) = false → unsaved w) ∧
  unsaved (window0 cities_db) ∧
  unsaved (clear_current_weather w) ∧
  (truthy (current_weather_data (widgets w)) = true →
   save_current_weather [] w d = (w, d)).
Proof.
  intros warning unsaved. unfold unsaved, save_current_weather.
  split; [|split; [|split]].
  - intros Hdata. by rewrite Hdata.
  - done.
  - done.
  - intros Hdata. by rewrite Hdata.
Qed.

(** X11: a fetch that fails leaves the data of the fetch before it, while
    the text shows the error.  A save that follows writes, to a name that
    ends with .json, the data of the earlier fetch, and to another name
    the error text; it shows the success box when the write succeeds and
    the error box, with the text of the exception, when it fails. *)
Theorem save_after_failed_fetch (filename city : pystr) (w : window) (d : disk) :
  let data := current_weather_data (widgets w) in
  let failed := with_widgets (λ g, (display_current_weather JNull city g).2) w in
  let message := py "Error: Could not fetch weather data for " ++ city ++ nl in
  let text := if ends_with (py ".json") filename then json_dumps data
              else message ++ nl in
  truthy data = true → filename ≠ [] →
  weather_text (widgets failed) = message ∧
  (save_current_weather filename failed d).2 = (write_file None filename text d).2 ∧
  match (write_file None filename text d).1 with
  | None =>
      showinfo (save_current_weather filename failed d).1 =
        showinfo w ++ [(py "Success", py "Weather data saved to " ++ filename)] ∧
      messagebox (widgets (save_current_weather filename failed d).1) =
        messagebox (widgets w)
  | Some e =>
      showinfo (save_current_weather filename failed d).1 = showinfo w ∧
      messagebox (widgets (save_current_weather filename failed d).1) =
        messagebox (widgets w) ++ [(showerror, py "Error", py "Failed to save file: " ++ e)]
  end.
Proof.
  intros data failed message text Hdata Hfilename.
  split; [done|]. unfold save_current_weather.
  assert (current_weather_data (widgets failed) = data) as -> by done.
  assert (weather_text (widgets failed) = message) as -> by done.
  rewrite Hdata. cbn [negb]. rewrite bool_decide_eq_false_2 by done.
  fold text. by destruct (write_file None filename text d) as [[e|] d'].
Qed.

End WindowProperties.

(** ** The requests of a comparison *)

Section ComparisonRequests.
Import WeatherDashboardWindow.
Context `{PyNum}.
Local Arguments py : simpl never.

Lemma comparison_loop_requests (S : Session) (api_key : pystr) (l : list pystr)
    (results : list (pystr * json)) (log : list request) (net : @world _ S) :
  (@comparison_loop _ (recording S) api_key l results (log, net)).2.1 =
  log ++ map (WeatherAPI.weather_request api_key) l.
Proof.
  revert results log net. induction l as [|city l IH]; intros results log net.
  - simpl. by rewrite app_nil_r.
  - simpl. unfold WeatherAPI.get_weather_data. simpl.
    destruct (session_get (WeatherAPI.weather_request api_key city) net) as [o net'].
    rewrite IH. by rewrite <-app_assoc.
Qed.

Lemma weather_request_inj (api_key : pystr) :
  Inj (=) (=) (WeatherAPI.weather_request api_key).
Proof. intros city city' Heq. by injection Heq. Qed.

(** X12: [compare_weather] with fewer than two cities in the list warns
    and starts no thread; with two or more it empties the table and starts
    one comparison of the cities of the list.  The comparison sends one
    request for each city, in the order of the list, whatever the answers;
    for a list built by [add_comparison_city] no request is sent twice. *)
Theorem comparison_sends_one_request_per_city (S : Session) (api_key : pystr)
    (w : window) (q : list message) (log : list request) (net : @world _ S) :
  let l := cities_listbox (widgets w) in
  let warning :=
    (showwarning, py "Warning", py "Please add at least 2 cities for comparison") in
  ((length l < 2)%nat →
   threads (compare_weather w) = threads w ∧
   comparison_tree (widgets (compare_weather w)) = comparison_tree (widgets w) ∧
   messagebox (widgets (compare_weather w)) = messagebox (widgets w) ++ [warning]) ∧
  ((2 ≤ length l)%nat →
   threads (compare_weather w) = threads w ++ [FetchComparison l] ∧
   comparison_tree (widgets (compare_weather w)) = [] ∧
   messagebox (widgets (compare_weather w)) = messagebox (widgets w)) ∧
  (∀ cities,
     (@fetch_comparison_data _ (recording S) api_key cities q (log, net)).2.1 =
     log ++ map (WeatherAPI.weather_request api_key) cities) ∧
  (comparison_set l → NoDup (map (WeatherAPI.weather_request api_key) l)).
Proof.
  intros l warning. unfold compare_weather. fold l.
  split; [|split; [|split]].
  - intros Hl. by destruct (Nat.ltb_spec (length l) 2); [|lia].
  - intros Hl. by destruct (Nat.ltb_spec (length l) 2); [lia|].
  - intros cities. unfold fetch_comparison_data.
    pose proof (comparison_loop_requests S api_key cities [] log net) as Hlog.
    by destruct (@comparison_loop _ (recording S) api_key cities [] (log, net)).
  - intros Hset%comparison_set_NoDup.
    by apply (@NoDup_fmap_2 _ _ _ (weather_request_inj api_key)).
Qed.

End ComparisonRequests.

(** ** From the dialog to the fetch *)

Section BrowseProperties.
Import WeatherDashboardWindow.
Context `{PyNum} `{Unicode}.
Local Arguments py : simpl never.

Lemma get_current_weather_name (city : pystr) (w : window) :
  city ≠ [] → str_strip city = city → city_var w = city →
  threads (get_current_weather w) = threads w ++ [FetchCurrent city].
Proof.
  intros Hcity Hstrip Hvar. unfold get_current_weather.
  rewrite Hvar, Hstrip. by rewrite bool_decide_eq_false_2.
Qed.

Lemma get_weather_forecast_name (city : pystr) (w : window) :
  city ≠ [] → str_strip city = city → forecast_city_var w = city →
  threads (get_weather_forecast w) = threads w ++ [FetchForecast city].
Proof.
  intros Hcity Hstrip Hvar. unfold get_weather_forecast.
  rewrite Hvar, Hstrip. by rewrite bool_decide_eq_false_2.
Qed.

(** X13: a city that the selection dialog returns goes through the entry
    field unchanged: the fetch that [get_current_weather] (or
    [get_weather_forecast]) then starts is for that very name, and
    [add_comparison_city] adds that very name.  A double click on a line
    of the browser that shows a listed city selects the first tab and
    starts the fetch for the city of the line. *)
Theorem chosen_city_is_fetched (events : list CitySelectionDialog.dialog_event)
    (city : pystr) (w : window) :
  CitySelectionDialog.show cities events = Some (Some city) →
  threads (get_current_weather (browse_cities_current (Some city) w)) =
    threads w ++ [FetchCurrent city] ∧
  threads (get_weather_forecast (browse_cities_forecast (Some city) w)) =
    threads w ++ [FetchForecast city] ∧
  (∀ l, add_comparison_city (Some city) l = if decide (city ∈ l) then l else l ++ [city]) ∧
  (∀ i line, browser_tree (cities_browser w) !! i = Some line →
     line.1.1 ∈ get_popular_cities 50 ∨ line.1.1 ∈ all_cities cities →
     threads (get_weather_from_browser [i] w) = threads w ++ [FetchCurrent line.1.1] ∧
     notebook (get_weather_from_browser [i] w) = 0%nat).
Proof.
  intros Hshow.
  pose proof listed_names as Hnames. rewrite Forall_forall in Hnames.
  destruct (show_returns_name events city Hshow) as [Hcity Hstrip].
  unfold browse_cities_current, browse_cities_forecast, add_comparison_city.
  rewrite !bool_decide_eq_false_2 by done.
  split; [by rewrite (get_current_weather_name city (set_city_var city w))|].
  split; [by rewrite (get_weather_forecast_name city (set_forecast_city_var city w))|].
  split; [done|].
  intros i [[city' continent] country] Hline Hlisted. cbn [fst snd] in *.
  unfold get_weather_from_browser. rewrite Hline.
  destruct (Hnames city') as [Hcity' Hstrip']; [by apply elem_of_app|].
  split.
  - by rewrite (get_current_weather_name city' (set_city_var city' (notebook_select 0 w))).
  - unfold get_current_weather. cbn [city_var set_city_var]. rewrite Hstrip'.
    by rewrite bool_decide_eq_false_2.
Qed.

End BrowseProperties.

Section WindowExamples.
Import WeatherDashboardWindow.
Local Existing Instances Mock.pynum Mock.host Mock.unicode Mock.session MockFiles.storage.

Lemma fetch_needs_a_city_name_witness :
  let w := sample_window (py "  Oslo ") (py " ") gui0 in
  (∃ city, city ≠ [] ∧ stripped (city_var w) city ∧
     threads (get_current_weather w) = threads w ++ [FetchCurrent city] ∧
     weather_text (widgets (get_current_weather w)) = py "Loading weather data..." ++ nl ∧
     status_var (widgets (get_current_weather w)) =
       py "Fetching weather data for " ++ city ++ py "..." ∧
     messagebox (widgets (get_current_weather w)) = messagebox (widgets w)) ∧
  threads (get_weather_forecast w) = [].
Proof.
  intros w. split.
  - apply (proj1 (proj2 (fetch_needs_a_city_name w))).
    intros Hblank. by repeat (apply Forall_cons in Hblank as [? Hblank]).
  - apply (proj1 (proj2 (proj2 (fetch_needs_a_city_name w)))).
    by repeat constructor.
Defined.

Lemma nothing_to_save_witness :
  (save_current_weather (py "oslo.json") (sample_window [] [] gui0) empty_disk).2 = [].
Proof.
  by apply (proj1 (nothing_to_save cities (py "oslo.json") (sample_window [] [] gui0)
                     empty_disk)).
Defined.

Lemma save_after_failed_fetch_witness :
  let g := Gui (py "...") [] (py "Weather data loaded for Oslo")
               (Mock.payload "Oslo" 12) [] [] [] in
  let w := sample_window (py "Paris") [] g in
  let failed := with_widgets (λ g, (display_current_weather JNull (py "Paris") g).2) w in
  (save_current_weather (py "weather.json") failed empty_disk).2 =
    [(py "weather.json", json_dumps (Mock.payload "Oslo" 12))] ∧
  (save_current_weather (py "weather.txt") failed empty_disk).2 =
    [(py "weather.txt", py "Error: Could not fetch weather data for Paris" ++ nl ++ nl)].
Proof.
  intros g w failed. split.
  - etransitivity; [|reflexivity].
    exact (proj1 (proj2 (save_after_failed_fetch (py "weather.json") (py "Paris") w
                           empty_disk eq_refl ltac:(discriminate)))).
  - etransitivity; [|reflexivity].
    exact (proj1 (proj2 (save_after_failed_fetch (py "weather.txt") (py "Paris") w
                           empty_disk eq_refl ltac:(discriminate)))).
Defined.

Lemma comparison_sends_one_request_per_city_witness :
  let l := add_comparison_city (Some (py "Oslo")) (add_comparison_city (Some (py "Paris")) []) in
  let w := sample_window [] []
             (Gui [] [] (py "Ready") (JObj []) [] l []) in
  threads (compare_weather w) = [FetchComparison [py "Paris"; py "Oslo"]] ∧
  NoDup (map (WeatherAPI.weather_request (py "key")) l).
Proof.
  intros l w.
  pose proof (comparison_sends_one_request_per_city Mock.session (py "key") w [] [] [])
    as (_ & Hstart & _ & Hnodup).
  split.
  - apply Hstart. simpl. lia.
  - apply Hnodup. apply cs_add, cs_add, cs_init.
Defined.

Lemma chosen_city_is_fetched_witness :
  threads (get_current_weather
             (browse_cities_current (Some (py "Tokyo")) (sample_window [] [] gui0))) =
    [FetchCurrent (py "Tokyo")].
Proof.
  apply (chosen_city_is_fetched
           [CitySelectionDialog.KeyRelease (py " tok "); CitySelectionDialog.Select [0%nat]]
           (py "Tokyo") (sample_window [] [] gui0)).
  by vm_compute.
Defined.

End WindowExamples.

(** ** The forecast report: days, range and condition *)

Section GroupingProperties.
Context `{PyHost}.
Local Arguments py : simpl never.

Lemma group_by_date_cons (item : json) (rest : list json) (gs : list (date * list json)) :
  group_by_date (item :: rest) gs =
  match date_of item with
  | inr d => group_by_date rest (group_add gs d item)
  | inl e => inl e
  end.
Proof.
  simpl. unfold date_of. destruct (subscript item (py "dt")) as [e|t]; [done|].
  simpl. by destruct (py_fromtimestamp t).
Qed.

Lemma group_add_keys (gs : list (date * list json)) (d : date) (item : json) :
  (group_add gs d item).*1 = if decide (d ∈ gs.*1) then gs.*1 else gs.*1 ++ [d].
Proof.
  induction gs as [|[d' fs] gs IH].
  - by destruct (decide (d ∈ ([] : list (date * list json)).*1))
      as [?%elem_of_nil|].
  - csimpl. destruct (decide (d' = d)) as [->|Hne]; csimpl.
    + by rewrite decide_True by left.
    + rewrite IH. destruct (decide (d ∈ gs.*1)) as [Hin|Hnotin].
      * by rewrite decide_True by by right.
      * rewrite decide_False; [done|]. by intros [->|?]%elem_of_cons.
Qed.

Lemma group_add_NoDup (gs : list (date * list json)) (d : date) (item : json) :
  NoDup gs.*1 → NoDup (group_add gs d item).*1.
Proof.
  intros Hnd. rewrite group_add_keys. destruct (decide _) as [|Hnotin]; [done|].
  apply NoDup_app. split; [done|]. split; [|apply NoDup_singleton].
  by intros x Hx ->%list_elem_of_singleton.
Qed.

Lemma group_of_add (gs : list (date * list json)) (d d' : date) (item : json) :
  group_of (group_add gs d item) d' =
  group_of gs d' ++ (if decide (d = d') then [item] else []).
Proof.
  induction gs as [|[d0 fs] gs IH]; simpl.
  - destruct (decide (d = d')); [done|]. done.
  - destruct (decide (d0 = d)) as [->|Hne]; simpl.
    + destruct (decide (d = d')); [done|]. by rewrite app_nil_r.
    + destruct (decide (d0 = d')) as [->|Hne'].
      * rewrite decide_False by done. by rewrite app_nil_r.
      * apply IH.
Qed.

Lemma group_of_elem_of (gs : list (date * list json)) (d : date) (fs : list json) :
  NoDup gs.*1 → (d, fs) ∈ gs → group_of gs d = fs.
Proof.
  induction gs as [|[d0 fs0] gs IH]; csimpl; [by intros _ ?%elem_of_nil|].
  intros [Hd0 Hnd]%NoDup_cons [[= -> ->]|Hin]%elem_of_cons.
  - by rewrite decide_True.
  - destruct (decide (d0 = d)) as [->|Hne]; [|by apply IH].
    destruct Hd0. apply list_elem_of_fmap. by exists (d, fs).
Qed.

Lemma group_add_concat (gs : list (date * list json)) (d : date) (item : json) :
  concat (group_add gs d item).*2 ≡ₚ concat gs.*2 ++ [item].
Proof.
  induction gs as [|[d0 fs] gs IH]; csimpl; [done|].
  destruct (decide (d0 = d)) as [->|Hne]; csimpl.
  - rewrite <-!app_assoc. apply Permutation_app_head, Permutation_app_comm.
  - by rewrite IH, app_assoc.
Qed.

Lemma on_date_cons (d d' : date) (item : json) (rest : list json) :
  date_of item = inr d →
  filter (λ x, on_date d' x = true) (item :: rest) =
  (if decide (d = d') then [item] else []) ++ filter (λ x, on_date d' x = true) rest.
Proof.
  intros Hd. destruct (decide (d = d')) as [->|Hne].
  - rewrite filter_cons_True; [done|]. unfold on_date. rewrite Hd.
    by apply bool_decide_eq_true_2.
  - rewrite filter_cons_False; [done|]. unfold on_date. rewrite Hd.
    rewrite bool_decide_eq_false_2; done.
Qed.

Lemma elem_of_concat {A} (ls : list (list A)) (x : A) :
  x ∈ concat ls ↔ ∃ l, x ∈ l ∧ l ∈ ls.
Proof.
  induction ls as [|l ls IH]; simpl.
  - split; [by intros ?%elem_of_nil | by intros (l & _ & ?%elem_of_nil)].
  - rewrite elem_of_app, IH. split.
    + intros [Hx|(l' & Hx & Hl')]; [exists l | exists l']; split; try done;
        [left | by right].
    + intros (l' & Hx & [->|Hl']%elem_of_cons); [by left | right; eauto].
Qed.

(** What the loop of [format_forecast] over the samples builds, from the
    groups it starts with. *)
Lemma group_by_date_spec (items : list json) (gs0 : list (date * list json)) :
  NoDup gs0.*1 →
  match group_by_date items gs0 with
  | inr gs =>
      NoDup gs.*1 ∧
      (∀ d, group_of gs d = group_of gs0 d ++ filter (λ x, on_date d x = true) items) ∧
      (∀ d, d ∈ gs.*1 ↔ d ∈ gs0.*1 ∨ ∃ item, item ∈ items ∧ date_of item = inr d) ∧
      concat gs.*2 ≡ₚ concat gs0.*2 ++ items
  | inl e =>
      ∃ pre item post, items = pre ++ item :: post ∧
        Forall (λ x, ∃ d, date_of x = inr d) pre ∧ date_of item = inl e
  end.
Proof.
  revert gs0. induction items as [|item rest IH]; intros gs0 Hnd.
  - simpl. split; [done|]. split; [intros d; by rewrite app_nil_r|].
    split; [|by rewrite app_nil_r].
    intros d. split; [by left|]. by intros [?|(item & ?%elem_of_nil & _)].
  - rewrite group_by_date_cons. destruct (date_of item) as [e|d] eqn:Hd.
    + exists [], item, rest. by repeat split.
    + specialize (IH (group_add gs0 d item) (group_add_NoDup _ _ _ Hnd)).
      destruct (group_by_date rest (group_add gs0 d item)) as [e|gs].
      * destruct IH as (pre & item' & post & -> & Hpre & He).
        exists (item :: pre), item', post. repeat split; [|done].
        constructor; eauto.
      * destruct IH as (Hgs & Hgroup & Hkeys & Hconcat).
        split; [done|]. split; [|split].
        -- intros d'. rewrite Hgroup, group_of_add, (on_date_cons d d') by done.
           by rewrite app_assoc.
        -- intros d'. rewrite Hkeys, group_add_keys. split.
           ++ intros [Hin|(x & Hx & Hdx)].
              ** destruct (decide (d ∈ gs0.*1)); [by left|].
                 apply elem_of_app in Hin as [?|Hs]; [by left|].
                 apply list_elem_of_singleton in Hs as ->.
                 right. exists item. split; [left | done].
              ** right. exists x. split; [by right | done].
           ++ intros [Hin|(x & [->|Hx]%elem_of_cons & Hdx)].
              ** left. destruct (decide _); [done|]. apply elem_of_app. by left.
              ** left. rewrite Hd in Hdx. injection Hdx as ->.
                 destruct (decide _); [done|]. apply elem_of_app. right. left.
              ** right. eauto.
        -- rewrite Hconcat, group_add_concat. by rewrite <-app_assoc.
Qed.

(** X14: the grouping of [format_forecast] files every sample under its
    date: the dates are distinct, no group is empty, the group of a date
    holds the samples of that date in the order of the payload, and the
    groups together are the samples.  The grouping raises only at the
    first sample that has no date, with the exception of that sample. *)
Theorem group_by_date_partitions (items : list json) :
  match group_by_date items [] with
  | inr groups =>
      NoDup groups.*1 ∧
      Forall (λ g, g.2 ≠ [] ∧ g.2 = filter (λ item, on_date g.1 item = true) items)
             groups ∧
      concat groups.*2 ≡ₚ items ∧
      (∀ item, item ∈ items → ∃ d, date_of item = inr d ∧ d ∈ groups.*1)
  | inl e =>
      ∃ pre item post, items = pre ++ item :: post ∧
        Forall (λ x, ∃ d, date_of x = inr d) pre ∧ date_of item = inl e
  end.
Proof.
  pose proof (group_by_date_spec items [] (NoDup_nil_2)) as Hspec.
  destruct (group_by_date items []) as [e|groups]; [done|].
  destruct Hspec as (Hnd & Hgroup & Hkeys & Hconcat).
  split; [done|]. split; [|split; [done|]].
  - apply Forall_forall. intros [d fs] Hin. simpl.
    assert (fs = filter (λ item, on_date d item = true) items) as Hfs.
    { rewrite <-(group_of_elem_of groups d fs Hnd Hin). apply Hgroup. }
    split; [|done].
    assert (d ∈ groups.*1) as Hd by (apply list_elem_of_fmap; by exists (d, fs)).
    apply Hkeys in Hd as [?%elem_of_nil|(item & Hitem & Hdate)]; [done|].
    rewrite Hfs. intros Hnil.
    assert (item ∈ filter (λ item, on_date d item = true) items) as Hfilter.
    { apply list_elem_of_filter. split; [|done]. unfold on_date. rewrite Hdate.
      by apply bool_decide_eq_true_2. }
    rewrite Hnil in Hfilter. by apply elem_of_nil in Hfilter.
  - intros item Hitem.
    assert (∃ d, date_of item = inr d) as [d Hd].
    { destruct (date_of item) as [e|d] eqn:Hd; [|eauto].
      assert (item ∈ concat groups.*2) as Hin by by rewrite Hconcat.
      apply elem_of_concat in Hin as (fs & Hin & Hfs).
      apply list_elem_of_fmap in Hfs as ([d fs'] & -> & Hg). simpl in Hin.
      rewrite <-(group_of_elem_of groups d fs' Hnd Hg), Hgroup in Hin.
      apply list_elem_of_filter in Hin as [Hon _]. unfold on_date in Hon.
      by rewrite Hd in Hon. }
    exists d. split; [done|]. apply Hkeys. right. eauto.
Qed.

End GroupingProperties.

Section ForecastProperties.
Context `{PyHost} `{Unicode}.
Local Arguments py : simpl never.

Lemma group_add_filter (K : date → bool) (gs : list (date * list json)) (d : date)
    (item : json) :
  filter (λ g, K g.1 = true) (group_add gs d item) =
  if K d then group_add (filter (λ g, K g.1 = true) gs) d item
  else filter (λ g, K g.1 = true) gs.
Proof.
  induction gs as [|[d' fs] gs IH]; simpl.
  - destruct (K d) eqn:HK.
    + by rewrite filter_cons_True.
    + rewrite filter_cons_False; [done|]. simpl. by rewrite HK.
  - destruct (decide (d' = d)) as [->|Hne].
    + destruct (K d) eqn:HK.
      * rewrite !filter_cons_True by done. simpl. by rewrite decide_True.
      * rewrite !filter_cons_False; [done| |]; simpl; by rewrite HK.
    + destruct (K d') eqn:HK'.
      * rewrite !filter_cons_True by done. rewrite IH.
        destruct (K d); [|done]. simpl. by rewrite decide_False.
      * rewrite !filter_cons_False; [apply IH| |]; simpl; by rewrite HK'.
Qed.

Lemma group_by_date_filter (K : date → bool) (items : list json)
    (gs0 gs : list (date * list json)) :
  group_by_date items gs0 = inr gs →
  group_by_date
    (filter (λ item, match date_of item with inr d => K d | inl _ => false end = true)
            items)
    (filter (λ g, K g.1 = true) gs0) =
  inr (filter (λ g, K g.1 = true) gs).
Proof.
  revert gs0. induction items as [|item rest IH]; intros gs0.
  - simpl. by intros [= ->].
  - rewrite group_by_date_cons. destruct (date_of item) as [e|d] eqn:Hd; [done|].
    intros Hrest%IH. rewrite group_add_filter in Hrest.
    destruct (K d) eqn:HK.
    + rewrite filter_cons_True by by rewrite Hd.
      by rewrite group_by_date_cons, Hd.
    + rewrite filter_cons_False; [done|]. by rewrite Hd, HK.
Qed.

Lemma filter_none {A} (P : A → Prop) `{∀ x, Decision (P x)} (l : list A) :
  Forall (λ x, ¬ P x) l → filter P l = [].
Proof.
  induction 1 as [|x l Hx _ IH]; [done|]. by rewrite filter_cons_False.
Qed.

Lemma filter_ext_elem_of {A} (P Q : A → Prop) `{∀ x, Decision (P x)}
    `{∀ x, Decision (Q x)} (l : list A) :
  (∀ x, x ∈ l → P x ↔ Q x) → filter P l = filter Q l.
Proof.
  induction l as [|x l IH]; intros HPQ; [done|].
  assert (filter P l = filter Q l) as Hl.
  { apply IH. intros y Hy. apply HPQ. by right. }
  destruct (decide (P x)) as [HP|HP].
  - rewrite !filter_cons_True; [by rewrite Hl | by apply HPQ; [left|] | done].
  - rewrite !filter_cons_False; [done | | done].
    intros HQ. apply HP, HPQ; [left | done].
Qed.

Lemma filter_first_keys {A B} `{EqDecision A} (n : nat) (l : list (A * B)) :
  NoDup l.*1 → filter (λ g, bool_decide (g.1 ∈ take n l.*1) = true) l = take n l.
Proof.
  revert n. induction l as [|[a b] l IH]; intros n; [by destruct n|].
  rewrite fmap_cons. intros [Ha Hnd]%NoDup_cons. destruct n as [|n].
  - rewrite !take_0. apply filter_none, Forall_forall.
    intros g _ Hg%bool_decide_eq_true_1. by apply elem_of_nil in Hg.
  - rewrite !firstn_cons. rewrite filter_cons_True.
    2: { apply bool_decide_eq_true_2. left. }
    f_equal. rewrite <-(IH n Hnd). apply filter_ext_elem_of.
    intros [a' b'] Hin. cbn [fst].
    rewrite !bool_decide_eq_true, elem_of_cons.
    assert (a' ≠ a); [|tauto]. intros ->. destruct Ha.
    apply list_elem_of_fmap. by exists (a, b').
Qed.

(** The samples of the days after the fifth can be left out. *)
Lemma group_by_date_first_days (items : list json) (groups : list (date * list json)) :
  group_by_date items [] = inr groups →
  group_by_date (filter (λ item, of_first_days 5 groups item = true) items) [] =
  inr (take 5 groups).
Proof.
  intros Hgroups.
  pose proof (group_by_date_spec items [] NoDup_nil_2) as Hspec.
  rewrite Hgroups in Hspec. destruct Hspec as (Hnd & _).
  pose proof (group_by_date_filter (λ d, bool_decide (d ∈ take 5 groups.*1))
                items [] groups Hgroups) as Hfilter.
  cbv beta in Hfilter. rewrite (filter_first_keys 5 groups Hnd) in Hfilter.
  exact Hfilter.
Qed.

(** X15: the report of [format_forecast] shows the first five dates of
    the payload only: when every sample has a date, the report is that of
    the payload without the samples of the later dates. *)
Theorem format_forecast_ignores_later_days (data data' : json) (items : list json)
    (groups : list (date * list json)) :
  subscript data' (py "city") = subscript data (py "city") →
  subscript data (py "list") = inr (JArr items) →
  group_by_date items [] = inr groups →
  subscript data' (py "list") =
    inr (JArr (filter (λ item, of_first_days 5 groups item = true) items)) →
  format_forecast data' = format_forecast data.
Proof.
  intros Hcity Hlist Hgroups Hlist'.
  assert (format_forecast_body data' = format_forecast_body data) as Hbody.
  { unfold format_forecast_body, subscript2. rewrite Hcity, Hlist, Hlist'.
    destruct (subscript data (py "city")) as [e|city]; [done|]. simpl.
    destruct (subscript city (py "name")) as [e|name]; [done|]. simpl.
    destruct (subscript city (py "country")) as [e|country]; [done|]. simpl.
    rewrite Hgroups, (group_by_date_first_days items groups Hgroups). simpl.
    by rewrite take_take. }
  unfold format_forecast. by rewrite Hbody.
Qed.

(** X16: for a forecast whose list is empty [format_forecast] returns the
    header with the location and no day, and [display_forecast] shows it
    and reports the forecast as loaded. *)
Theorem format_forecast_no_samples (data city name country : json) (place : pystr)
    (g : gui) :
  subscript data (py "city") = inr city →
  subscript city (py "name") = inr name →
  subscript city (py "country") = inr country →
  subscript data (py "list") = inr (JArr []) →
  let report :=
    nl ++
    py "╔" ++ rule ++ py "╗" ++ nl ++
    py "║                    5-DAY WEATHER FORECAST                    ║" ++ nl ++
    py "╠" ++ rule ++ py "╣" ++ nl ++
    py "║ Location: " ++ py_str name ++ py ", " ++ py_str country ++ nl ++
    py "║ Generated: " ++ strftime now (py "%Y-%m-%d %H:%M:%S") ++ nl ++
    py "║" ++ nl ++
    py "╚" ++ rule ++ py "╝" ++ nl ++
    nl in
  format_forecast data = inr report ∧
  (display_forecast data place g).1 = None ∧
  forecast_text (display_forecast data place g).2 = report ∧
  status_var (display_forecast data place g).2 = py "Forecast data loaded for " ++ place.
Proof.
  intros Hcity Hname Hcountry Hlist report.
  assert (format_forecast data = inr report) as Hformat.
  { unfold format_forecast, format_forecast_body, subscript2.
    rewrite Hcity, Hlist. simpl. rewrite Hname, Hcountry. simpl.
    unfold report. by rewrite app_nil_r. }
  split; [done|].
  assert (truthy data = true) as Htruthy.
  { destruct data as [| | | | |fields]; try done.
    destruct fields; [done|]. done. }
  unfold display_forecast. by rewrite Htruthy, Hformat.
Qed.

End ForecastProperties.

Section SummaryProperties.
Context `{PyHost} `{Unicode}.
Local Arguments py : simpl never.

Lemma best_by_pair (better : num → num → bool) (best : json * num)
    (l : list (json * num)) :
  best_by better best l = (best_pair better best l).1.
Proof. revert best. induction l as [|x l IH]; intros best; [done|]. apply IH. Qed.

Lemma best_pair_elem_of (better : num → num → bool) (best : json * num)
    (l : list (json * num)) :
  best_pair better best l ∈ best :: l.
Proof.
  revert best. induction l as [|x l IH]; intros best; simpl; [left|].
  specialize (IH (if better x.2 best.2 then x else best)).
  apply elem_of_cons in IH as [->|IH]; [|by do 2 right].
  destruct (better x.2 best.2); [right; left | left].
Qed.

Lemma best_pair_below (better : num → num → bool) (best : json * num)
    (l : list (json * num)) :
  Transitive (λ a b, better a b = true) →
  best_pair better best l = best ∨ better (best_pair better best l).2 best.2 = true.
Proof.
  intros Htrans. revert best. induction l as [|x l IH]; intros best; simpl; [by left|].
  destruct (better x.2 best.2) eqn:Hx; [|apply IH].
  right. destruct (IH x) as [->|Hr]; [done|]. by eapply Htrans.
Qed.

Lemma best_pair_best (better : num → num → bool) (best : json * num)
    (l : list (json * num)) :
  StrictOrder (λ a b, better a b = true) →
  Forall (λ p, better p.2 (best_pair better best l).2 = false) (best :: l).
Proof.
  intros [Hirrefl Htrans]. revert best.
  assert (∀ a, better a a = false) as Hirr.
  { intros a. destruct (better a a) eqn:Ha; [|done]. by destruct (Hirrefl a). }
  assert (∀ a b c, better a b = true → better b c = true → better a c = true)
    as Htr by (intros a b c; apply Htrans).
  induction l as [|x l IH]; intros best; simpl.
  { constructor; [apply Hirr | constructor]. }
  specialize (IH (if better x.2 best.2 then x else best)).
  pose proof (best_pair_below better (if better x.2 best.2 then x else best) l Htrans)
    as Hbelow.
  set (r := best_pair better (if better x.2 best.2 then x else best) l) in *.
  apply Forall_cons in IH as [Hbest' Hl].
  destruct (better x.2 best.2) eqn:Hx.
  - constructor; [|by constructor].
    destruct (better best.2 r.2) eqn:Hbr; [|done].
    destruct Hbelow as [Hr|Hr].
    + rewrite Hr in Hbr. pose proof (Htr _ _ _ Hx Hbr) as Hxx.
      by rewrite Hirr in Hxx.
    + pose proof (Htr _ _ _ Hbr (Htr _ _ _ Hr Hx)) as Hbb. by rewrite Hirr in Hbb.
  - constructor; [done|]. constructor; [|done].
    destruct (better x.2 r.2) eqn:Hxr; [|done].
    destruct Hbelow as [Hr|Hr].
    + rewrite Hr in Hxr. by rewrite Hxr in Hx.
    + by rewrite (Htr _ _ _ Hxr Hr) in Hx.
Qed.

Lemma all_numbers_zip (l : list json) (ns : list num) :
  all_numbers l = Some ns →
  Forall (λ p, as_num p.1 = Some p.2) (zip l ns) ∧ (zip l ns).*1 = l ∧ (zip l ns).*2 = ns.
Proof.
  unfold all_numbers. revert ns. induction l as [|x l IH]; intros ns; simpl.
  - intros [= <-]. by repeat split.
  - destruct (as_num x) as [n|] eqn:Hx; [|done]. simpl.
    destruct (mapM as_num l) as [ns'|] eqn:Hl; [|done]. simpl. intros [= <-].
    destruct (IH ns' eq_refl) as (Hzip & Hfst & Hsnd). csimpl.
    split; [by constructor|]. by rewrite Hfst, Hsnd.
Qed.

(** X17: the temperature range of a day: for temperatures that are
    numbers, ordered by a strict order, [min] and [max] return two of the
    temperatures, no temperature is below the first and none is above the
    second. *)
Theorem temperature_range (temps : list json) (ns : list num) :
  StrictOrder num_lt → temps ≠ [] → all_numbers temps = Some ns →
  ∃ lo hi nlo nhi,
    py_min temps = inr lo ∧ py_max temps = inr hi ∧
    lo ∈ temps ∧ hi ∈ temps ∧ as_num lo = Some nlo ∧ as_num hi = Some nhi ∧
    Forall (λ n, ¬ num_lt n nlo ∧ ¬ num_lt nhi n) ns.
Proof.
  intros Horder Hne Hns.
  assert (StrictOrder (λ a b, num_ltb b a = true)) as Hflip.
  { destruct Horder as [Hirrefl Htrans]. split.
    - intros a. apply Hirrefl.
    - intros a b c Hab Hbc. by apply (Htrans c b a). }
  destruct (all_numbers_zip temps ns Hns) as (Hzip & Hfst & Hsnd).
  destruct temps as [|x temps]; [done|].
  unfold py_min, py_max. rewrite Hns.
  destruct ns as [|n ns]; [by apply length_mapM in Hns|].
  change (zip (x :: temps) (n :: ns)) with ((x, n) :: zip temps ns) in Hzip, Hfst, Hsnd.
  rewrite !best_by_pair.
  pose proof (best_pair_elem_of num_ltb (x, n) (zip temps ns)) as Hlo.
  pose proof (best_pair_elem_of (λ a b, num_ltb b a) (x, n) (zip temps ns)) as Hhi.
  pose proof (best_pair_best num_ltb (x, n) (zip temps ns) Horder) as Hmin.
  pose proof (best_pair_best (λ a b, num_ltb b a) (x, n) (zip temps ns) Hflip) as Hmax.
  set (lo := best_pair num_ltb (x, n) (zip temps ns)) in *.
  set (hi := best_pair (λ a b, num_ltb b a) (x, n) (zip temps ns)) in *.
  rewrite Forall_forall in Hzip.
  exists lo.1, hi.1, lo.2, hi.2. split; [done|]. split; [done|].
  split; [rewrite <-Hfst; apply list_elem_of_fmap; eauto|].
  split; [rewrite <-Hfst; apply list_elem_of_fmap; eauto|].
  split; [by apply Hzip|]. split; [by apply Hzip|].
  rewrite <-Hsnd. apply Forall_forall. intros m Hm.
  apply (list_elem_of_fmap snd ((x, n) :: zip temps ns)) in Hm as (p & -> & Hp).
  rewrite Forall_forall in Hmin, Hmax. unfold num_lt.
  split; [rewrite (Hmin p Hp) | rewrite (Hmax p Hp)]; done.
Qed.

Lemma max_by_key_max (key : json → nat) (best : json) (l : list json) :
  Forall (λ x, (key x ≤ key (max_by_key key best l))%nat) (best :: l).
Proof.
  revert best. induction l as [|x l IH]; intros best; simpl.
  { by repeat constructor. }
  specialize (IH (if decide (key best < key x)%nat then x else best)).
  apply Forall_cons in IH as [Hbest' Hl].
  destruct (decide (key best < key x)%nat).
  - constructor; [lia|]. by constructor.
  - constructor; [done|]. constructor; [lia | done].
Qed.

(** X18: the condition of a day: for descriptions that are strings, all
    of which the set of the descriptions holds, the one that
    [format_forecast] shows occurs among them, and none of them occurs
    more often. *)
Theorem most_common_is_most_frequent (conditions : list json) :
  conditions ≠ [] → Forall is_str conditions →
  (∀ x, x ∈ conditions → x ∈ set_order conditions) →
  ∃ c, most_common conditions = inr c ∧ c ∈ conditions ∧
       (0 < count conditions c)%nat ∧
       ∀ x, x ∈ conditions → (count conditions x ≤ count conditions c)%nat.
Proof.
  intros Hne Hstr Hall.
  assert (forallb hashable conditions = true) as Hhashable.
  { clear Hne Hall. induction Hstr as [|v l Hv _ IH]; [done|]. simpl. rewrite IH.
    by destruct v. }
  unfold most_common. rewrite Hhashable.
  pose proof (set_order_nonempty conditions Hne) as Hset.
  pose proof (set_order_elem_of conditions) as Helem.
  destruct (set_order conditions) as [|x rest]; [done|].
  pose proof (max_by_key_max (count conditions) x rest) as Hmax.
  assert (max_by_key (count conditions) x rest ∈ conditions) as Hin.
  { apply (max_by_key_elem (λ c, c ∈ conditions)).
    - apply Helem. left.
    - apply Forall_forall. intros v Hv. apply Helem. by right. }
  eexists. split; [done|]. split; [done|]. split.
  - set (c := max_by_key (count conditions) x rest) in *.
    rewrite Forall_forall in Hstr. pose proof (Hstr c Hin) as Hc.
    unfold count. destruct c as [| | |s| |]; try done.
    assert (JStr s ∈ filter (λ y, atom_eqb (JStr s) y = true) conditions) as Hf.
    { apply list_elem_of_filter. split; [|done]. simpl. by apply bool_decide_eq_true_2. }
    destruct (filter _ conditions); [by apply elem_of_nil in Hf | simpl; lia].
  - rewrite Forall_forall in Hmax. intros y Hy. by apply Hmax, Hall.
Qed.

End SummaryProperties.

Section ForecastExamples.
Local Existing Instances Mock.pynum Mock.host Mock.unicode.

Lemma format_forecast_ignores_later_days_witness :
  format_forecast (Mock.forecast_payload (take 5 six_days)) =
  format_forecast (Mock.forecast_payload six_days).
Proof.
  exact (format_forecast_ignores_later_days
           (Mock.forecast_payload six_days) (Mock.forecast_payload (take 5 six_days))
           six_days (map (λ item, (match date_of item with inr d => d | inl _ => 0%Z end, [item])) six_days)
           eq_refl eq_refl eq_refl eq_refl).
Defined.

Lemma format_forecast_no_samples_witness :
  status_var (display_forecast (Mock.forecast_payload []) (py "Oslo") gui0).2 =
  py "Forecast data loaded for " ++ py "Oslo".
Proof.
  exact (proj2 (proj2 (proj2
           (format_forecast_no_samples (Mock.forecast_payload [])
              (JObj [(py "name", JStr (py "Oslo")); (py "country", JStr (py "NO"))])
              (JStr (py "Oslo")) (JStr (py "NO")) (py "Oslo") gui0
              eq_refl eq_refl eq_refl eq_refl)))).
Defined.

Lemma Z_lt_order : StrictOrder (@num_lt Mock.pynum).
Proof.
  split.
  - intros a Ha. apply Z.ltb_lt in Ha. lia.
  - intros a b c Hab%Z.ltb_lt Hbc%Z.ltb_lt. apply Z.ltb_lt. lia.
Qed.

Lemma temperature_range_witness :
  ∃ lo hi nlo nhi,
    py_min [celsius 12; celsius 9; celsius 15] = inr lo ∧
    py_max [celsius 12; celsius 9; celsius 15] = inr hi ∧
    lo ∈ [celsius 12; celsius 9; celsius 15] ∧
    hi ∈ [celsius 12; celsius 9; celsius 15] ∧
    as_num lo = Some nlo ∧ as_num hi = Some nhi ∧
    Forall (λ n, ¬ num_lt n nlo ∧ ¬ num_lt nhi n) ([12; 9; 15]%Z : list (@num Mock.pynum)).
Proof.
  exact (temperature_range [celsius 12; celsius 9; celsius 15] _
           Z_lt_order ltac:(discriminate) eq_refl).
Defined.

Example temperature_range_values :
  py_min [celsius 12; celsius 9; celsius 15] = inr (celsius 9) ∧
  py_max [celsius 12; celsius 9; celsius 15] = inr (celsius 15).
Proof. split; reflexivity. Qed.

Lemma most_common_is_most_frequent_witness :
  let conditions := [JStr (py "rain"); JStr (py "clear sky"); JStr (py "rain")] in
  most_common conditions = inr (JStr (py "rain")) ∧
  ∃ c, most_common conditions = inr c ∧ c ∈ conditions ∧
       (0 < count conditions c)%nat ∧
       ∀ x, x ∈ conditions → (count conditions x ≤ count conditions c)%nat.
Proof.
  split; [reflexivity|].
  exact (most_common_is_most_frequent
           [JStr (py "rain"); JStr (py "clear sky"); JStr (py "rain")]
           ltac:(discriminate) ltac:(by repeat constructor) (λ x Hx, Hx)).
Defined.

End ForecastExamples.

(** ** The page *)

Section SummaryCard.
Import DashboardPage.
Context `{Plots} `{Unicode} `{!Session} `{!Storage}.
Local Arguments py : simpl never.

Lemma method_get_field (data : json) (k : string) (default : json) :
  is_obj data →
  method_get data (py k) default = inr (from_option id default (field (Some data) k)).
Proof. by destruct data. Qed.

Lemma get2_field (data : json) (a b : string) (default : json) :
  is_obj data → shaped is_obj (field (Some data) a) →
  get2 data a b default =
  inr (from_option id default (field (field (Some data) a) b)).
Proof.
  intros Hdata Ha. unfold get2. rewrite method_get_field by done. cbn [bind].
  destruct (field (Some data) a) as [x|]; [|done].
  by destruct x.
Qed.

Lemma weather0_field (data : json) (k : string) :
  is_obj data → shaped starts_with_obj (field (Some data) "weather") →
  weather0 data k =
  inr (from_option id (JStr (py "Unknown"))
         (field (first_item (field (Some data) "weather")) k)).
Proof.
  intros Hdata Hw. unfold weather0. rewrite method_get_field by done. cbn [bind].
  destruct (field (Some data) "weather") as [w|]; [|done].
  destruct w as [| | | |[|[| | | | |w0] rest]|]; done.
Qed.

(** The dict of [process_current_weather], from its ten values. *)
Lemma summary_items (city country temperature feels_like humidity pressure wind_speed
    weather_condition description : json) :
  let summary :=
    [(py "city", VJson city); (py "country", VJson country);
     (py "temperature", VJson temperature); (py "feels_like", VJson feels_like);
     (py "humidity", VJson humidity); (py "pressure", VJson pressure);
     (py "wind_speed", VJson wind_speed);
     (py "weather_condition", VJson weather_condition);
     (py "description", VJson description); (py "timestamp", VTime now)] in
  item summary "city" = inr (VJson city) ∧
  item summary "country" = inr (VJson country) ∧
  item summary "temperature" = inr (VJson temperature) ∧
  item summary "feels_like" = inr (VJson feels_like) ∧
  item summary "humidity" = inr (VJson humidity) ∧
  item summary "pressure" = inr (VJson pressure) ∧
  item summary "wind_speed" = inr (VJson wind_speed) ∧
  item summary "weather_condition" = inr (VJson weather_condition) ∧
  item summary "description" = inr (VJson description) ∧
  item summary "timestamp" = inr (VTime now).
Proof. repeat split; reflexivity. Qed.

Lemma process_current_weather_keys (data : json) (summary : list (pystr * value)) :
  process_current_weather data = inr summary →
  summary = [] ∨
  ∃ city country temperature feels_like humidity pressure wind_speed
    weather_condition description,
    summary =
    [(py "city", VJson city); (py "country", VJson country);
     (py "temperature", VJson temperature); (py "feels_like", VJson feels_like);
     (py "humidity", VJson humidity); (py "pressure", VJson pressure);
     (py "wind_speed", VJson wind_speed);
     (py "weather_condition", VJson weather_condition);
     (py "description", VJson description); (py "timestamp", VTime now)].
Proof.
  unfold process_current_weather. destruct (negb (truthy data)).
  { intros [= <-]. by left. }
  destruct (method_get data (py "name") _) as [|city]; [done|]. simpl.
  destruct (get2 data "sys" "country" _) as [|country]; [done|]. simpl.
  destruct (get2 data "main" "temp" _) as [|temperature]; [done|]. simpl.
  destruct (get2 data "main" "feels_like" _) as [|feels_like]; [done|]. simpl.
  destruct (get2 data "main" "humidity" _) as [|humidity]; [done|]. simpl.
  destruct (get2 data "main" "pressure" _) as [|pressure]; [done|]. simpl.
  destruct (get2 data "wind" "speed" _) as [|wind_speed]; [done|]. simpl.
  destruct (weather0 data "main") as [|weather_condition]; [done|]. simpl.
  destruct (weather0 data "description") as [|description]; [done|]. simpl.
  intros [= <-]. right. by eexists _, _, _, _, _, _, _, _, _.
Qed.

Lemma create_current_weather_html_card (city country temperature feels_like humidity
    pressure wind_speed weather_condition description : json) :
  let summary :=
    [(py "city", VJson city); (py "country", VJson country);
     (py "temperature", VJson temperature); (py "feels_like", VJson feels_like);
     (py "humidity", VJson humidity); (py "pressure", VJson pressure);
     (py "wind_speed", VJson wind_speed);
     (py "weather_condition", VJson weather_condition);
     (py "description", VJson description); (py "timestamp", VTime now)] in
  (∀ k, create_current_weather_html summary ≠ inl (KeyError k)) ∧
  (is_temperature temperature → is_temperature feels_like → is_str description →
   ∃ html, create_current_weather_html summary = inr html).
Proof.
  intros summary.
  destruct (summary_items city country temperature feels_like humidity pressure
              wind_speed weather_condition description)
    as (Hcity & Hcountry & Htemp & Hfeels & Hhum & Hpres & Hwind & Hcond & Hdesc & Htime).
  fold summary in Hcity, Hcountry, Htemp, Hfeels, Hhum, Hpres, Hwind, Hcond, Hdesc, Htime.
  assert (∀ v, (∃ n, format_f 1 v = inr n) ∨ format_f 1 v = inl ValueError ∨
               format_f 1 v = inl TypeError ∨ format_f 1 v = inl OverflowError)
    as Hformat.
  { intros v. unfold format_f.
    destruct v; simpl; eauto; destruct (num_fmt 1 _); eauto 6. }
  assert (∀ v, (∃ s, method_title v = inr s) ∨ method_title v = inl AttributeError)
    as Htitle.
  { intros v. destruct v; simpl; eauto. }
  unfold create_current_weather_html. cbn [summary].
  fold summary. rewrite Hcity, Hcountry, Htemp, Hfeels, Hhum, Hpres, Hwind, Hcond,
    Hdesc, Htime.
  cbn [bind value_strftime value_format_f value_title].
  split.
  - intros k.
    destruct (Hformat temperature) as [[t ->]|[->|[->| ->]]]; [|done..]. cbn [bind].
    destruct (Hformat feels_like) as [[f ->]|[->|[->| ->]]]; [|done..]. cbn [bind].
    by destruct (Htitle description) as [[d ->]| ->].
  - intros Htemperature Hfeels_like Hdescription.
    assert (∀ v, is_temperature v → ∃ n, format_f 1 v = inr n) as Hnumber.
    { intros v (n & Hn & text & Htext). unfold format_f. rewrite Hn, Htext.
      destruct v; try done; eauto. }
    destruct (Hnumber _ Htemperature) as [t ->].
    destruct (Hnumber _ Hfeels_like) as [f ->]. cbn [bind].
    destruct description; try done. simpl. eauto.
Qed.

(** X19: the summary card of the page.  For a payload that is false
    [process_current_weather] returns the empty dict, for which the card
    is the paragraph that says so.  For a dict that is true, in which sys,
    main and wind, where present, are dicts, weather, where present, is a
    list that starts with a dict, temp and feels_like, or the zero that
    stands for an absent one, are numbers that the format .1f takes and
    the description, where present, is a string, it returns the ten keys
    in their order, each of the
    first nine with the field of the payload or its default (Unknown for
    a text, 0 for a number) and the last with the current time, and the
    card of that summary is rendered.  A dict that is true, in which sys,
    main and wind, where present, are dicts, and whose weather list is
    empty raises [IndexError]; the card of a summary that
    [process_current_weather] returned never raises [KeyError]. *)
Theorem current_weather_summary (data : json) :
  (truthy data = false →
   process_current_weather data = inr [] ∧
   create_current_weather_html [] = inr (py "<p>No current weather data available</p>")) ∧
  (truthy data = true → summary_shape data →
   let main := field (Some data) "main" in
   let weather0 := first_item (field (Some data) "weather") in
   let summary :=
     [(py "city", shown_value (field (Some data) "name") (JStr (py "Unknown")));
      (py "country",
       shown_value (field (field (Some data) "sys") "country") (JStr (py "Unknown")));
      (py "temperature", shown_value (field main "temp") (JNum (num_of_Z 0)));
      (py "feels_like", shown_value (field main "feels_like") (JNum (num_of_Z 0)));
      (py "humidity", shown_value (field main "humidity") (JNum (num_of_Z 0)));
      (py "pressure", shown_value (field main "pressure") (JNum (num_of_Z 0)));
      (py "wind_speed",
       shown_value (field (field (Some data) "wind") "speed") (JNum (num_of_Z 0)));
      (py "weather_condition", shown_value (field weather0 "main") (JStr (py "Unknown")));
      (py "description", shown_value (field weather0 "description") (JStr (py "Unknown")));
      (py "timestamp", VTime now)] in
   process_current_weather data = inr summary ∧
   ∃ html, create_current_weather_html summary = inr html) ∧
  (truthy data = true → is_obj data →
   shaped is_obj (field (Some data) "sys") → shaped is_obj (field (Some data) "main") →
   shaped is_obj (field (Some data) "wind") →
   field (Some data) "weather" = Some (JArr []) →
   process_current_weather data = inl IndexError) ∧
  (∀ summary k, process_current_weather data = inr summary →
   create_current_weather_html summary ≠ inl (KeyError k)).
Proof.
  split; [|split; [|split]].
  - intros Hfalse. unfold process_current_weather. by rewrite Hfalse.
  - intros Htrue (Hobj & Hsys & Hmain & Hwind & Hweather & Htemp & Hfeels & Hdesc)
      main weather0 summary.
    split.
    { unfold process_current_weather. rewrite Htrue. cbn [negb].
      rewrite method_get_field by done. cbn [bind].
      rewrite !get2_field by done. cbn [bind].
      rewrite !weather0_field by done. cbn [bind]. reflexivity. }
    apply create_current_weather_html_card.
    + exact Htemp.
    + exact Hfeels.
    + fold weather0 in Hdesc. by destruct (field weather0 "description").
  - intros Htrue Hobj Hsys Hmain Hwind Hweather.
    unfold process_current_weather. rewrite Htrue. cbn [negb].
    rewrite method_get_field by done. cbn [bind].
    rewrite !get2_field by done. cbn [bind].
    unfold weather0. rewrite method_get_field by done. by rewrite Hweather.
  - intros summary k [->|Hkeys]%process_current_weather_keys; [done|].
    destruct Hkeys as (city & country & temperature & feels_like & humidity & pressure &
                       wind_speed & weather_condition & description & ->).
    apply create_current_weather_html_card.
Qed.

End SummaryCard.

Section PageProperties.
Import DashboardPage.
Context `{Plots} `{Unicode} `{!Session} `{!Storage}.
Local Arguments py : simpl never.

Lemma process_forecast_data_none (o : outcome) :
  no_forecast o →
  (let* data := WeatherAPI.receive (JObj []) o in process_forecast_data data) = inr [].
Proof.
  intros [Hfail|(status_code & data & -> & Hstatus & Hdata)].
  - by rewrite receive_transport_failure.
  - simpl. rewrite Hstatus. simpl. unfold process_forecast_data.
    destruct Hdata as [Hfalse|(fields & -> & Hlist)]; [by rewrite Hfalse|].
    destruct (truthy (JObj fields)); [|done]. cbn [negb contains bind].
    destruct Hlist as [Hlist|[Hlist Hcity]].
    + rewrite Hlist. rewrite bool_decide_eq_false_2; [done|]. by intros [? ?].
    + rewrite Hlist. rewrite bool_decide_eq_true_2 by eauto. cbn [negb].
      unfold get2. cbn [method_get]. cbn [bind].
      destruct (dict_lookup fields (py "city")) as [city|]; simpl.
      * destruct city; try done. simpl. by rewrite Hlist.
      * by rewrite Hlist.
Qed.

Lemma process_forecast_data_city (fields : list (pystr * json)) (items c : json) :
  dict_lookup fields (py "list") = Some items →
  dict_lookup fields (py "city") = Some c → ¬ is_obj c →
  process_forecast_data (JObj fields) = inl AttributeError.
Proof.
  intros Hlist Hcity Hc. unfold process_forecast_data.
  assert (truthy (JObj fields) = true) as ->.
  { destruct fields; [done|]. done. }
  cbn [negb contains bind]. rewrite Hlist.
  rewrite bool_decide_eq_true_2 by eauto. cbn [negb].
  unfold get2. cbn [method_get bind]. rewrite Hcity. simpl.
  by destruct c.
Qed.

(** X20: the page without a forecast.  [create_integrated_dashboard]
    sends the weather request first.  When [process_current_weather]
    raises on its answer, the page raises that exception after this one
    request and [save_dashboard] passes it on without writing.  When it
    returns, the forecast request follows, and when that one fails, or is
    answered by a payload that is false, by a dict without a list, or by
    a dict with an empty list whose city is absent or a dict, the page is
    the one line that says that the data could not be fetched, after the
    two requests and no other, whatever the cities of the comparison;
    [save_dashboard] then writes that line, as utf-8, to the file that is
    named or else to the default name, and returns the name when the
    write returns and raises the exception of the write otherwise.  When
    the forecast is a dict with a list and with a city that is no dict,
    the page raises [AttributeError] and nothing is written. *)
Theorem page_without_forecast (api_key city : pystr) (multi_cities : option (list pystr))
    (filename : option pystr) (w w1 w2 : world) (o1 o2 : outcome) (d : disk) :
  session_get (weather_request api_key city) w = (o1, w1) →
  session_get (IntegratedWeatherDashboard.forecast_request api_key city) w1 = (o2, w2) →
  let current :=
    (let* data := WeatherAPI.receive (JObj []) o1 in process_current_weather data) in
  (∀ e, current = inl e →
     create_integrated_dashboard api_key city multi_cities w = (inl e, w1) ∧
     save_dashboard api_key city multi_cities filename w d = (inl (PageError e), w1, d)) ∧
  (∀ summary, current = inr summary → no_forecast o2 →
     create_integrated_dashboard api_key city multi_cities w = (inr unable, w2) ∧
     save_dashboard api_key city multi_cities filename w d =
       match write_file (Some (py "utf-8")) (saved_as city filename) unable d with
       | (None, d') => (inr (saved_as city filename), w2, d')
       | (Some text, d') => (inl (FileError text), w2, d')
       end) ∧
  (∀ summary status_code fields items c,
     current = inr summary →
     o2 = Response status_code (Some (JObj fields)) →
     raise_for_status status_code = false →
     dict_lookup fields (py "list") = Some items →
     dict_lookup fields (py "city") = Some c → ¬ is_obj c →
     create_integrated_dashboard api_key city multi_cities w = (inl AttributeError, w2) ∧
     save_dashboard api_key city multi_cities filename w d =
       (inl (PageError AttributeError), w2, d)).
Proof.
  intros Hget1 Hget2 current. split; [|split].
  - intros e He.
    assert (create_integrated_dashboard api_key city multi_cities w = (inl e, w1))
      as Hpage.
    { unfold create_integrated_dashboard, get_current_weather.
      rewrite Hget1. fold current. by rewrite He. }
    split; [done|]. unfold save_dashboard. by rewrite Hpage.
  - intros summary Hsummary Hnone%process_forecast_data_none.
    assert (create_integrated_dashboard api_key city multi_cities w = (inr unable, w2))
      as Hpage.
    { unfold create_integrated_dashboard, get_current_weather,
        IntegratedWeatherDashboard.get_forecast_data.
      rewrite Hget1. fold current. rewrite Hsummary, Hget2. by rewrite Hnone. }
    split; [done|]. unfold save_dashboard. rewrite Hpage. fold (saved_as city filename).
    by destruct (write_file _ _ _ _) as [[text|] d'].
  - intros summary status_code fields items c Hsummary -> Hstatus Hlist Hcity Hc.
    assert (create_integrated_dashboard api_key city multi_cities w =
              (inl AttributeError, w2)) as Hpage.
    { unfold create_integrated_dashboard, get_current_weather,
        IntegratedWeatherDashboard.get_forecast_data.
      rewrite Hget1. fold current. rewrite Hsummary, Hget2.
      cbn [WeatherAPI.receive]. rewrite Hstatus. cbn [bind].
      by rewrite (process_forecast_data_city fields items c Hlist Hcity Hc). }
    split; [done|]. unfold save_dashboard. by rewrite Hpage.
Qed.

(** X21: a forecast whose first sample has no dt_txt makes
    [create_integrated_dashboard] raise the [KeyError] of that key, which
    [save_dashboard] lets through before it opens the file: nothing is
    written. *)
Theorem forecast_sample_without_time (api_key city : pystr)
    (multi_cities : option (list pystr)) (filename : option pystr) (w w1 w2 : world)
    (o1 : outcome) (status_code : Z) (fields item : list (pystr * json))
    (rest : list json) (summary : list (pystr * value)) (d : disk) :
  session_get (weather_request api_key city) w = (o1, w1) →
  session_get (IntegratedWeatherDashboard.forecast_request api_key city) w1 =
    (Response status_code (Some (JObj fields)), w2) →
  (let* data := WeatherAPI.receive (JObj []) o1 in process_current_weather data)
    = inr summary →
  raise_for_status status_code = false →
  shaped is_obj (dict_lookup fields (py "city")) →
  dict_lookup fields (py "list") = Some (JArr (JObj item :: rest)) →
  dict_lookup item (py "dt_txt") = None →
  create_integrated_dashboard api_key city multi_cities w =
    (inl (KeyError (KStr (py "dt_txt"))), w2) ∧
  save_dashboard api_key city multi_cities filename w d =
    (inl (PageError (KeyError (KStr (py "dt_txt")))), w2, d).
Proof.
  intros Hget1 Hget2 Hsummary Hstatus Hcity Hlist Hitem.
  assert (process_forecast_data (JObj fields) = inl (KeyError (KStr (py "dt_txt"))))
    as Hrows.
  { unfold process_forecast_data.
    assert (truthy (JObj fields) = true) as ->.
    { destruct fields; [done|]. done. }
    cbn [negb contains bind]. rewrite Hlist.
    rewrite bool_decide_eq_true_2 by eauto. cbn [negb].
    unfold get2. cbn [method_get bind].
    assert (∃ name, method_get (from_option id (JObj []) (dict_lookup fields (py "city")))
                      (py "name") (JStr (py "Unknown")) = inr name) as [name ->].
    { destruct (dict_lookup fields (py "city")) as [c|]; simpl; [|eauto].
      destruct c; try done. simpl. eauto. }
    cbn [bind subscript]. rewrite Hlist. cbn [bind py_iter map_res].
    unfold forecast_row. cbn [subscript]. by rewrite Hitem. }
  assert (create_integrated_dashboard api_key city multi_cities w =
            (inl (KeyError (KStr (py "dt_txt"))), w2)) as Hpage.
  { unfold create_integrated_dashboard, get_current_weather,
      IntegratedWeatherDashboard.get_forecast_data.
    rewrite Hget1, Hsummary, Hget2. cbn [WeatherAPI.receive]. rewrite Hstatus.
    cbn [bind]. by rewrite Hrows. }
  split; [done|]. unfold save_dashboard. by rewrite Hpage.
Qed.

End PageProperties.

Section MultiCityProperties.
Import DashboardPage.
Context `{Plots}.
Local Arguments py : simpl never.

Lemma multi_city_data_down (S : Session) (api_key : pystr) (cities : list pystr)
    (current_data : list (list (pystr * value))) (log : list request)
    (net : @world _ S) :
  network_down S →
  ∃ net', @multi_city_data _ _ (recording S) api_key cities current_data (log, net) =
          (inr current_data, (log ++ map (weather_request api_key) cities, net')).
Proof.
  intros Hdown. revert log net.
  induction cities as [|city cities IH]; intros log net.
  - exists net. simpl. by rewrite app_nil_r.
  - cbn [multi_city_data]. unfold get_current_weather.
    cbn [session_get recording fst snd].
    pose proof (Hdown (weather_request api_key city) net) as Hfail.
    destruct (session_get (weather_request api_key city) net) as [o net1].
    cbn [fst snd] in Hfail. rewrite (receive_transport_failure _ o Hfail).
    cbn [bind]. change (process_current_weather (JObj [])) with
      (inr [] : res (list (pystr * value))).
    cbv iota beta. destruct (IH (log ++ [weather_request api_key city]) net1) as [net' ->].
    exists net'. by rewrite <-app_assoc.
Qed.

(** X22: the comparison chart without a network.  When every request
    fails in the transport, [create_multi_city_chart] returns the empty
    string instead of a chart, after one request for each city, in the
    order of the list. *)
Theorem multi_city_chart_network_down (S : Session) (api_key : pystr)
    (cities : list pystr) (log : list request) (net : @world _ S) :
  network_down S →
  (@create_multi_city_chart _ _ _ _ (recording S) api_key cities (log, net)).1 = inr [] ∧
  (@create_multi_city_chart _ _ _ _ (recording S) api_key cities (log, net)).2.1 =
    log ++ map (weather_request api_key) cities.
Proof.
  intros Hdown. unfold create_multi_city_chart.
  destruct (multi_city_data_down S api_key cities [] log net Hdown) as [net' ->].
  done.
Qed.

End MultiCityProperties.

Lemma multi_city_chart_network_down_witness :
  (@DashboardPage.create_multi_city_chart _ _ _ MockPage.plots (recording offline)
     (py "key") [py "Oslo"; py "Lima"] ([], tt)).1 = inr [] ∧
  (@DashboardPage.create_multi_city_chart _ _ _ MockPage.plots (recording offline)
     (py "key") [py "Oslo"; py "Lima"] ([], tt)).2.1 =
    [] ++ map (DashboardPage.weather_request (py "key")) [py "Oslo"; py "Lima"].
Proof.
  exact (@multi_city_chart_network_down _ _ _ MockPage.plots offline (py "key")
           [py "Oslo"; py "Lima"] [] tt (λ _ _, I)).
Defined.

(** ** The command line *)

Section CommandLine.
Import WebMain.
Local Arguments py : simpl never.

Lemma str_split_no_sep (sep : N) (s : pystr) : sep ∉ s → str_split sep s = [s].
Proof.
  induction s as [|c s IH]; [done|]. rewrite not_elem_of_cons. intros [Hc Hs].
  simpl. destruct (N.eqb_spec c sep) as [->|_]; [done|]. by rewrite IH.
Qed.

Lemma str_split_app (sep : N) (x rest : pystr) :
  sep ∉ x → str_split sep (x ++ sep :: rest) = x :: str_split sep rest.
Proof.
  induction x as [|c x IH].
  - intros _. simpl. by rewrite N.eqb_refl.
  - rewrite not_elem_of_cons. intros [Hc Hx]. simpl.
    destruct (N.eqb_spec c sep) as [->|_]; [done|]. by rewrite IH.
Qed.

Lemma str_split_pieces (sep : N) (s piece : pystr) :
  piece ∈ str_split sep s → sep ∉ piece.
Proof.
  revert piece. induction s as [|c s IH]; intros piece; simpl.
  - intros ->%list_elem_of_singleton. apply not_elem_of_nil.
  - destruct (N.eqb_spec c sep) as [->|Hc].
    + intros [->|Hin]%elem_of_cons; [apply not_elem_of_nil | by apply IH].
    + destruct (str_split sep s) as [|p pieces].
      * intros ->%list_elem_of_singleton. rewrite not_elem_of_cons.
        split; [done | apply not_elem_of_nil].
      * intros [->|Hin]%elem_of_cons.
        -- rewrite not_elem_of_cons. split; [done|]. apply IH. left.
        -- apply IH. by right.
Qed.

Lemma str_strip_sub (s : pystr) (c : N) : c ∈ str_strip s → c ∈ s.
Proof.
  destruct (str_strip_spec s) as (pre & post & Hs & _). intros Hc.
  rewrite Hs. rewrite !elem_of_app. auto.
Qed.

Lemma city_name_ends (c : pystr) :
  city_name c →
  (∀ x, head c = Some x → isspace x = false) ∧ (∀ x, last c = Some x → isspace x = false).
Proof.
  intros (_ & Hstrip & _).
  destruct (str_strip_spec c) as (_ & _ & _ & _ & _ & Hhead & Hlast).
  by rewrite Hstrip in Hhead, Hlast.
Qed.

Lemma str_join_ends (l : list pystr) (c : pystr) :
  Forall city_name (c :: l) →
  (∀ x, head (str_join (py ", ") (c :: l)) = Some x → isspace x = false) ∧
  (∀ x, last (str_join (py ", ") (c :: l)) = Some x → isspace x = false).
Proof.
  revert c. induction l as [|c' l IH]; intros c Hall.
  - apply Forall_cons in Hall as [Hc _]. by apply city_name_ends.
  - apply Forall_cons in Hall as [Hc Hall].
    destruct (IH c' Hall) as [_ Hlast]. destruct (city_name_ends c Hc) as [Hhead _].
    change (str_join (py ", ") (c :: c' :: l))
      with (c ++ py ", " ++ str_join (py ", ") (c' :: l)).
    split.
    + intros x. destruct c as [|x' c]; [by destruct Hc|]. apply Hhead.
    + intros x. rewrite !last_app.
      destruct (last (str_join (py ", ") (c' :: l))) as [y|] eqn:Hy.
      * intros [= <-]. by apply Hlast.
      * apply last_None in Hy. destruct c' as [|? ?]; [|by destruct l].
        apply Forall_cons in Hall as [[Hne _] _]. done.
Qed.

Lemma str_split_join (l : list pystr) (c : pystr) :
  Forall city_name (c :: l) →
  str_split 44 (str_join (py ", ") (c :: l)) = c :: map (cons 32) l.
Proof.
  revert c. induction l as [|c' l IH]; intros c Hall.
  - apply Forall_cons in Hall as [(_ & _ & Hc) _]. by apply str_split_no_sep.
  - apply Forall_cons in Hall as [(_ & _ & Hc) Hall].
    change (str_join (py ", ") (c :: c' :: l))
      with (c ++ 44 :: 32 :: str_join (py ", ") (c' :: l)).
    rewrite str_split_app by done. f_equal.
    pose proof (IH c' Hall) as Hrest.
    change (str_split 44 (32 :: str_join (py ", ") (c' :: l))) with
      (match str_split 44 (str_join (py ", ") (c' :: l)) with
       | piece :: pieces => (32 :: piece) :: pieces
       | [] => [[32]]
       end).
    by rewrite Hrest.
Qed.

Lemma str_strip_space (c : pystr) : str_strip (32 :: c) = str_strip c.
Proof. done. Qed.

Lemma strip_pieces (l : list pystr) :
  Forall city_name l →
  map str_strip (filter (λ city, str_strip city ≠ []) (map (cons 32) l)) = l.
Proof.
  induction 1 as [|c l (Hne & Hstrip & _) _ IH]; [done|].
  rewrite fmap_cons, filter_cons_True by (by rewrite str_strip_space, Hstrip).
  rewrite fmap_cons, str_strip_space, Hstrip. f_equal. exact IH.
Qed.

(** X23: the cities that [main] reads from the line of the comparison are
    names: none is empty, none has a blank at either end, none holds a
    comma; a line of blanks gives no city. *)
Theorem parsed_cities_are_names (line : pystr) :
  Forall city_name (multi_cities line) ∧
  (blank line → multi_cities line = []).
Proof.
  split.
  - unfold multi_cities. destruct (str_strip line) as [|x s] eqn:Hline; [constructor|].
    apply Forall_forall. intros c (piece & -> & Hpiece)%list_elem_of_fmap.
    apply list_elem_of_filter in Hpiece as [Hne Hpiece].
    split; [done|]. split; [apply str_strip_idemp|].
    intros Hsep%str_strip_sub. by apply str_split_pieces in Hpiece.
  - intros Hblank%str_strip_blank. unfold multi_cities. by rewrite Hblank.
Qed.

(** X24: the line that [main] prints for the cities it has read, the
    names joined by a comma and a space, is read back as the same list. *)
Theorem multi_cities_round_trip (l : list pystr) :
  Forall city_name l → multi_cities (str_join (py ", ") l) = l.
Proof.
  intros Hall. destruct l as [|c l]; [done|].
  destruct (str_join_ends l c Hall) as [Hhead Hlast].
  unfold multi_cities. rewrite (str_strip_id _ Hhead Hlast).
  destruct (str_join (py ", ") (c :: l)) as [|x s] eqn:Hjoin.
  - exfalso. apply Forall_cons in Hall as [[Hne _] _].
    destruct l; [by subst|]. by destruct c.
  - rewrite <-Hjoin. rewrite (str_split_join l c Hall).
    apply Forall_cons in Hall as [(Hne & Hstrip & _) Hall].
    rewrite filter_cons_True by (by rewrite Hstrip).
    rewrite fmap_cons, Hstrip. f_equal. by apply strip_pieces.
Qed.

End CommandLine.

Lemma multi_cities_round_trip_witness :
  WebMain.multi_cities (str_join (py ", ") [py "New York"; py "Oslo"; py "Rio de Janeiro"])
  = [py "New York"; py "Oslo"; py "Rio de Janeiro"].
Proof.
  apply (multi_cities_round_trip [py "New York"; py "Oslo"; py "Rio de Janeiro"]).
  apply (bool_decide_unpack _). by vm_compute.
Defined.

Example multi_cities_blanks_and_commas :
  WebMain.multi_cities (py "  Paris ,, London,  ,Rome, ") = [py "Paris"; py "London"; py "Rome"].
Proof. reflexivity. Qed.

(** ** WeatherAnalytics *)

Section RainProperties.
Import WeatherAnalytics.
Context `{PyNum}.
Local Arguments py : simpl never.

Lemma rain_levels :
  rain_level (py "High") = 3%nat ∧ rain_level (py "Medium") = 2%nat ∧
  rain_level (py "Low") = 1%nat ∧ rain_level (py "Very Low") = 0%nat.
Proof. by vm_compute. Qed.

(** X25: [predict_rain_probability] is monotone: with [<] transitive, a
    higher humidity and a lower pressure never give a lower level among
    Very Low, Low, Medium and High. *)
Theorem rain_probability_monotone (humidity humidity' pressure pressure' : num) :
  Transitive num_lt →
  num_lt humidity humidity' ∨ humidity = humidity' →
  num_lt pressure' pressure ∨ pressure' = pressure →
  (rain_level (predict_rain_probability humidity pressure) ≤
   rain_level (predict_rain_probability humidity' pressure'))%nat.
Proof.
  intros Htrans Hh Hp.
  assert (∀ t, num_ltb t humidity = true → num_ltb t humidity' = true) as Hhum.
  { intros t Ht. destruct Hh as [Hh| <-]; [|done]. by apply (Htrans t humidity humidity'). }
  assert (∀ t, num_ltb pressure t = true → num_ltb pressure' t = true) as Hpre.
  { intros t Ht. destruct Hp as [Hp| ->]; [|done]. by apply (Htrans pressure' pressure t). }
  destruct rain_levels as (Hhigh & Hmedium & Hlow & Hvery).
  unfold predict_rain_probability.
  destruct (num_ltb (num_of_Z 80) humidity) eqn:H80;
    destruct (num_ltb pressure (num_of_Z 1013)) eqn:H1013;
    destruct (num_ltb (num_of_Z 60) humidity) eqn:H60;
    destruct (num_ltb pressure (num_of_Z 1015)) eqn:H1015;
    destruct (num_ltb (num_of_Z 40) humidity) eqn:H40;
    try (apply Hhum in H80 as ->); try (apply Hhum in H60 as ->);
    try (apply Hhum in H40 as ->); try (apply Hpre in H1013 as ->);
    try (apply Hpre in H1015 as ->); cbn [andb];
    repeat match goal with |- context [num_ltb ?a ?b] => destruct (num_ltb a b) end;
    cbn [andb]; rewrite ?Hhigh, ?Hmedium, ?Hlow, ?Hvery; lia.
Qed.

End RainProperties.

Lemma rain_probability_monotone_witness :
  (rain_level (@WeatherAnalytics.predict_rain_probability Mock.pynum 65%Z 1014%Z) ≤
   rain_level (@WeatherAnalytics.predict_rain_probability Mock.pynum 85%Z 1010%Z))%nat.
Proof.
  apply (@rain_probability_monotone Mock.pynum 65%Z 85%Z 1014%Z 1010%Z).
  - intros a b c Hab Hbc. unfold num_lt in *. simpl in *. lia.
  - left. reflexivity.
  - left. reflexivity.
Defined.

Section PageExamples.
Import DashboardPage.
Local Existing Instances Mock.pynum Mock.host Mock.unicode Mock.session MockFiles.storage
  MockPage.webhost MockPage.plots.

Lemma current_weather_summary_witness :
  ∃ summary html,
    process_current_weather (Mock.payload "Oslo" 12) = inr summary ∧
    item summary "city" = inr (VJson (JStr (py "Oslo"))) ∧
    item summary "temperature" = inr (VJson (celsius 12)) ∧
    create_current_weather_html summary = inr html.
Proof.
  destruct (proj1 (proj2 (current_weather_summary (Mock.payload "Oslo" 12))) eq_refl)
    as (Hsummary & html & Hhtml).
  { repeat split; try exact I; eexists; (split; [reflexivity|]); eexists; reflexivity. }
  eexists _, html. split; [exact Hsummary|]. split; [reflexivity|].
  split; [reflexivity|exact Hhtml].
Defined.

Lemma page_without_forecast_witness :
  create_integrated_dashboard (py "key") (py "Oslo") (Some [py "Lima"])
    [ok (Mock.payload "Oslo" 12); Raised Timeout] = (inr unable, []) ∧
  save_dashboard (py "key") (py "Oslo") (Some [py "Lima"]) (Some (py "oslo.html"))
    [ok (Mock.payload "Oslo" 12); Raised Timeout] empty_disk =
    match write_file (Some (py "utf-8")) (saved_as (py "Oslo") (Some (py "oslo.html")))
            unable empty_disk with
    | (None, d') => (inr (saved_as (py "Oslo") (Some (py "oslo.html"))), [], d')
    | (Some text, d') => (inl (FileError text), [], d')
    end.
Proof.
  exact (proj1 (proj2 (page_without_forecast (py "key") (py "Oslo") (Some [py "Lima"])
                         (Some (py "oslo.html"))
                         [ok (Mock.payload "Oslo" 12); Raised Timeout]
                         [Raised Timeout] [] (ok (Mock.payload "Oslo" 12)) (Raised Timeout)
                         empty_disk eq_refl eq_refl))
           _ eq_refl (or_introl I)).
Defined.

(** A weather answer with an empty weather list, and a forecast answer
    whose city is a string and whose list is empty: the first raises
    before the forecast is requested, the second after it. *)
Example page_without_forecast_raises :
  create_integrated_dashboard (py "key") (py "Oslo") None
    [ok (Mock.with_field "weather" (JArr []) (Mock.payload "Oslo" 12)); Raised Timeout] =
    (inl IndexError, [Raised Timeout]) ∧
  create_integrated_dashboard (py "key") (py "Oslo") None
    [ok (Mock.payload "Oslo" 12);
     ok (JObj [(py "city", JStr (py "Oslo")); (py "list", JArr [])])] =
    (inl AttributeError, []).
Proof. split; reflexivity. Qed.

Example page_without_forecast_file :
  (save_dashboard (py "key") (py "Oslo") None (Some (py "oslo.html"))
     [ok (Mock.payload "Oslo" 12); ok (Mock.forecast_payload [])] empty_disk).2 =
  [(py "oslo.html", unable)].
Proof. reflexivity. Qed.

Lemma forecast_sample_without_time_witness :
  create_integrated_dashboard (py "key") (py "Oslo") None
    [ok (Mock.payload "Oslo" 12); ok (Mock.forecast_payload [Mock.sample 1700000000 4])] =
    (inl (KeyError (KStr (py "dt_txt"))), []) ∧
  save_dashboard (py "key") (py "Oslo") None (Some (py "oslo.html"))
    [ok (Mock.payload "Oslo" 12); ok (Mock.forecast_payload [Mock.sample 1700000000 4])]
    empty_disk =
    (inl (PageError (KeyError (KStr (py "dt_txt")))), [], empty_disk).
Proof.
  exact (forecast_sample_without_time (py "key") (py "Oslo") None (Some (py "oslo.html"))
           [ok (Mock.payload "Oslo" 12);
            ok (Mock.forecast_payload [Mock.sample 1700000000 4])]
           [ok (Mock.forecast_payload [Mock.sample 1700000000 4])] []
           (ok (Mock.payload "Oslo" 12)) 200 _ _ [] _ empty_disk
           eq_refl eq_refl eq_refl eq_refl I eq_refl eq_refl).
Defined.

(** With a forecast the page holds the five charts in the order in which
    they are drawn, and the comparison before the last when cities are
    given. *)
Example page_with_forecast :
  (create_integrated_dashboard (py "key") (py "Oslo") None
     [ok (Mock.payload "Oslo" 12);
      ok (Mock.forecast_payload [page_sample "2023-11-14 22:00:00" 4])]).1 =
  (let* card := (let* summary := process_current_weather (Mock.payload "Oslo" 12) in
                 create_current_weather_html summary) in
   inr (py "Oslo" ++ card ++ py "trendconditionscorrelationdailyhourly")).
Proof. reflexivity. Qed.

End PageExamples.
